(** * Rapid Response Shopper: inventory change detection and notification dispatch

    A shallow embedding of the polling worker (inventoryMonitor,
    checkProductInventory, isAvailable), the Best Buy provider adapter, the
    provider factory, the Cosmos DB and Service Bus client wrappers, the SMS
    notification service, the notification sender worker and the handlers of
    the HTTP API (authentication, products, preferences), followed by the
    properties of the pipeline.

    Conventions.
    - A JavaScript string is the list of its UTF-16 code units, so that
      [length] is the JavaScript [.length].
    - An ISO-8601 timestamp written by [new Date().toISOString()] is
      identified with the instant it denotes, in milliseconds since the epoch;
      [new Date(s).getTime()] is then the identity and the store's
      [ORDER BY c.timestamp] is the order of [Z].
    - Asynchronous functions are computations over an explicit [World] (the
      containers, the queues, the requests issued, the log) that either fulfil
      or reject; what the outside answers (HTTP replies, store and transport
      faults, the clock, uuids, process.env) is read from an [Env].  An awaited
      call of an SDK client can reject: the environment says which requests are
      refused, and with which error.
    - The checks of one tick, which the worker starts together and awaits
      with [Promise.allSettled], are taken one after the other in the order of
      the product array.
    - Fields no worker reads are left out of the records ([_ts],
      [apiKeyReferences], the price and the availability texts of a Best Buy
      product, the address of a Best Buy store). *)

From Stdlib Require Import String Ascii ZArith NArith List Bool Lia DecimalString.
Import ListNotations.
Open Scope Z_scope.

(* ================================================================== *)
(** ** JavaScript strings *)

Module JS.

Definition CodeUnit := N.
Definition jstring := list CodeUnit.

(** An ASCII literal as a JavaScript string. *)
Definition js (s : string) : jstring :=
  map N_of_ascii (list_ascii_of_string s).

(** "\n" *)
Definition nl : jstring := [10%N].

Definition len (s : jstring) : Z := Z.of_nat (List.length s).

(** Truthiness of a string: the empty string is falsy. *)
Definition truthy (s : jstring) : bool :=
  match s with [] => false | _ :: _ => true end.

(** Truthiness of [string | undefined]. *)
Definition truthyOpt (o : option jstring) : bool :=
  match o with Some s => truthy s | None => false end.

(** [o ?? d] *)
Definition orElse {A : Type} (o : option A) (d : A) : A :=
  match o with Some a => a | None => d end.

Fixpoint eqb (a b : jstring) : bool :=
  match a, b with
  | [], [] => true
  | x :: a', y :: b' => N.eqb x y && eqb a' b'
  | _, _ => false
  end.

(** An index argument of [substring]: negative values count as 0, values
    beyond the length as the length. *)
Definition clampIndex (s : jstring) (i : Z) : nat :=
  Z.to_nat (Z.min (Z.max i 0) (len s)).

(** [s.substring(start, finish)]: both arguments clamped, swapped when
    start is the larger. *)
Definition substring (s : jstring) (start finish : Z) : jstring :=
  let a := clampIndex s start in
  let b := clampIndex s finish in
  skipn (Nat.min a b) (firstn (Nat.max a b) s).

End JS.
Import JS.

(* ================================================================== *)
(** ** Shared models (models/product.ts, models/events.ts) *)

Module Models.

(** ISO-8601 timestamp, as the instant in milliseconds it denotes. *)
Definition Timestamp := Z.

Inductive RetailerId := bestbuy | amazon | walmart | target.

Definition RetailerId_eqb (a b : RetailerId) : bool :=
  match a, b with
  | bestbuy, bestbuy | amazon, amazon | walmart, walmart | target, target => true
  | _, _ => false
  end.

Record StoreLocation := mkStoreLocation {
  loc_storeId : jstring;
  loc_storeName : jstring;
  loc_address : option jstring;
  loc_zipCode : jstring
}.

Record AvailabilityState := mkAvailabilityState {
  available : bool;
  quantity : option Z;
  lastKnownAvailable : option Timestamp
}.

(** StoreAvailability extends AvailabilityState with the store id. *)
Record StoreAvailability := mkStoreAvailability {
  sa_storeId : jstring;
  sa_available : bool;
  sa_quantity : option Z;
  sa_lastKnownAvailable : option Timestamp
}.

Record InventoryStatus := mkInventoryStatus {
  online : AvailabilityState;
  stores : list StoreAvailability
}.

Inductive Priority := high | normal.

Record MonitoredProduct := mkMonitoredProduct {
  id : jstring;
  retailer : RetailerId;
  sku : jstring;
  name : jstring;
  isActive : bool;
  priority : Priority;
  storeLocations : option (list StoreLocation);
  currentStatus : InventoryStatus;
  lastCheckedAt : Timestamp;
  lastStatusChangeAt : option Timestamp;
  imageUrl : option jstring;
  productUrl : jstring;
  addToCartUrl : jstring;
  createdAt : Timestamp;
  updatedAt : Timestamp
}.

Inductive HistoryEventType := in_stock | out_of_stock.

Record InventoryHistoryEntry := mkInventoryHistoryEntry {
  h_id : jstring;
  h_productId : jstring;
  h_eventType : HistoryEventType;
  h_timestamp : Timestamp;
  h_retailer : RetailerId;
  h_sku : jstring;
  h_online : bool;
  h_stores : list StoreAvailability;
  h_durationInStockMs : option Z;
  h_ttl : option Z
}.

Record PushSubscription := mkPushSubscription {
  ps_endpoint : jstring;
  ps_p256dh : jstring;
  ps_auth : jstring
}.

Record NotificationPreferences := mkNotificationPreferences {
  sms_enabled : bool;
  sms_phoneNumber : option jstring;
  push_enabled : bool;
  push_subscriptions : list PushSubscription
}.

Record UserPreferences := mkUserPreferences {
  up_id : jstring;
  notifications : NotificationPreferences;
  defaultPollIntervalSeconds : Z;
  highPriorityPollIntervalSeconds : Z;
  up_createdAt : Timestamp;
  up_updatedAt : Timestamp
}.

Inductive ChangeEventType := inventory_available | inventory_unavailable.

Record EventProduct := mkEventProduct {
  ep_id : jstring;
  ep_sku : jstring;
  ep_name : jstring;
  ep_retailer : RetailerId;
  ep_productUrl : jstring;
  ep_addToCartUrl : jstring;
  ep_imageUrl : option jstring
}.

Record EventStore := mkEventStore {
  es_storeId : jstring;
  es_storeName : jstring;
  es_available : bool
}.

Record InventoryChangeEvent := mkInventoryChangeEvent {
  eventId : jstring;
  eventType : ChangeEventType;
  ev_timestamp : Timestamp;
  ev_product : EventProduct;
  ev_online : bool;
  ev_stores : list EventStore;
  ev_correlationId : jstring;
  ev_source : jstring
}.

(** The declared channels are 'sms' and 'push'; a request read back from
    the queue may still name another one, which the sender's switch sends
    to its default branch. *)
Inductive Channel := sms | push | otherChannel (c : jstring).

Definition isPush (c : Channel) : bool :=
  match c with push => true | _ => false end.

Record NotificationRequest := mkNotificationRequest {
  requestId : jstring;
  nr_timestamp : Timestamp;
  triggerEvent : InventoryChangeEvent;
  channels : list Channel;
  attemptCount : Z;
  maxAttempts : Z;
  nr_correlationId : jstring
}.

End Models.
Import Models.

(* ================================================================== *)
(** ** Effects: errors, the world the workers act on, and its environment *)

Module Effects.

(** A thrown JavaScript [Error]: its name, its message and, for SDK errors, the
    numeric [code] that getUserPreferences inspects. *)
Record Error := mkError {
  errorName : jstring;
  message : jstring;
  code : option Z
}.

(** new Error(msg) *)
Definition newError (msg : jstring) : Error := mkError (js "Error") msg None.

(** [String(error)], that is Error.prototype.toString: the message alone
    when the name is empty, the name alone when the message is empty. *)
Definition errorToString (e : Error) : jstring :=
  if negb (truthy (errorName e)) then message e
  else if negb (truthy (message e)) then errorName e
  else errorName e ++ js ": " ++ message e.

(** Decimal rendering of an integer inside a template string. *)
Definition numberToString (n : Z) : jstring :=
  js (DecimalString.NilZero.string_of_int (Z.to_int n)).

Inductive Outcome (A : Type) :=
| Fulfilled (a : A)
| Rejected (e : Error).
Arguments Fulfilled {A} a.
Arguments Rejected {A} e.

Definition isFulfilled {A} (o : Outcome A) : bool :=
  match o with Fulfilled _ => true | Rejected _ => false end.

Definition isRejected {A} (o : Outcome A) : bool :=
  match o with Fulfilled _ => false | Rejected _ => true end.

(** Requests that leave the process. *)
Inductive Call :=
| HttpGetProduct (apiKey sku : jstring)
| HttpGetStores (apiKey sku : jstring) (storeIds : list jstring)
| CosmosQueryActiveProducts
| CosmosReplaceProduct (product : MonitoredProduct)
| CosmosQueryLatestHistory (productId : jstring)
| CosmosCreateHistory (entry : InventoryHistoryEntry)
| CosmosReadPreferences
| BusSendEvent (event : InventoryChangeEvent)
| BusQueueNotification (request : NotificationRequest)
| AcsSend (from to text : jstring).

Definition isReplaceProduct (c : Call) : bool :=
  match c with CosmosReplaceProduct _ => true | _ => false end.

Definition isAcsSend (c : Call) : bool :=
  match c with AcsSend _ _ _ => true | _ => false end.


Definition isHttp (c : Call) : bool :=
  match c with HttpGetProduct _ _ | HttpGetStores _ _ _ => true | _ => false end.

(** Result of one [NotificationRequest] on one channel. *)
Record NotificationResult := mkNotificationResult {
  res_requestId : jstring;
  success : bool;
  res_channel : Channel;
  error : option jstring;
  res_timestamp : Timestamp
}.

(** The lines written through [context.log], [context.warn] and
    [context.error], one constructor per call site. *)
Inductive LogLine :=
| LogMonitorTriggered (at_ : Timestamp)
| LogCorrelationId (correlationId : jstring)
| LogFoundActive (n : Z)
| LogCheckComplete (succeeded failed duration : Z)
| LogFailedToCheck (sku reason : jstring)
| LogMonitorError (e : Error)
| LogNoProvider (r : RetailerId)
| LogProductStatus (sku : jstring) (wasAvailable nowAvailable statusChanged : bool)
| LogPublished (t : ChangeEventType) (sku : jstring)
| LogQueuedNotification (sku : jstring)
| LogProcessing (requestId : jstring)
| LogAttempt (attempt maxAttempts : Z)
| LogNoPreferences
| LogSmsDisabled
| LogPushDisabled
| LogUnknownChannel (c : Channel)
| LogFailedToSend (c : Channel) (e : Error)
| LogDeliveryComplete (successful failed duration : Z)
| LogSenderError (e : Error)
| LogSendingSms (maskedNumber : jstring)
| LogSmsText (text : jstring)
| LogSmsSent (messageId : option jstring)
| LogSmsFailed (errorMessage : jstring)
| LogWouldSendPush (subscriptions : Z)
| LogPushPayload (body : jstring) (url : jstring).

Record World := mkWorld {
  w_products : list MonitoredProduct;          (* container 'products' *)
  w_history : list InventoryHistoryEntry;       (* container 'inventory-history', oldest insert first *)
  w_preferences : option UserPreferences;       (* item 'default' of 'user-preferences' *)
  w_events : list InventoryChangeEvent;         (* 'inventory-events', oldest first *)
  w_notifications : list NotificationRequest;   (* queue 'notifications', oldest first *)
  w_calls : list Call;                          (* every request issued, oldest first *)
  w_log : list LogLine;                         (* oldest first *)
  w_uuids : nat;                                (* uuids drawn so far *)
  w_clock : nat                                 (* clock readings taken so far *)
}.

(** Replies of the Best Buy API. *)
Record BestBuyProduct := mkBestBuyProduct {
  bbp_sku : Z;
  bbp_name : jstring;
  bbp_url : jstring;
  bbp_image : option jstring;
  bbp_addToCartUrl : jstring;
  bbp_onlineAvailability : bool;
  bbp_inStoreAvailability : bool
}.

Record BestBuyProductResponse := mkBestBuyProductResponse {
  bb_products : option (list BestBuyProduct);
  bb_total : Z
}.

Record BestBuyStoreAvailability := mkBestBuyStoreAvailability {
  bbs_storeId : jstring;
  bbs_name : jstring;
  bbs_inStorePickup : bool;
  bbs_friendsAndFamilyPickup : bool
}.

Record BestBuyStoreResponse := mkBestBuyStoreResponse {
  bb_stores : option (list BestBuyStoreAvailability)
}.

(** What [fetch] gives back: a rejection, or a response with its status
    line and parsed JSON body. *)
Inductive HttpReply (B : Type) :=
| FetchRejected (e : Error)
| HttpResponse (status : Z) (statusText : jstring) (json : B).
Arguments FetchRejected {B} e.
Arguments HttpResponse {B} status statusText json.

(** [response.ok] *)
Definition ok (status : Z) : bool := (200 <=? status) && (status <=? 299).

Record SmsSendResult := mkSmsSendResult {
  successful : bool;
  messageId : option jstring;
  errorMessage : option jstring
}.

(** Everything the outside decides. *)
Record Env := mkEnv {
  processEnv : jstring -> option jstring;
  clock : nat -> Timestamp;                      (* the n-th reading of the clock *)
  uuid : nat -> jstring;                         (* the n-th uuid drawn *)
  httpProduct : jstring -> jstring -> HttpReply BestBuyProductResponse;
  httpStores : jstring -> jstring -> list jstring -> HttpReply BestBuyStoreResponse;
  fault : Call -> option Error;                  (* a store or transport request that is refused *)
  acsSend : jstring -> jstring -> jstring -> Outcome (list SmsSendResult)
}.

(** An asynchronous computation. *)
Definition M (A : Type) : Type := World -> Outcome A * World.

Definition ret {A} (a : A) : M A := fun w => (Fulfilled a, w).

Definition throw {A} (e : Error) : M A := fun w => (Rejected e, w).

Definition bind {A B} (m : M A) (f : A -> M B) : M B :=
  fun w =>
    match m w with
    | (Fulfilled a, w') => f a w'
    | (Rejected e, w') => (Rejected e, w')
    end.

(** try { m } catch (e) { h e } *)
Definition catch {A} (m : M A) (h : Error -> M A) : M A :=
  fun w =>
    match m w with
    | (Fulfilled a, w') => (Fulfilled a, w')
    | (Rejected e, w') => h e w'
    end.

(** One promise of [Promise.allSettled]. *)
Definition settle {A} (m : M A) : M (Outcome A) :=
  fun w => let (o, w') := m w in (Fulfilled o, w').

Declare Scope m_scope.
Delimit Scope m_scope with M.
Notation "x <- m ;; k" := (bind m (fun x => k))
  (at level 61, m at next level, right associativity) : m_scope.
Notation "m ;;; k" := (bind m (fun _ => k))
  (at level 61, right associativity) : m_scope.
Open Scope m_scope.

Fixpoint mapM {A B} (f : A -> M B) (l : list A) : M (list B) :=
  match l with
  | [] => ret []
  | a :: l' => b <- f a ;; bs <- mapM f l' ;; ret (b :: bs)
  end.

(** [Promise.allSettled(xs.map(f))]: the checks are taken one after the
    other in the order of the array, each from the world its predecessors
    left.  The source starts every check before any of them continues, so
    what different checks do may interleave there; the order in which the
    checks are started, and the order of the steps within one check, are the
    same in both. *)
Definition allSettled {A B} (f : A -> M B) (l : list A) : M (list (Outcome B)) :=
  mapM (fun a => settle (f a)) l.

(** World updates. *)
Definition withProducts (f : list MonitoredProduct -> list MonitoredProduct) (w : World) :=
  mkWorld (f (w_products w)) (w_history w) (w_preferences w) (w_events w)
          (w_notifications w) (w_calls w) (w_log w) (w_uuids w) (w_clock w).
Definition withHistory (f : list InventoryHistoryEntry -> list InventoryHistoryEntry) (w : World) :=
  mkWorld (w_products w) (f (w_history w)) (w_preferences w) (w_events w)
          (w_notifications w) (w_calls w) (w_log w) (w_uuids w) (w_clock w).
Definition withEvents (f : list InventoryChangeEvent -> list InventoryChangeEvent) (w : World) :=
  mkWorld (w_products w) (w_history w) (w_preferences w) (f (w_events w))
          (w_notifications w) (w_calls w) (w_log w) (w_uuids w) (w_clock w).
Definition withNotifications (f : list NotificationRequest -> list NotificationRequest) (w : World) :=
  mkWorld (w_products w) (w_history w) (w_preferences w) (w_events w)
          (f (w_notifications w)) (w_calls w) (w_log w) (w_uuids w) (w_clock w).
Definition withCalls (f : list Call -> list Call) (w : World) :=
  mkWorld (w_products w) (w_history w) (w_preferences w) (w_events w)
          (w_notifications w) (f (w_calls w)) (w_log w) (w_uuids w) (w_clock w).
Definition withLog (f : list LogLine -> list LogLine) (w : World) :=
  mkWorld (w_products w) (w_history w) (w_preferences w) (w_events w)
          (w_notifications w) (w_calls w) (f (w_log w)) (w_uuids w) (w_clock w).

(** What a list gained since an earlier state of it. *)
Definition since {A} (before after : list A) : list A :=
  skipn (List.length before) after.

(** A relation between the world before and the world after that a
    computation keeps, whatever its outcome. *)
Definition preserves (R : World -> World -> Prop) {A} (m : M A) : Prop :=
  forall w, R w (snd (m w)).

Definition get : M World := fun w => (Fulfilled w, w).
Definition modify (f : World -> World) : M unit := fun w => (Fulfilled tt, f w).

(** context.log / warn / error *)
Definition log (l : LogLine) : M unit := modify (withLog (fun ls => ls ++ [l])).

(** new Date() / Date.now() *)
Definition newDate (env : Env) : M Timestamp :=
  fun w =>
    (Fulfilled (clock env (w_clock w)),
     mkWorld (w_products w) (w_history w) (w_preferences w) (w_events w)
             (w_notifications w) (w_calls w) (w_log w) (w_uuids w) (S (w_clock w))).

(** uuidv4() *)
Definition uuidv4 (env : Env) : M jstring :=
  fun w =>
    (Fulfilled (uuid env (w_uuids w)),
     mkWorld (w_products w) (w_history w) (w_preferences w) (w_events w)
             (w_notifications w) (w_calls w) (w_log w) (S (w_uuids w)) (w_clock w)).

(** Issue a request: it is recorded, and refused when the environment says so. *)
Definition issue (env : Env) (c : Call) : M unit :=
  modify (withCalls (fun cs => cs ++ [c])) ;;;
  match fault env c with
  | Some e => throw e
  | None => ret tt
  end.

(** process.env.NAME *)
Definition getenv (env : Env) (name : string) : option jstring :=
  processEnv env (js name).

(** new Error('NAME environment variable is required') *)
Definition configError (variable : string) : Error :=
  newError (js variable ++ js " environment variable is required").

End Effects.
Import Effects.

(* ================================================================== *)
(** ** Provider interface, Best Buy adapter and provider factory *)

Module Providers.

Record InventoryCheckResult := mkInventoryCheckResult {
  status : InventoryStatus;
  r_productUrl : jstring;
  r_addToCartUrl : jstring;
  r_imageUrl : option jstring;
  r_productName : option jstring
}.

Record RateLimit := mkRateLimit {
  requestsPerSecond : Z;
  requestsPerDay : option Z
}.

Record InventoryProviderConfig := mkInventoryProviderConfig {
  apiKey : jstring;
  rateLimit : option RateLimit
}.

(** IInventoryProvider (findStores, which no worker calls, is left out). *)
Record IInventoryProvider := mkInventoryProvider {
  retailerId : RetailerId;
  retailerName : jstring;
  checkInventory : Env -> jstring -> option (list StoreLocation) -> M InventoryCheckResult;
  getAddToCartUrl : jstring -> jstring;
  getProductUrl : jstring -> jstring;
  validateSku : Env -> jstring -> M bool
}.

(** *** BestBuyInventoryProvider *)

Record BestBuyInventoryProvider := mkBestBuyInventoryProvider {
  bb_apiKey : jstring;
  bb_rateLimit : RateLimit
}.

(** constructor *)
Definition newBestBuyInventoryProvider (config : InventoryProviderConfig)
    : BestBuyInventoryProvider :=
  mkBestBuyInventoryProvider (apiKey config)
    (orElse (rateLimit config) (mkRateLimit 5 None)).

Definition bestBuyApiError (status : Z) (statusText : jstring) : Error :=
  newError (js "Best Buy API error: " ++ numberToString status ++ js " " ++ statusText).

Definition productNotFound (sku : jstring) : Error :=
  newError (js "Product not found: " ++ sku).

(** What fetchProductDetails makes of the reply to its request. *)
Definition readProductReply (reply : HttpReply BestBuyProductResponse)
    : M (option BestBuyProduct) :=
  match reply with
  | FetchRejected e => throw e
  | HttpResponse status statusText data =>
      if negb (ok status) then
        if status =? 404 then ret None
        else throw (bestBuyApiError status statusText)
      else
        match bb_products data with
        | None => ret None
        | Some products =>
            if (bb_total data =? 0) || (List.length products =? 0)%nat then ret None
            else ret (hd_error products)
        end
  end.

(** fetchProductDetails: the request goes out with the call. *)
Definition fetchProductDetails (self : BestBuyInventoryProvider) (env : Env)
    (sku : jstring) : M (option BestBuyProduct) :=
  modify (withCalls (fun cs => cs ++ [HttpGetProduct (bb_apiKey self) sku])) ;;;
  readProductReply (httpProduct env (bb_apiKey self) sku).

(** fetchStoreAvailability *)
Definition fetchStoreAvailability (self : BestBuyInventoryProvider) (env : Env)
    (sku : jstring) (storeIds : list jstring) : M (list BestBuyStoreAvailability) :=
  modify (withCalls (fun cs => cs ++ [HttpGetStores (bb_apiKey self) sku storeIds])) ;;;
  match httpStores env (bb_apiKey self) sku storeIds with
  | FetchRejected e => throw e
  | HttpResponse status statusText data =>
      if negb (ok status) then throw (bestBuyApiError status statusText)
      else ret (orElse (bb_stores data) [])
  end.

Definition bestBuyAddToCartUrl (sku : jstring) : jstring :=
  js "https://api.bestbuy.com/click/-/" ++ sku ++ js "/cart".

Definition bestBuyProductUrl (sku : jstring) : jstring :=
  js "https://www.bestbuy.com/site/" ++ sku ++ js ".p".

(** [flag ? new Date().toISOString() : undefined] *)
Definition stampIf (env : Env) (flag : bool) : M (option Timestamp) :=
  if flag then t <- newDate env ;; ret (Some t) else ret None.

Definition toStoreAvailability (env : Env) (sa : BestBuyStoreAvailability)
    : M StoreAvailability :=
  t <- stampIf env (bbs_inStorePickup sa) ;;
  ret (mkStoreAvailability (bbs_storeId sa) (bbs_inStorePickup sa) None t).

(** checkInventory, from the answer of fetchProductDetails on. *)
Definition checkFound (self : BestBuyInventoryProvider) (env : Env)
    (sku : jstring) (storeLocations : option (list StoreLocation))
    (productData : option BestBuyProduct) : M InventoryCheckResult :=
  match productData with
  | None => throw (productNotFound sku)
  | Some productData =>
      t <- stampIf env (bbp_onlineAvailability productData) ;;
      let onlineState := mkAvailabilityState (bbp_onlineAvailability productData) None t in
      storeList <-
        match storeLocations with
        | Some (loc :: locs) =>
            let storeIds := map loc_storeId (loc :: locs) in
            storeAvailability <- fetchStoreAvailability self env sku storeIds ;;
            mapM (toStoreAvailability env) storeAvailability
        | _ => ret []
        end ;;
      ret (mkInventoryCheckResult
             (mkInventoryStatus onlineState storeList)
             (bestBuyProductUrl sku)
             (bestBuyAddToCartUrl sku)
             (bbp_image productData)
             (Some (bbp_name productData)))
  end.

(** checkInventory *)
Definition bestBuyCheckInventory (self : BestBuyInventoryProvider) (env : Env)
    (sku : jstring) (storeLocations : option (list StoreLocation))
    : M InventoryCheckResult :=
  productData <- fetchProductDetails self env sku ;;
  checkFound self env sku storeLocations productData.

(** validateSku *)
Definition bestBuyValidateSku (self : BestBuyInventoryProvider) (env : Env)
    (sku : jstring) : M bool :=
  catch (product <- fetchProductDetails self env sku ;;
         ret (match product with Some _ => true | None => false end))
        (fun _ => ret false).

(** The adapter seen through the interface. *)
Definition asProvider (self : BestBuyInventoryProvider) : IInventoryProvider :=
  mkInventoryProvider bestbuy (js "Best Buy")
    (bestBuyCheckInventory self)
    bestBuyAddToCartUrl
    bestBuyProductUrl
    (bestBuyValidateSku self).

(** *** InventoryProviderFactory: a Map from retailer id to provider, in
    insertion order. *)

Definition InventoryProviderFactory := list (RetailerId * IInventoryProvider).

Fixpoint mapSet (k : RetailerId) (v : IInventoryProvider)
    (m : InventoryProviderFactory) : InventoryProviderFactory :=
  match m with
  | [] => [(k, v)]
  | (k', v') :: m' =>
      if RetailerId_eqb k' k then (k, v) :: m' else (k', v') :: mapSet k v m'
  end.

Definition registerProvider (provider : IInventoryProvider)
    (factory : InventoryProviderFactory) : InventoryProviderFactory :=
  mapSet (retailerId provider) provider factory.

Definition getProvider (factory : InventoryProviderFactory) (r : RetailerId)
    : option IInventoryProvider :=
  match find (fun kv => RetailerId_eqb (fst kv) r) factory with
  | Some kv => Some (snd kv)
  | None => None
  end.

Definition getSupportedRetailers (factory : InventoryProviderFactory) : list RetailerId :=
  map fst factory.

Definition isSupported (factory : InventoryProviderFactory) (r : RetailerId) : bool :=
  existsb (fun kv => RetailerId_eqb (fst kv) r) factory.

(** InventoryProviderFactory.create: only a Best Buy configuration with a
    non-empty API key registers a provider. *)
Definition create (configs : RetailerId -> option InventoryProviderConfig)
    : InventoryProviderFactory :=
  match configs bestbuy with
  | Some config =>
      if truthy (apiKey config)
      then registerProvider (asProvider (newBestBuyInventoryProvider config)) []
      else []
  | None => []
  end.

End Providers.
Import Providers.

(* ================================================================== *)
(** ** Cosmos DB client wrapper (CosmosDbClient) *)

Module Cosmos.

(** getCosmosClient: the constructor refuses a missing or empty
    COSMOS_ENDPOINT.  process.env does not change during a run, so the
    cached instance and a fresh one behave alike. *)
Definition getCosmosClient (env : Env) : M unit :=
  if truthyOpt (getenv env "COSMOS_ENDPOINT") then ret tt
  else throw (configError "COSMOS_ENDPOINT").

(** getActiveProducts: SELECT * FROM c WHERE c.isActive = true *)
Definition getActiveProducts (env : Env) : M (list MonitoredProduct) :=
  issue env CosmosQueryActiveProducts ;;;
  w <- get ;;
  ret (filter isActive (w_products w)).

Definition setUpdatedAt (t : Timestamp) (p : MonitoredProduct) : MonitoredProduct :=
  mkMonitoredProduct (id p) (retailer p) (sku p) (name p) (isActive p) (priority p)
    (storeLocations p) (currentStatus p) (lastCheckedAt p) (lastStatusChangeAt p)
    (imageUrl p) (productUrl p) (addToCartUrl p) (createdAt p) t.

Definition hasId (i : jstring) (p : MonitoredProduct) : bool := JS.eqb (id p) i.

(** item(id, id).replace(body): the stored item with that id is replaced;
    the store answers 404 when there is none. *)
Definition replaceItem (product : MonitoredProduct) : M unit :=
  w <- get ;;
  if existsb (hasId (id product)) (w_products w)
  then modify (withProducts (map (fun q => if hasId (id product) q then product else q)))
  else throw (mkError (js "Error") (js "Entity with the specified id does not exist") (Some 404)).

(** updateProduct: stamps updatedAt on the caller's object, then replaces
    the stored item.  The stamped object is returned to the caller. *)
Definition updateProduct (env : Env) (product : MonitoredProduct) : M MonitoredProduct :=
  t <- newDate env ;;
  let product := setUpdatedAt t product in
  issue env (CosmosReplaceProduct product) ;;;
  replaceItem product ;;;
  ret product.

(** items.create(entry): refused with 409 when the partition already
    holds an item with that id. *)
Definition addHistoryEntry (env : Env) (entry : InventoryHistoryEntry) : M unit :=
  issue env (CosmosCreateHistory entry) ;;;
  w <- get ;;
  if existsb (fun e => JS.eqb (h_id e) (h_id entry)
                       && JS.eqb (h_productId e) (h_productId entry)) (w_history w)
  then throw (mkError (js "Error") (js "Entity with the specified id already exists") (Some 409))
  else modify (withHistory (fun h => h ++ [entry])).

(** The first row of ORDER BY c.timestamp DESC: an entry of greatest
    timestamp (among equal ones, the one inserted first). *)
Fixpoint newest (best : InventoryHistoryEntry) (rest : list InventoryHistoryEntry)
    : InventoryHistoryEntry :=
  match rest with
  | [] => best
  | e :: rest' => newest (if h_timestamp best <? h_timestamp e then e else best) rest'
  end.

Definition top1ByTimestampDesc (rows : list InventoryHistoryEntry)
    : option InventoryHistoryEntry :=
  match rows with
  | [] => None
  | e :: rest => Some (newest e rest)
  end.

Definition ofProduct (productId : jstring) (e : InventoryHistoryEntry) : bool :=
  JS.eqb (h_productId e) productId.

(** getLatestHistoryEntry: SELECT TOP 1 * FROM c WHERE c.productId =
    @productId ORDER BY c.timestamp DESC *)
Definition getLatestHistoryEntry (env : Env) (productId : jstring)
    : M (option InventoryHistoryEntry) :=
  issue env (CosmosQueryLatestHistory productId) ;;;
  w <- get ;;
  ret (top1ByTimestampDesc (filter (ofProduct productId) (w_history w))).

(** getUserPreferences: a 404 from the read means no preferences; any
    other error is rethrown. *)
Definition getUserPreferences (env : Env) : M (option UserPreferences) :=
  catch (issue env CosmosReadPreferences ;;;
         w <- get ;;
         ret (w_preferences w))
        (fun e => match code e with
                  | Some c => if c =? 404 then ret None else throw e
                  | None => throw e
                  end).

End Cosmos.

(* ================================================================== *)
(** ** Service Bus wrapper (ServiceBusMessenger) *)

Module ServiceBus.

(** getServiceBusMessenger: the constructor refuses a missing or empty
    SERVICE_BUS_NAMESPACE. *)
Definition getServiceBusMessenger (env : Env) : M unit :=
  if truthyOpt (getenv env "SERVICE_BUS_NAMESPACE") then ret tt
  else throw (configError "SERVICE_BUS_NAMESPACE").

(** sendInventoryEvent *)
Definition sendInventoryEvent (env : Env) (event : InventoryChangeEvent) : M unit :=
  issue env (BusSendEvent event) ;;;
  modify (withEvents (fun es => es ++ [event])).

(** queueNotification: the message is stamped with the current time
    (scheduledEnqueueTimeUtc) before it is sent. *)
Definition queueNotification (env : Env) (request : NotificationRequest) : M unit :=
  newDate env ;;;
  issue env (BusQueueNotification request) ;;;
  modify (withNotifications (fun q => q ++ [request])).

End ServiceBus.

(* ================================================================== *)
(** ** Inventory monitor worker (inventoryMonitor, checkProductInventory) *)

Module Monitor.

(** isAvailable: online, or some store. *)
Definition isAvailable (s : InventoryStatus) : bool :=
  available (online s) || existsb sa_available (stores s).

(** The assignments made to the product object before it is written. *)
Definition refreshed (product : MonitoredProduct) (result : InventoryCheckResult)
    (now : Timestamp) (statusChanged : bool) : MonitoredProduct :=
  mkMonitoredProduct (id product) (retailer product) (sku product) (name product)
    (isActive product) (priority product) (storeLocations product)
    (status result)
    now
    (if statusChanged then Some now else lastStatusChangeAt product)
    (if truthyOpt (r_imageUrl result) then r_imageUrl result else imageUrl product)
    (r_productUrl result)
    (r_addToCartUrl result)
    (createdAt product) (updatedAt product).

(** durationInStockMs of a new history entry. *)
Definition durationInStockMs (previousEntry : option InventoryHistoryEntry)
    (nowAvailable : bool) (now : Timestamp) : option Z :=
  match previousEntry with
  | Some previous =>
      match h_eventType previous with
      | in_stock => if negb nowAvailable then Some (now - h_timestamp previous) else None
      | out_of_stock => None
      end
  | None => None
  end.

Definition historyEntryFor (entryId : jstring) (product : MonitoredProduct)
    (result : InventoryCheckResult) (previousEntry : option InventoryHistoryEntry)
    (nowAvailable : bool) (now : Timestamp) : InventoryHistoryEntry :=
  mkInventoryHistoryEntry entryId (id product)
    (if nowAvailable then in_stock else out_of_stock)
    now (retailer product) (sku product)
    (available (online (status result)))
    (stores (status result))
    (durationInStockMs previousEntry nowAvailable now)
    (Some (90 * 24 * 60 * 60)).

(** storeLocations?.find(loc => loc.storeId === s.storeId)?.storeName ?? s.storeId *)
Definition storeNameOf (product : MonitoredProduct) (s : StoreAvailability) : jstring :=
  match storeLocations product with
  | Some locs =>
      match find (fun loc => JS.eqb (loc_storeId loc) (sa_storeId s)) locs with
      | Some loc => loc_storeName loc
      | None => sa_storeId s
      end
  | None => sa_storeId s
  end.

Definition eventFor (evId : jstring) (product : MonitoredProduct)
    (result : InventoryCheckResult) (nowAvailable : bool) (now : Timestamp)
    (correlationId : jstring) : InventoryChangeEvent :=
  mkInventoryChangeEvent evId
    (if nowAvailable then inventory_available else inventory_unavailable)
    now
    (mkEventProduct (id product) (sku product) (name product) (retailer product)
       (productUrl product) (addToCartUrl product) (imageUrl product))
    (available (online (status result)))
    (map (fun s => mkEventStore (sa_storeId s) (storeNameOf product s) (sa_available s))
         (stores (status result)))
    correlationId
    (js "inventory-monitor").

Definition notificationFor (reqId : jstring) (event : InventoryChangeEvent)
    (now : Timestamp) (correlationId : jstring) : NotificationRequest :=
  mkNotificationRequest reqId now event [sms] 0 3 correlationId.

(** The part of checkProductInventory that follows the provider's answer. *)
Definition afterCheck (env : Env) (product : MonitoredProduct)
    (result : InventoryCheckResult) (correlationId : jstring) : M unit :=
  now <- newDate env ;;
  let wasAvailable := isAvailable (currentStatus product) in
  let nowAvailable := isAvailable (status result) in
  let statusChanged := negb (Bool.eqb wasAvailable nowAvailable) in
  log (LogProductStatus (sku product) wasAvailable nowAvailable statusChanged) ;;;
  product <- Cosmos.updateProduct env (refreshed product result now statusChanged) ;;
  if statusChanged then
    previousEntry <- Cosmos.getLatestHistoryEntry env (id product) ;;
    entryId <- uuidv4 env ;;
    Cosmos.addHistoryEntry env
      (historyEntryFor entryId product result previousEntry nowAvailable now) ;;;
    evId <- uuidv4 env ;;
    let event := eventFor evId product result nowAvailable now correlationId in
    ServiceBus.sendInventoryEvent env event ;;;
    log (LogPublished (eventType event) (sku product)) ;;;
    if nowAvailable then
      reqId <- uuidv4 env ;;
      ServiceBus.queueNotification env (notificationFor reqId event now correlationId) ;;;
      log (LogQueuedNotification (sku product))
    else ret tt
  else ret tt.

(** checkProductInventory *)
Definition checkProductInventory (env : Env) (product : MonitoredProduct)
    (providerFactory : InventoryProviderFactory) (correlationId : jstring) : M unit :=
  match getProvider providerFactory (retailer product) with
  | None => log (LogNoProvider (retailer product))
  | Some provider =>
      result <- checkInventory provider env (sku product) (storeLocations product) ;;
      afterCheck env product result correlationId
  end.

(** The factory the monitor builds on every tick. *)
Definition monitorFactory (env : Env) : InventoryProviderFactory :=
  create (fun r =>
    match r with
    | bestbuy =>
        Some (mkInventoryProviderConfig
                (orElse (getenv env "BESTBUY_API_KEY") [])
                (Some (mkRateLimit 5 None)))
    | _ => None
    end).

Definition countWhere {A} (f : A -> bool) (l : list A) : Z :=
  Z.of_nat (List.length (filter f l)).

(** results.forEach: one error line per rejected check. *)
Fixpoint logFailures (products : list MonitoredProduct) (results : list (Outcome unit))
    : M unit :=
  match products, results with
  | p :: ps, r :: rs =>
      match r with
      | Rejected reason => log (LogFailedToCheck (sku p) (errorToString reason))
      | Fulfilled _ => ret tt
      end ;;;
      logFailures ps rs
  | _, _ => ret tt
  end.

(** The body of the try block, once the products are loaded. *)
Definition processProducts (env : Env) (startTime : Timestamp) (correlationId : jstring)
    (products : list MonitoredProduct) : M unit :=
  log (LogFoundActive (Z.of_nat (List.length products))) ;;;
  match products with
  | [] => ret tt
  | _ :: _ =>
      let providerFactory := monitorFactory env in
      results <- allSettled
                   (fun product => checkProductInventory env product providerFactory correlationId)
                   products ;;
      let succeeded := countWhere isFulfilled results in
      let failed := countWhere isRejected results in
      finished <- newDate env ;;
      log (LogCheckComplete succeeded failed (finished - startTime)) ;;;
      logFailures products results
  end.

(** inventoryMonitor *)
Definition inventoryMonitor (env : Env) : M unit :=
  startTime <- newDate env ;;
  correlationId <- uuidv4 env ;;
  triggeredAt <- newDate env ;;
  log (LogMonitorTriggered triggeredAt) ;;;
  log (LogCorrelationId correlationId) ;;;
  catch (Cosmos.getCosmosClient env ;;;
         ServiceBus.getServiceBusMessenger env ;;;
         products <- Cosmos.getActiveProducts env ;;
         processProducts env startTime correlationId products)
        (fun e => log (LogMonitorError e) ;;; throw e).

End Monitor.

(* ================================================================== *)
(** ** SMS alert text (SmsNotificationService.formatAlertMessage) *)

Module Sms.

(** U+1F6A8, two UTF-16 code units. *)
Definition siren : jstring := [0xD83D; 0xDEA8]%N.

Definition locationText (location : option jstring) : jstring :=
  if truthyOpt location then js " at " ++ orElse location [] else js " online".

Definition maxProductLength (productName addToCartUrl : jstring)
    (location : option jstring) : Z :=
  let baseMessage :=
    siren ++ js " IN STOCK" ++ locationText location ++ js "!" ++ nl
          ++ productName ++ nl in
  let urlText := nl ++ addToCartUrl in
  160 - len baseMessage - len urlText + len productName.

Definition truncatedName (productName addToCartUrl : jstring)
    (location : option jstring) : jstring :=
  let m := maxProductLength productName addToCartUrl location in
  if len productName >? m
  then substring productName 0 (m - 3) ++ js "..."
  else productName.

Definition formatAlertMessage (productName retailer addToCartUrl : jstring)
    (location : option jstring) : jstring :=
  siren ++ js " IN STOCK" ++ locationText location ++ js "!" ++ nl
        ++ truncatedName productName addToCartUrl location ++ nl
        ++ addToCartUrl.

Record SmsNotificationService := mkSmsNotificationService {
  fromNumber : jstring;
  viaConnectionString : bool
}.

(** constructor: only a missing or empty ACS_ENDPOINT is refused; a
    missing from-number becomes the empty string. *)
Definition newSmsNotificationService (env : Env) : M SmsNotificationService :=
  if negb (truthyOpt (getenv env "ACS_ENDPOINT"))
  then throw (configError "ACS_ENDPOINT")
  else ret (mkSmsNotificationService
              (orElse (getenv env "ACS_SMS_FROM_NUMBER") [])
              (truthyOpt (getenv env "ACS_CONNECTION_STRING"))).

(** getSmsService: process.env does not change during a run, so the cached
    instance and a fresh one behave alike. *)
Definition getSmsService (env : Env) : M SmsNotificationService :=
  newSmsNotificationService env.

(** sendSms: one call of the ACS client; the first element of its answer
    is returned (undefined when the answer is empty). *)
Definition sendSms (self : SmsNotificationService) (env : Env)
    (toNumber text : jstring) : M (option SmsSendResult) :=
  modify (withCalls (fun cs => cs ++ [AcsSend (fromNumber self) toNumber text])) ;;;
  match acsSend env (fromNumber self) toNumber text with
  | Rejected e => throw e
  | Fulfilled results => ret (hd_error results)
  end.

(** isConfigured *)
Definition isConfigured (self : SmsNotificationService) (env : Env) : bool :=
  truthy (fromNumber self) && truthyOpt (getenv env "ACS_ENDPOINT").

End Sms.

(* ================================================================== *)
(** ** Notification sender worker (notificationSender) *)

Module Sender.

Definition retailerToString (r : RetailerId) : jstring :=
  match r with
  | bestbuy => js "bestbuy"
  | amazon => js "amazon"
  | walmart => js "walmart"
  | target => js "target"
  end.

(** Reading [successful] of an undefined send result. *)
Definition undefinedResult : Error :=
  mkError (js "TypeError")
          (js "Cannot read properties of undefined (reading 'successful')") None.

(** sendSmsNotification *)
Definition sendSmsNotification (env : Env) (message : NotificationRequest)
    (phoneNumber : jstring) : M NotificationResult :=
  smsService <- Sms.getSmsService env ;;
  let event := triggerEvent message in
  let location := option_map es_storeName (find es_available (ev_stores event)) in
  let smsText :=
    Sms.formatAlertMessage (ep_name (ev_product event))
      (retailerToString (ep_retailer (ev_product event)))
      (ep_addToCartUrl (ev_product event)) location in
  log (LogSendingSms (substring phoneNumber 0 4)) ;;;
  log (LogSmsText smsText) ;;;
  catch (result <- Sms.sendSms smsService env phoneNumber smsText ;;
         match result with
         | None => throw undefinedResult
         | Some result =>
             if successful result then
               log (LogSmsSent (messageId result)) ;;;
               t <- newDate env ;;
               ret (mkNotificationResult (requestId message) true sms None t)
             else
               let errorMessage :=
                 js "SMS delivery failed: " ++ orElse (errorMessage result) (js "undefined") in
               log (LogSmsFailed errorMessage) ;;;
               t <- newDate env ;;
               ret (mkNotificationResult (requestId message) false sms (Some errorMessage) t)
         end)
        (fun error =>
           t <- newDate env ;;
           ret (mkNotificationResult (requestId message) false sms
                  (Some (errorToString error)) t)).

(** sendPushNotifications: a placeholder that reports one success per
    subscription without sending anything. *)
Definition sendPushNotifications (env : Env) (message : NotificationRequest)
    (subscriptions : list PushSubscription) : M (list NotificationResult) :=
  let event := triggerEvent message in
  log (LogWouldSendPush (Z.of_nat (List.length subscriptions))) ;;;
  log (LogPushPayload (ep_name (ev_product event)) (ep_addToCartUrl (ev_product event))) ;;;
  mapM (fun _ : PushSubscription =>
          t <- newDate env ;;
          ret (mkNotificationResult (requestId message) true push None t))
       subscriptions.

(** Whether the sender tries a channel of the request under the given
    preferences. *)
Definition attempted (prefs : NotificationPreferences) (channel : Channel) : bool :=
  match channel with
  | sms => sms_enabled prefs && truthyOpt (sms_phoneNumber prefs)
  | push => push_enabled prefs && (0 <? Z.of_nat (List.length (push_subscriptions prefs)))
  | otherChannel _ => false
  end.

(** One turn of the loop over message.channels: the results it pushes. *)
Definition processChannel (env : Env) (message : NotificationRequest)
    (prefs : NotificationPreferences) (channel : Channel) : M (list NotificationResult) :=
  catch (match channel with
         | sms =>
             if sms_enabled prefs && truthyOpt (sms_phoneNumber prefs) then
               smsResult <- sendSmsNotification env message (orElse (sms_phoneNumber prefs) []) ;;
               ret [smsResult]
             else
               log LogSmsDisabled ;;; ret []
         | push =>
             if push_enabled prefs && (0 <? Z.of_nat (List.length (push_subscriptions prefs))) then
               sendPushNotifications env message (push_subscriptions prefs)
             else
               log LogPushDisabled ;;; ret []
         | otherChannel _ =>
             log (LogUnknownChannel channel) ;;; ret []
         end)
        (fun error =>
           log (LogFailedToSend channel error) ;;;
           t <- newDate env ;;
           ret [mkNotificationResult (requestId message) false channel
                  (Some (errorToString error)) t]).

(** The loop: results accumulate in the order of the channels. *)
Fixpoint processChannels (env : Env) (message : NotificationRequest)
    (prefs : NotificationPreferences) (chans : list Channel) : M (list NotificationResult) :=
  match chans with
  | [] => ret []
  | channel :: rest =>
      pushed <- processChannel env message prefs channel ;;
      more <- processChannels env message prefs rest ;;
      ret (pushed ++ more)
  end.

(** xs.join(', ') with undefined entries rendered empty. *)
Fixpoint joinErrors (errors : list (option jstring)) : jstring :=
  match errors with
  | [] => []
  | [e] => orElse e []
  | e :: rest => orElse e [] ++ js ", " ++ joinErrors rest
  end.

Definition allFailed (results : list NotificationResult) : Error :=
  newError (js "All notification deliveries failed: " ++ joinErrors (map error results)).

Definition failedResult (r : NotificationResult) : bool := negb (success r).

(** The end of the try block: the summary and the decision to throw. *)
Definition conclude (env : Env) (startTime : Timestamp)
    (results : list NotificationResult) : M unit :=
  let successful := Monitor.countWhere success results in
  let failed := Monitor.countWhere failedResult results in
  finished <- newDate env ;;
  log (LogDeliveryComplete successful failed (finished - startTime)) ;;;
  if (0 <? Z.of_nat (List.length results)) && (successful =? 0)
  then throw (allFailed results)
  else ret tt.

(** The lines before the try block ([attemptCount] is taken to be an
    integer that [+ 1] increments exactly). *)
Definition started (env : Env) (message : NotificationRequest) : M Timestamp :=
  startTime <- newDate env ;;
  log (LogProcessing (requestId message)) ;;;
  log (LogCorrelationId (nr_correlationId message)) ;;;
  log (LogAttempt (attemptCount message + 1) (maxAttempts message)) ;;;
  ret startTime.

(** The first two awaits of the try block. *)
Definition lookupPreferences (env : Env) : M (option UserPreferences) :=
  Cosmos.getCosmosClient env ;;;
  Cosmos.getUserPreferences env.

(** The try block. *)
Definition deliver (env : Env) (message : NotificationRequest)
    (startTime : Timestamp) : M unit :=
  preferences <- lookupPreferences env ;;
  match preferences with
  | None => log LogNoPreferences
  | Some preferences =>
      results <- processChannels env message (notifications preferences)
                   (channels message) ;;
      conclude env startTime results
  end.

(** notificationSender: rejecting hands the message back to the transport
    for redelivery. *)
Definition notificationSender (env : Env) (message : NotificationRequest) : M unit :=
  startTime <- started env message ;;
  catch (deliver env message startTime)
        (fun e => log (LogSenderError e) ;;; throw e).

End Sender.

(* ================================================================== *)
(** ** Concrete environments, records and worlds used in the examples *)

Module Sample.

Fixpoint lookupEnv (bindings : list (string * string)) (key : jstring) : option jstring :=
  match bindings with
  | [] => None
  | (k, v) :: rest => if JS.eqb (js k) key then Some (js v) else lookupEnv rest key
  end.

Definition productionEnv : jstring -> option jstring :=
  lookupEnv [("COSMOS_ENDPOINT", "https://rrshopper.documents.azure.com");
             ("SERVICE_BUS_NAMESPACE", "rrshopper-bus");
             ("BESTBUY_API_KEY", "key-123");
             ("ACS_ENDPOINT", "https://rrshopper.communication.azure.com");
             ("ACS_SMS_FROM_NUMBER", "+18005550100")]%string.

(** The same deployment without an outbound number. *)
Definition noFromNumberEnv : jstring -> option jstring :=
  lookupEnv [("COSMOS_ENDPOINT", "https://rrshopper.documents.azure.com");
             ("SERVICE_BUS_NAMESPACE", "rrshopper-bus");
             ("BESTBUY_API_KEY", "key-123");
             ("ACS_ENDPOINT", "https://rrshopper.communication.azure.com")]%string.

Definition consoleOnShelf : BestBuyProduct :=
  mkBestBuyProduct 6428324 (js "Game Console") (js "https://www.bestbuy.com/site/6428324.p")
    (Some (js "https://img.bestbuy.com/6428324.jpg"))
    (js "https://api.bestbuy.com/click/-/6428324/cart") true false.

Definition consoleSoldOut : BestBuyProduct :=
  mkBestBuyProduct 6428324 (js "Game Console") (js "https://www.bestbuy.com/site/6428324.p")
    None (js "https://api.bestbuy.com/click/-/6428324/cart") false false.

Definition headsetSoldOut : BestBuyProduct :=
  mkBestBuyProduct 5901353 (js "Headset") (js "https://www.bestbuy.com/site/5901353.p")
    None (js "https://api.bestbuy.com/click/-/5901353/cart") false false.

(** Best Buy: sku 6428324 is on sale online, sku 5901353 is sold out,
    every other sku is unknown. *)
Definition bestBuyInStock (apiKey sku : jstring) : HttpReply BestBuyProductResponse :=
  if JS.eqb sku (js "6428324")
  then HttpResponse 200 (js "OK") (mkBestBuyProductResponse (Some [consoleOnShelf]) 1)
  else if JS.eqb sku (js "5901353")
  then HttpResponse 200 (js "OK") (mkBestBuyProductResponse (Some [headsetSoldOut]) 1)
  else HttpResponse 200 (js "OK") (mkBestBuyProductResponse (Some []) 0).

(** Best Buy: sku 6428324 is sold out. *)
Definition bestBuySoldOut (apiKey sku : jstring) : HttpReply BestBuyProductResponse :=
  if JS.eqb sku (js "6428324")
  then HttpResponse 200 (js "OK") (mkBestBuyProductResponse (Some [consoleSoldOut]) 1)
  else HttpResponse 200 (js "OK") (mkBestBuyProductResponse (Some []) 0).

Definition noStores (apiKey sku : jstring) (storeIds : list jstring)
    : HttpReply BestBuyStoreResponse :=
  HttpResponse 200 (js "OK") (mkBestBuyStoreResponse (Some [])).

Definition noFault (c : Call) : option Error := None.

Definition serviceUnavailable : Error :=
  mkError (js "Error") (js "Service Unavailable") (Some 503).


(** The store refuses to read the preferences. *)
Definition preferencesDown (c : Call) : option Error :=
  match c with CosmosReadPreferences => Some serviceUnavailable | _ => None end.

Definition delivered (from to text : jstring) : Outcome (list SmsSendResult) :=
  Fulfilled [mkSmsSendResult true (Some (js "msg-1")) None].

Definition undeliverable (from to text : jstring) : Outcome (list SmsSendResult) :=
  Fulfilled [mkSmsSendResult false None (Some (js "Invalid number"))].

Definition sampleClock (n : nat) : Timestamp := 1700000000000 + 250 * Z.of_nat n.

Definition sampleUuid (n : nat) : jstring := js "uuid-" ++ numberToString (Z.of_nat n).

Definition env : Env :=
  mkEnv productionEnv sampleClock sampleUuid bestBuyInStock noStores noFault delivered.

Definition envSoldOut : Env :=
  mkEnv productionEnv sampleClock sampleUuid bestBuySoldOut noStores noFault delivered.


Definition envPreferencesDown : Env :=
  mkEnv productionEnv sampleClock sampleUuid bestBuyInStock noStores preferencesDown delivered.

Definition envNoFromNumber : Env :=
  mkEnv noFromNumberEnv sampleClock sampleUuid bestBuyInStock noStores noFault delivered.

Definition envUndeliverable : Env :=
  mkEnv productionEnv sampleClock sampleUuid bestBuyInStock noStores noFault undeliverable.

Definition unavailableStatus : InventoryStatus :=
  mkInventoryStatus (mkAvailabilityState false None None) [].

Definition availableStatus (since_ : Timestamp) : InventoryStatus :=
  mkInventoryStatus (mkAvailabilityState true None (Some since_)) [].

(** A monitored console, last seen out of stock. *)
Definition console : MonitoredProduct :=
  mkMonitoredProduct (js "p-1") bestbuy (js "6428324") (js "Game Console") true high None
    unavailableStatus 1699999990000 None None
    (js "https://www.bestbuy.com/site/6428324.p")
    (js "https://api.bestbuy.com/click/-/6428324/cart")
    1699000000000 1699999990000.

(** The same console, last seen in stock. *)
Definition consoleInStock : MonitoredProduct :=
  mkMonitoredProduct (js "p-1") bestbuy (js "6428324") (js "Game Console") true high None
    (availableStatus 1699999000000) 1699999990000 (Some 1699999000000) None
    (js "https://www.bestbuy.com/site/6428324.p")
    (js "https://api.bestbuy.com/click/-/6428324/cart")
    1699000000000 1699999990000.

(** A monitored product whose sku Best Buy does not know. *)
Definition ghost : MonitoredProduct :=
  mkMonitoredProduct (js "p-2") bestbuy (js "0000000") (js "Ghost") true normal None
    unavailableStatus 1699999990000 None None
    (js "https://www.bestbuy.com/site/0000000.p")
    (js "https://api.bestbuy.com/click/-/0000000/cart")
    1699000000000 1699999990000.

(** A monitored product that is and stays sold out. *)
Definition headset : MonitoredProduct :=
  mkMonitoredProduct (js "p-3") bestbuy (js "5901353") (js "Headset") true normal None
    unavailableStatus 1699999990000 None None
    (js "https://www.bestbuy.com/site/5901353.p")
    (js "https://api.bestbuy.com/click/-/5901353/cart")
    1699000000000 1699999990000.

Definition wentInStock : InventoryHistoryEntry :=
  mkInventoryHistoryEntry (js "h-1") (js "p-1") in_stock 1699999000000 bestbuy
    (js "6428324") true [] None (Some 7776000).

Definition smsOn : UserPreferences :=
  mkUserPreferences (js "default")
    (mkNotificationPreferences true (Some (js "+14255550123")) false [])
    30 10 1699000000000 1699000000000.

Definition allOff : UserPreferences :=
  mkUserPreferences (js "default")
    (mkNotificationPreferences false None false [])
    30 10 1699000000000 1699000000000.

Definition emptyWorld : World := mkWorld [] [] None [] [] [] [] 0 0.

(** The console is monitored and was last seen out of stock. *)
Definition world : World :=
  mkWorld [console; ghost; headset] [] (Some smsOn) [] [] [] [] 0 0.

(** The console is monitored and has been in stock since [wentInStock]. *)
Definition worldInStock : World :=
  mkWorld [consoleInStock] [wentInStock] (Some smsOn) [] [] [] [] 0 0.

Definition worldAllOff : World :=
  mkWorld [console] [] (Some allOff) [] [] [] [] 0 0.

Definition correlation : jstring := js "corr-1".

(** The request the monitor queues when the console comes back. *)
Definition request : NotificationRequest :=
  Monitor.notificationFor (js "req-1")
    (Monitor.eventFor (js "ev-1") console
       (mkInventoryCheckResult (availableStatus 1700000000000)
          (js "https://www.bestbuy.com/site/6428324.p")
          (js "https://api.bestbuy.com/click/-/6428324/cart") None (Some (js "Game Console")))
       true 1700000000000 correlation)
    1700000000000 correlation.

(** An add-to-cart link that carries a long tracking query. *)
Definition trackedUrl : jstring :=
  js "https://api.bestbuy.com/click/-/6428324/cart?ref=" ++ repeat 97%N 120.

End Sample.

(* ================================================================== *)
(** ** Notions used to state the properties *)

Module Spec.

(** The shape of a request on the notifications queue. *)
Definition smsOnly (request : NotificationRequest) : Prop :=
  channels request = [sms] /\ attemptCount request = 0 /\ maxAttempts request = 3.

(** The notifications queue only grew, by sms-only requests. *)
Definition queueGrewBySmsOnly (w w' : World) : Prop :=
  exists queued,
    w_notifications w' = w_notifications w ++ queued /\ Forall smsOnly queued.

(** The containers, the queues and the log are as they were. *)
Definition sameContainers (w w' : World) : Prop :=
  w_products w' = w_products w
  /\ w_history w' = w_history w
  /\ w_preferences w' = w_preferences w
  /\ w_events w' = w_events w
  /\ w_notifications w' = w_notifications w
  /\ w_log w' = w_log w.

(** The world in which a tick, having read the clock twice and drawn its
    correlation id, has loaded the active products. *)
Definition tickLoaded (env : Env) (w : World) : World :=
  mkWorld (w_products w) (w_history w) (w_preferences w) (w_events w)
    (w_notifications w)
    (w_calls w ++ [CosmosQueryActiveProducts])
    ((w_log w ++ [LogMonitorTriggered (clock env (S (w_clock w)))])
       ++ [LogCorrelationId (uuid env (w_uuids w))])
    (S (w_uuids w)) (S (S (w_clock w))).

(** The world in which the checks of a tick start. *)
Definition tickStart (env : Env) (w : World) : World :=
  withLog (fun ls => ls ++ [LogFoundActive
                              (Z.of_nat (List.length (filter isActive (w_products w))))])
          (tickLoaded env w).

(** The requests issued so far are still there, possibly followed by more. *)
Definition callsGrow (w w' : World) : Prop :=
  exists more, w_calls w' = w_calls w ++ more.

(** A caller that puts checks through one adapter, one after the other:
    each check comes with the instant (in ms) at which it is called.  The
    product request of a check goes out with the call itself, so it bears
    that instant.  For each check: its instant, whether it fulfilled, and
    the requests it issued. *)
Fixpoint checksAt (self : BestBuyInventoryProvider) (env : Env)
    (checks : list (Timestamp * jstring)) (w : World)
    : list (Timestamp * bool * list Call) :=
  match checks with
  | [] => []
  | (instant, sku) :: rest =>
      let (outcome, w1) := bestBuyCheckInventory self env sku None w in
      (instant, isFulfilled outcome, since (w_calls w) (w_calls w1))
        :: checksAt self env rest w1
  end.

(** Product requests issued in the second that starts at [from]. *)
Definition requestsInSecond (from : Timestamp)
    (trace : list (Timestamp * bool * list Call)) : Z :=
  Z.of_nat (List.length
    (filter (fun entry =>
               let instant := fst (fst entry) in
               (from <=? instant) && (instant <? from + 1000)
               && existsb isHttp (snd entry))
            trace)).

End Spec.

(* ================================================================== *)
(** ** Relations between the world before and the world after *)

Module Invariants.

(** A request for the details of a product. *)
Definition isProductRequest (c : Call) : bool :=
  match c with HttpGetProduct _ _ => true | _ => false end.

(** The products container holds the same ids in the same order, every
    item whose id is [frozen] is untouched, and the preferences are as they
    were. *)
Definition keepsProducts (frozen : jstring -> Prop) (w w' : World) : Prop :=
  Forall2 (fun q q' => id q' = id q /\ (frozen (id q) -> q' = q))
          (w_products w) (w_products w')
  /\ w_preferences w' = w_preferences w.

(** A history entry that records the change an event announces. *)
Definition recordedBy (h : InventoryHistoryEntry) (e : InventoryChangeEvent) : Prop :=
  h_productId h = ep_id (ev_product e)
  /\ h_sku h = ep_sku (ev_product e)
  /\ h_retailer h = ep_retailer (ev_product e)
  /\ h_timestamp h = ev_timestamp e
  /\ h_online h = ev_online e
  /\ (h_eventType h = in_stock <-> eventType e = inventory_available).

(** History entries, events and notification requests added by one tick
    whose correlation id is [corr]. *)
Definition linked (corr : jstring) (hs : list InventoryHistoryEntry)
    (es : list InventoryChangeEvent) (qs : list NotificationRequest) : Prop :=
  Forall (fun h => h_ttl h = Some 7776000) hs
  /\ Forall (fun e => ev_correlationId e = corr
                      /\ ev_source e = js "inventory-monitor"
                      /\ exists h, In h hs /\ recordedBy h e) es
  /\ Forall (fun q => In (triggerEvent q) es
                      /\ eventType (triggerEvent q) = inventory_available
                      /\ nr_timestamp q = ev_timestamp (triggerEvent q)
                      /\ nr_correlationId q = corr) qs.

(** The history, the events and the notifications queue only grew, by
    linked items. *)
Definition appendsLinked (corr : jstring) (w w' : World) : Prop :=
  exists hs es qs,
    w_history w' = w_history w ++ hs
    /\ w_events w' = w_events w ++ es
    /\ w_notifications w' = w_notifications w ++ qs
    /\ linked corr hs es qs.

(** The worker reads the clock, draws uuids, writes its log and issues
    requests to ACS and to the store, and nothing else. *)
Definition sameStores (w w' : World) : Prop :=
  w_products w' = w_products w
  /\ w_history w' = w_history w
  /\ w_preferences w' = w_preferences w
  /\ w_events w' = w_events w
  /\ w_notifications w' = w_notifications w.

(** The notifications queue only grew, by requests of a given kind. *)
Definition queueGrewBy (P : NotificationRequest -> Prop) (w w' : World) : Prop :=
  exists queued, w_notifications w' = w_notifications w ++ queued /\ Forall P queued.

(** A request whose event shows a Best Buy product with the adapter's links
    for its sku. *)
Definition bestBuyAlert (request : NotificationRequest) : Prop :=
  let product := ev_product (triggerEvent request) in
  ep_retailer product = bestbuy
  /\ ep_addToCartUrl product = bestBuyAddToCartUrl (ep_sku product)
  /\ ep_productUrl product = bestBuyProductUrl (ep_sku product).

Definition isSms (c : Channel) : bool :=
  match c with sms => true | _ => false end.

(** The request sendSmsNotification hands to ACS for a request and a
    phone number. *)
Definition smsCall (env : Env) (message : NotificationRequest) (phoneNumber : jstring)
    : Call :=
  let event := triggerEvent message in
  AcsSend (orElse (getenv env "ACS_SMS_FROM_NUMBER") []) phoneNumber
    (Sms.formatAlertMessage (ep_name (ev_product event))
       (Sender.retailerToString (ep_retailer (ev_product event)))
       (ep_addToCartUrl (ev_product event))
       (option_map es_storeName (find es_available (ev_stores event)))).

(** Requests the notification sender may issue. *)
Definition senderRequest (c : Call) : Prop :=
  c = CosmosReadPreferences \/ isAcsSend c = true.

(** The stores are as they were and the requests issued since are the
    sender's. *)
Definition deliversOnly (w w' : World) : Prop :=
  sameStores w w'
  /\ exists more, w_calls w' = w_calls w ++ more /\ Forall senderRequest more.

End Invariants.

(* ================================================================== *)
(** ** HTTP API: authentication, products and preferences
       (middleware/auth.ts, functions/products.ts, functions/preferences.ts,
       services/cosmos-client.ts of the API) *)

Module Api.

(** What a handler writes through [context.warn] and [context.error]. *)
Inductive ApiLogLine :=
| WarnAuthDisabled
| ErrorLine (what : jstring) (e : Error).

(** The two headers the middleware reads; [None] is the [null] that
    [headers.get] gives for an absent header. *)
Record Headers := mkHeaders {
  x_api_key : option jstring;
  authorization : option jstring
}.

Fixpoint isPrefix (p s : jstring) : bool :=
  match p, s with
  | [], _ => true
  | x :: p', y :: s' => N.eqb x y && isPrefix p' s'
  | _ :: _, [] => false
  end.

(** [s.replace(p, '')] for a string pattern: the first occurrence goes. *)
Fixpoint removeFirst (p s : jstring) : jstring :=
  if isPrefix p s then skipn (List.length p) s
  else match s with
       | [] => []
       | c :: rest => c :: removeFirst p rest
       end.

(** validateApiKey: the verdict and what it logs. *)
Definition validateApiKey (env : Env) (headers : Headers) : bool * list ApiLogLine :=
  let apiKey := getenv env "API_KEY" in
  if negb (truthyOpt apiKey) then (true, [WarnAuthDisabled])
  else
    let providedKey :=
      match x_api_key headers with
      | Some k => Some k
      | None => option_map (removeFirst (js "Bearer ")) (authorization headers)
      end in
    if negb (truthyOpt providedKey) then (false, [])
    else (JS.eqb (orElse providedKey []) (orElse apiKey []), []).

(** ProductResponse *)
Record ProductResponse := mkProductResponse {
  pr_id : jstring;
  pr_retailer : RetailerId;
  pr_sku : jstring;
  pr_name : jstring;
  pr_isActive : bool;
  pr_priority : Priority;
  pr_storeLocations : list StoreLocation;
  pr_currentStatus : InventoryStatus;
  pr_lastCheckedAt : Timestamp;
  pr_lastStatusChangeAt : option Timestamp;
  pr_imageUrl : option jstring;
  pr_productUrl : jstring;
  pr_addToCartUrl : jstring
}.

(** UserPreferencesResponse *)
Record UserPreferencesResponse := mkUserPreferencesResponse {
  ur_smsEnabled : bool;
  ur_phoneNumber : option jstring;
  ur_pushEnabled : bool;
  ur_subscriptionCount : Z;
  ur_defaultPollIntervalSeconds : Z;
  ur_highPriorityPollIntervalSeconds : Z
}.

Inductive JsonBody :=
| ErrorBody (code message : jstring)
| ProductBody (product : ProductResponse)
| PreferencesBody (preferences : UserPreferencesResponse)
| MessageBody (message : jstring).

(** HttpResponseInit; a response without [status] is sent as 200. *)
Record HttpResponseInit := mkHttpResponseInit {
  rs_status : option Z;
  rs_jsonBody : JsonBody
}.

(** unauthorizedResponse *)
Definition unauthorizedResponse : HttpResponseInit :=
  mkHttpResponseInit (Some 401)
    (ErrorBody (js "UNAUTHORIZED") (js "Invalid or missing API key")).

(** withAuth: the handler runs only for a request that validateApiKey
    lets through. *)
Definition withAuth (env : Env) (headers : Headers)
    (handler : M (HttpResponseInit * list ApiLogLine))
    : M (HttpResponseInit * list ApiLogLine) :=
  let (allowed, lines) := validateApiKey env headers in
  if allowed then
    r <- handler ;; ret (fst r, lines ++ snd r)
  else ret (unauthorizedResponse, lines).

(** *** The store wrapper of the API *)

(** Writes of the API to the store; the environment says which ones the
    store refuses. *)
Inductive StoreWrite :=
| CreateProductItem (product : MonitoredProduct)
| ReplacePreferencesItem (preferences : UserPreferences)
| CreatePreferencesItem (preferences : UserPreferences).

Record ApiEnv := mkApiEnv {
  processOf : Env;
  refused : StoreWrite -> option Error
}.

Definition withPreferences (f : option UserPreferences -> option UserPreferences)
    (w : World) : World :=
  mkWorld (w_products w) (w_history w) (f (w_preferences w)) (w_events w)
          (w_notifications w) (w_calls w) (w_log w) (w_uuids w) (w_clock w).

(** getCosmosClient of the API: the constructor refuses a missing or empty
    COSMOS_ENDPOINT. *)
Definition getCosmosClient (aenv : ApiEnv) : M unit :=
  if truthyOpt (getenv (processOf aenv) "COSMOS_ENDPOINT") then ret tt
  else throw (configError "COSMOS_ENDPOINT").

(** getUserPreferences of the API: a 404 means no preferences. *)
Definition getUserPreferences (aenv : ApiEnv) : M (option UserPreferences) :=
  catch (issue (processOf aenv) CosmosReadPreferences ;;;
         w <- get ;;
         ret (w_preferences w))
        (fun e => match code e with
                  | Some c => if c =? 404 then ret None else throw e
                  | None => throw e
                  end).

Definition setPreferencesUpdatedAt (t : Timestamp) (p : UserPreferences) : UserPreferences :=
  mkUserPreferences (up_id p) (notifications p) (defaultPollIntervalSeconds p)
    (highPriorityPollIntervalSeconds p) (up_createdAt p) t.

(** updateUserPreferences: stamps updatedAt, then replaces the item
    'default'; the store answers 404 when there is none. *)
Definition updateUserPreferences (aenv : ApiEnv) (preferences : UserPreferences)
    : M UserPreferences :=
  t <- newDate (processOf aenv) ;;
  let preferences := setPreferencesUpdatedAt t preferences in
  match refused aenv (ReplacePreferencesItem preferences) with
  | Some e => throw e
  | None =>
      w <- get ;;
      match w_preferences w with
      | Some _ => modify (withPreferences (fun _ => Some preferences)) ;;; ret preferences
      | None => throw (mkError (js "Error")
                         (js "Entity with the specified id does not exist") (Some 404))
      end
  end.

(** createUserPreferences: refused with 409 when the item exists. *)
Definition createUserPreferences (aenv : ApiEnv) (preferences : UserPreferences) : M unit :=
  match refused aenv (CreatePreferencesItem preferences) with
  | Some e => throw e
  | None =>
      w <- get ;;
      match w_preferences w with
      | Some _ => throw (mkError (js "Error")
                           (js "Entity with the specified id already exists") (Some 409))
      | None => modify (withPreferences (fun _ => Some preferences))
      end
  end.

(** createProduct of the wrapper: refused with 409 when an item has the id. *)
Definition createProductItem (aenv : ApiEnv) (product : MonitoredProduct) : M unit :=
  match refused aenv (CreateProductItem product) with
  | Some e => throw e
  | None =>
      w <- get ;;
      if existsb (Cosmos.hasId (id product)) (w_products w)
      then throw (mkError (js "Error")
                    (js "Entity with the specified id already exists") (Some 409))
      else modify (withProducts (fun ps => ps ++ [product]))
  end.

(** *** Handlers *)

(** [await request.json()] *)
Definition awaitJson {A} (json : Outcome A) : M A := fun w => (json, w).

Definition internalError (message : jstring) : HttpResponseInit :=
  mkHttpResponseInit (Some 500) (ErrorBody (js "INTERNAL_ERROR") message).

(** try { body } catch (error) { context.error(...); return 500 } *)
Definition handled (what failure : jstring) (body : M HttpResponseInit)
    : M (HttpResponseInit * list ApiLogLine) :=
  fun w =>
    match body w with
    | (Fulfilled response, w') => (Fulfilled (response, []), w')
    | (Rejected e, w') => (Fulfilled (internalError failure, [ErrorLine what e]), w')
    end.

(** toProductResponse *)
Definition toProductResponse (product : MonitoredProduct) : ProductResponse :=
  mkProductResponse (id product) (retailer product) (sku product) (name product)
    (isActive product) (priority product) (orElse (storeLocations product) [])
    (currentStatus product) (lastCheckedAt product) (lastStatusChangeAt product)
    (imageUrl product) (productUrl product) (addToCartUrl product).

(** CreateProductRequest; a missing field is [None]. *)
Record CreateProductRequest := mkCreateProductRequest {
  cp_retailer : option RetailerId;
  cp_sku : option jstring;
  cp_name : option jstring;
  cp_priority : option Priority;
  cp_storeLocations : option (list StoreLocation)
}.

Definition validationError (message : jstring) : HttpResponseInit :=
  mkHttpResponseInit (Some 400) (ErrorBody (js "VALIDATION_ERROR") message).

Definition unsupportedRetailer (r : RetailerId) : HttpResponseInit :=
  mkHttpResponseInit (Some 400)
    (ErrorBody (js "UNSUPPORTED_RETAILER")
       (js "Retailer '" ++ Sender.retailerToString r ++ js "' is not supported")).

(** The factory createProduct builds to find the links. *)
Definition apiFactory (env : Env) : InventoryProviderFactory :=
  create (fun r =>
    match r with
    | bestbuy =>
        Some (mkInventoryProviderConfig (orElse (getenv env "BESTBUY_API_KEY") []) None)
    | _ => None
    end).

(** The product createProduct stores. *)
Definition newProduct (productId : jstring) (now : Timestamp) (r : RetailerId)
    (body : CreateProductRequest) (provider : IInventoryProvider) : MonitoredProduct :=
  mkMonitoredProduct productId r (orElse (cp_sku body) []) (orElse (cp_name body) [])
    true (orElse (cp_priority body) normal) (cp_storeLocations body)
    (mkInventoryStatus (mkAvailabilityState false None None) [])
    now None None
    (getProductUrl provider (orElse (cp_sku body) []))
    (getAddToCartUrl provider (orElse (cp_sku body) []))
    now now.

(** POST /api/products *)
Definition createProduct (aenv : ApiEnv) (json : Outcome CreateProductRequest)
    : M (HttpResponseInit * list ApiLogLine) :=
  let env := processOf aenv in
  handled (js "Error creating product") (js "Failed to create product")
    (body <- awaitJson json ;;
     match cp_retailer body with
     | Some r =>
         if negb (truthyOpt (cp_sku body)) || negb (truthyOpt (cp_name body))
         then ret (validationError (js "retailer, sku, and name are required"))
         else
           match getProvider (apiFactory env) r with
           | None => ret (unsupportedRetailer r)
           | Some provider =>
               now <- newDate env ;;
               productId <- uuidv4 env ;;
               let product := newProduct productId now r body provider in
               getCosmosClient aenv ;;;
               createProductItem aenv product ;;;
               ret (mkHttpResponseInit (Some 201) (ProductBody (toProductResponse product)))
           end
     | None => ret (validationError (js "retailer, sku, and name are required"))
     end).

(** maskPhoneNumber *)
Definition maskPhoneNumber (phone : jstring) : jstring :=
  if len phone <=? 4 then js "****"
  else substring phone 0 4 ++ repeat 42%N (Z.to_nat (len phone - 4)).

Definition isDigit (c : CodeUnit) : bool := ((48 <=? c) && (c <=? 57))%N.

(** isValidE164: /^\+[1-9]\d{1,14}$/ *)
Definition isValidE164 (phone : jstring) : bool :=
  match phone with
  | plus :: first :: rest =>
      (plus =? 43)%N && ((49 <=? first) && (first <=? 57))%N
      && ((1 <=? List.length rest) && (List.length rest <=? 14))%nat
      && forallb isDigit rest
  | _ => false
  end.

(** toPreferencesResponse *)
Definition toPreferencesResponse (preferences : UserPreferences) : UserPreferencesResponse :=
  let n := notifications preferences in
  mkUserPreferencesResponse (sms_enabled n)
    (if truthyOpt (sms_phoneNumber n)
     then Some (maskPhoneNumber (orElse (sms_phoneNumber n) []))
     else None)
    (push_enabled n)
    (Z.of_nat (List.length (push_subscriptions n)))
    (defaultPollIntervalSeconds preferences)
    (highPriorityPollIntervalSeconds preferences).

(** UpdateSmsPreferencesRequest *)
Record UpdateSmsPreferencesRequest := mkUpdateSmsPreferencesRequest {
  us_enabled : bool;
  us_phoneNumber : option jstring
}.

Definition notFound (message : jstring) : HttpResponseInit :=
  mkHttpResponseInit (Some 404) (ErrorBody (js "NOT_FOUND") message).

(** preferences.notifications.sms = { enabled, phoneNumber } *)
Definition setSms (preferences : UserPreferences) (body : UpdateSmsPreferencesRequest)
    : UserPreferences :=
  mkUserPreferences (up_id preferences)
    (mkNotificationPreferences (us_enabled body) (us_phoneNumber body)
       (push_enabled (notifications preferences))
       (push_subscriptions (notifications preferences)))
    (defaultPollIntervalSeconds preferences) (highPriorityPollIntervalSeconds preferences)
    (up_createdAt preferences) (up_updatedAt preferences).

(** PUT /api/preferences/notifications/sms *)
Definition updateSmsPreferences (aenv : ApiEnv) (json : Outcome UpdateSmsPreferencesRequest)
    : M (HttpResponseInit * list ApiLogLine) :=
  let env := processOf aenv in
  handled (js "Error updating SMS preferences") (js "Failed to update preferences")
    (body <- awaitJson json ;;
     getCosmosClient aenv ;;;
     preferences <- getUserPreferences aenv ;;
     match preferences with
     | None => ret (notFound (js "Preferences not found"))
     | Some preferences =>
         if truthyOpt (us_phoneNumber body)
            && negb (isValidE164 (orElse (us_phoneNumber body) []))
         then ret (validationError
                     (js "Phone number must be in E.164 format (e.g., +12025551234)"))
         else
           let preferences := setSms preferences body in
           t <- newDate env ;;
           let preferences := setPreferencesUpdatedAt t preferences in
           preferences <- updateUserPreferences aenv preferences ;;
           ret (mkHttpResponseInit None (PreferencesBody (toPreferencesResponse preferences)))
     end).

(** The preferences getPreferences creates when there are none. *)
Definition defaultPreferences (now : Timestamp) : UserPreferences :=
  mkUserPreferences (js "default")
    (mkNotificationPreferences false None false [])
    30 10 now now.

(** GET /api/preferences *)
Definition getPreferences (aenv : ApiEnv) : M (HttpResponseInit * list ApiLogLine) :=
  let env := processOf aenv in
  handled (js "Error getting preferences") (js "Failed to get preferences")
    (getCosmosClient aenv ;;;
     preferences <- getUserPreferences aenv ;;
     preferences <-
       match preferences with
       | Some preferences => ret preferences
       | None =>
           now <- newDate env ;;
           createUserPreferences aenv (defaultPreferences now) ;;;
           ret (defaultPreferences now)
       end ;;
     ret (mkHttpResponseInit None (PreferencesBody (toPreferencesResponse preferences)))).

(** The body of POST .../push/subscriptions: endpoint, keys.p256dh and
    keys.auth; a missing field (or missing keys) is [None]. *)
Record PushSubscriptionRequest := mkPushSubscriptionRequest {
  pq_endpoint : option jstring;
  pq_p256dh : option jstring;
  pq_auth : option jstring
}.

(** preferences.notifications.push.subscriptions.push(subscription) *)
Definition pushSubscription (preferences : UserPreferences) (subscription : PushSubscription)
    : UserPreferences :=
  mkUserPreferences (up_id preferences)
    (mkNotificationPreferences
       (sms_enabled (notifications preferences))
       (sms_phoneNumber (notifications preferences))
       (push_enabled (notifications preferences))
       (push_subscriptions (notifications preferences) ++ [subscription]))
    (defaultPollIntervalSeconds preferences) (highPriorityPollIntervalSeconds preferences)
    (up_createdAt preferences) (up_updatedAt preferences).

(** POST /api/preferences/notifications/push/subscriptions *)
Definition addPushSubscription (aenv : ApiEnv) (json : Outcome PushSubscriptionRequest)
    : M (HttpResponseInit * list ApiLogLine) :=
  let env := processOf aenv in
  handled (js "Error adding push subscription") (js "Failed to add subscription")
    (body <- awaitJson json ;;
     if negb (truthyOpt (pq_endpoint body)) || negb (truthyOpt (pq_p256dh body))
        || negb (truthyOpt (pq_auth body))
     then ret (validationError (js "Invalid push subscription"))
     else
       getCosmosClient aenv ;;;
       preferences <- getUserPreferences aenv ;;
       match preferences with
       | None => ret (notFound (js "Preferences not found"))
       | Some preferences =>
           let endpoint := orElse (pq_endpoint body) [] in
           let exists_ :=
             existsb (fun s => JS.eqb (ps_endpoint s) endpoint)
                     (push_subscriptions (notifications preferences)) in
           (if negb exists_ then
              let preferences :=
                pushSubscription preferences
                  (mkPushSubscription endpoint (orElse (pq_p256dh body) [])
                     (orElse (pq_auth body) [])) in
              t <- newDate env ;;
              let preferences := setPreferencesUpdatedAt t preferences in
              updateUserPreferences aenv preferences ;;;
              ret tt
            else ret tt) ;;;
           ret (mkHttpResponseInit (Some 201) (MessageBody (js "Subscription added")))
       end).

End Api.

(* ================================================================== *)
(** * Properties *)

(** ** Strings and lists *)

Lemma len_app (a b : jstring) : len (a ++ b) = len a + len b.
Proof. unfold len. rewrite length_app. lia. Qed.

Lemma len_nonneg (a : jstring) : 0 <= len a.
Proof. unfold len. lia. Qed.

Lemma eqb_refl (a : jstring) : JS.eqb a a = true.
Proof.
  induction a as [|x a IH]; simpl; [reflexivity|].
  rewrite N.eqb_refl. exact IH.
Qed.

Lemma eqb_eq (a b : jstring) : JS.eqb a b = true <-> a = b.
Proof.
  split.
  - revert b. induction a as [|x a IH]; intros [|y b] H; simpl in H;
      try discriminate; [reflexivity|].
    apply andb_true_iff in H. destruct H as [Hxy Hab].
    apply N.eqb_eq in Hxy. apply IH in Hab. congruence.
  - intros ->. apply eqb_refl.
Qed.

Lemma since_app {A} (l added : list A) : since l (l ++ added) = added.
Proof.
  unfold since. induction l as [|x l IH]; simpl; [reflexivity | exact IH].
Qed.

Lemma since_same {A} (l : list A) : since l l = [].
Proof. rewrite <- (app_nil_r l) at 2. apply since_app. Qed.

(** [substring(0, n)] of a string longer than [n >= 0] is its first [n]
    code units. *)
Lemma substring_prefix (s : jstring) (n : Z) :
  0 <= n -> n <= len s ->
  substring s 0 n = firstn (Z.to_nat n) s /\ len (substring s 0 n) = n.
Proof.
  intros H0 Hn. unfold substring, clampIndex.
  pose proof (len_nonneg s) as Hs.
  replace (Z.min (Z.max 0 0) (len s)) with 0 by lia.
  replace (Z.min (Z.max n 0) (len s)) with n by lia.
  change (Z.to_nat 0) with 0%nat. rewrite Nat.min_0_l, Nat.max_0_l. simpl skipn.
  split; [reflexivity|].
  unfold len in *. rewrite length_firstn. lia.
Qed.

(** ** The SMS alert text *)

Lemma maxProductLength_eq productName addToCartUrl location :
  Sms.maxProductLength productName addToCartUrl location
  = 145 - len (Sms.locationText location) - len addToCartUrl.
Proof.
  unfold Sms.maxProductLength. rewrite !len_app.
  change (len Sms.siren) with 2. change (len (js " IN STOCK")) with 9.
  change (len (js "!")) with 1. change (len nl) with 1. lia.
Qed.

Lemma formatAlertMessage_length productName retailer addToCartUrl location :
  len (Sms.formatAlertMessage productName retailer addToCartUrl location)
  = 14 + len (Sms.locationText location)
    + len (Sms.truncatedName productName addToCartUrl location) + len addToCartUrl.
Proof.
  unfold Sms.formatAlertMessage. rewrite !len_app.
  change (len Sms.siren) with 2. change (len (js " IN STOCK")) with 9.
  change (len (js "!")) with 1. change (len nl) with 1. lia.
Qed.

(** C6, as stated, fails: with an add-to-cart link of 169 code units the
    alert for "Game Console" is 193 code units long, more than 160 (the
    banner, " online", the separators and the link alone take 190). *)
Lemma formatAlertMessage_exceeds_160 :
  len Sample.trackedUrl = 169 /\
  len (Sms.formatAlertMessage (js "Game Console") (js "bestbuy") Sample.trackedUrl None) = 193 /\
  ~ (forall productName retailer addToCartUrl location,
       len (Sms.formatAlertMessage productName retailer addToCartUrl location) <= 160).
Proof.
  split; [reflexivity|]. split; [reflexivity|].
  intro H.
  specialize (H (js "Game Console") (js "bestbuy") Sample.trackedUrl None).
  vm_compute in H. apply H. reflexivity.
Qed.

(** C6, amended: the alert is the banner with the location text, "!", a
    line break, the shown name, a line break and the whole add-to-cart link
    at its end.  Let the budget of the name be 145 - location text - link.
    Whenever the name fits the budget, or the budget is at least three code
    units, the alert is at most 160 code units long, a name within the budget
    is shown whole, and a longer name is shown as its first budget - 3 code
    units followed by "...". *)
Theorem formatAlertMessage_bounded :
  forall productName retailer addToCartUrl location,
    let budget := 145 - len (Sms.locationText location) - len addToCartUrl in
    let shown := Sms.truncatedName productName addToCartUrl location in
    len productName <= budget \/ 3 <= budget ->
    Sms.formatAlertMessage productName retailer addToCartUrl location
      = Sms.siren ++ js " IN STOCK" ++ Sms.locationText location ++ js "!" ++ nl
          ++ shown ++ nl ++ addToCartUrl
    /\ len (Sms.formatAlertMessage productName retailer addToCartUrl location) <= 160
    /\ (len productName <= budget -> shown = productName)
    /\ (budget < len productName ->
          shown = firstn (Z.to_nat (budget - 3)) productName ++ js "..."
          /\ len shown = budget).
Proof.
  intros productName retailer addToCartUrl location budget shown Hb.
  assert (Hm : Sms.maxProductLength productName addToCartUrl location = budget)
    by apply maxProductLength_eq.
  assert (Hfit : len productName <= budget -> shown = productName).
  { intro Hle. unfold shown, Sms.truncatedName. rewrite Hm.
    destruct (len productName >? budget) eqn:E; [|reflexivity].
    apply Z.gtb_lt in E. lia. }
  assert (Hcut : budget < len productName ->
                 shown = firstn (Z.to_nat (budget - 3)) productName ++ js "..."
                 /\ len shown = budget).
  { intro Hlt. unfold shown, Sms.truncatedName. rewrite Hm.
    destruct (len productName >? budget) eqn:E.
    - destruct (substring_prefix productName (budget - 3)) as [Hs Hl]; try lia.
      rewrite len_app, Hl, Hs. change (len (js "...")) with 3. split; [reflexivity | lia].
    - rewrite Z.gtb_ltb in E. apply Z.ltb_ge in E. lia. }
  split; [reflexivity|]. split; [|split; assumption].
  rewrite formatAlertMessage_length. fold shown. fold budget in Hm.
  destruct (Z_le_gt_dec (len productName) budget) as [Hle|Hgt].
  - rewrite (Hfit Hle). unfold budget in *. lia.
  - destruct (Hcut ltac:(lia)) as [_ Hl]. rewrite Hl. unfold budget. lia.
Qed.

(** A name of 200 code units with the Best Buy add-to-cart link. *)
Lemma formatAlertMessage_bounded_witness :
  3 <= 145 - len (Sms.locationText None)
         - len (js "https://api.bestbuy.com/click/-/6428324/cart")
  /\ len (Sms.formatAlertMessage (repeat 65%N 200) (js "bestbuy")
            (js "https://api.bestbuy.com/click/-/6428324/cart") None) <= 160.
Proof.
  split; [vm_compute; discriminate|].
  apply (formatAlertMessage_bounded (repeat 65%N 200) (js "bestbuy")
           (js "https://api.bestbuy.com/click/-/6428324/cart") None).
  right. vm_compute; discriminate.
Defined.

(** ** Reasoning about computations *)

(** Unfold the plumbing of a computation, leaving the records it builds
    folded. *)
Ltac unfold_m :=
  cbv beta iota zeta delta
    [bind ret throw catch modify get log issue newDate uuidv4 settle
     Cosmos.updateProduct Cosmos.replaceItem Cosmos.addHistoryEntry
     Cosmos.getLatestHistoryEntry Cosmos.getUserPreferences Cosmos.getCosmosClient
     ServiceBus.sendInventoryEvent ServiceBus.queueNotification
     withCalls withLog withProducts withHistory withEvents withNotifications];
  cbn [fst snd w_products w_history w_preferences w_events w_notifications
       w_calls w_log w_uuids w_clock].

(** Split on every answer of the store and of the transport. *)
Ltac split_faults :=
  repeat match goal with
  | |- context [match fault ?env ?c with _ => _ end] =>
      destruct (fault env c) eqn:?; unfold_m
  | |- context [if existsb ?f ?l then _ else _] =>
      destruct (existsb f l) eqn:?; unfold_m
  end.

Section Preservation.

Variable R : World -> World -> Prop.
Hypothesis R_refl : forall w, R w w.
Hypothesis R_trans : forall a b c, R a b -> R b c -> R a c.

Lemma preserves_ret {A} (a : A) : preserves R (ret a).
Proof. intro w. apply R_refl. Qed.

Lemma preserves_throw {A} (e : Error) : preserves R (@throw A e).
Proof. intro w. apply R_refl. Qed.

Lemma preserves_bind {A B} (m : M A) (f : A -> M B) :
  preserves R m -> (forall a, preserves R (f a)) -> preserves R (bind m f).
Proof.
  intros Hm Hf w. unfold bind. specialize (Hm w).
  destruct (m w) as [[a|e] w1]; simpl in *; [|exact Hm].
  eapply R_trans; [exact Hm | apply Hf].
Qed.

Lemma preserves_catch {A} (m : M A) (h : Error -> M A) :
  preserves R m -> (forall e, preserves R (h e)) -> preserves R (catch m h).
Proof.
  intros Hm Hh w. unfold catch. specialize (Hm w).
  destruct (m w) as [[a|e] w1]; simpl in *; [exact Hm|].
  eapply R_trans; [exact Hm | apply Hh].
Qed.

Lemma preserves_settle {A} (m : M A) : preserves R m -> preserves R (settle m).
Proof.
  intros Hm w. unfold settle. specialize (Hm w).
  destruct (m w) as [o w1]. exact Hm.
Qed.

Lemma preserves_mapM {A B} (f : A -> M B) (l : list A) :
  (forall a, preserves R (f a)) -> preserves R (mapM f l).
Proof.
  intro Hf. induction l as [|a l IH]; simpl.
  - apply preserves_ret.
  - apply preserves_bind; [apply Hf|]. intro b.
    apply preserves_bind; [exact IH|]. intro bs. apply preserves_ret.
Qed.

Lemma preserves_allSettled {A B} (f : A -> M B) (l : list A) :
  (forall a, preserves R (f a)) -> preserves R (allSettled f l).
Proof.
  intro Hf. unfold allSettled. apply preserves_mapM.
  intro a. apply preserves_settle, Hf.
Qed.

End Preservation.

(** [Promise.allSettled] never rejects and gives one outcome per promise,
    in order. *)
Lemma allSettled_fulfils {A B} (f : A -> M B) (l : list A) (w : World) :
  exists results, fst (allSettled f l w) = Fulfilled results
                  /\ List.length results = List.length l.
Proof.
  revert w. induction l as [|a l IH]; intro w.
  - exists []. split; reflexivity.
  - unfold allSettled in *. simpl. unfold bind at 1. unfold settle at 1.
    destruct (f a w) as [o w1]. unfold bind at 1.
    destruct (IH w1) as [rs [Hrs Hlen]].
    destruct (mapM _ l w1) as [o' w2]. simpl in Hrs. subst o'.
    exists (o :: rs). simpl. split; [reflexivity | congruence].
Qed.

(** The checks of a batch are run one after the other, each from the world
    its predecessor left, whatever the predecessor's outcome. *)
Lemma allSettled_cons {A B} (f : A -> M B) (a : A) (l : list A) (w : World) :
  allSettled f (a :: l) w
  = (let (o, w1) := f a w in
     match allSettled f l w1 with
     | (Fulfilled rs, w2) => (Fulfilled (o :: rs), w2)
     | (Rejected e, w2) => (Rejected e, w2)
     end).
Proof.
  unfold allSettled. simpl. unfold bind at 1. unfold settle at 1.
  destruct (f a w) as [o w1]. unfold bind at 1.
  destruct (mapM _ l w1) as [[rs|e] w2]; reflexivity.
Qed.

(** ** A single product check *)

Lemma checkProductInventory_eq env product factory provider result corr w w1 :
  getProvider factory (retailer product) = Some provider ->
  checkInventory provider env (sku product) (storeLocations product) w
    = (Fulfilled result, w1) ->
  Monitor.checkProductInventory env product factory corr w
  = Monitor.afterCheck env product result corr w1.
Proof.
  intros Hp Hc. unfold Monitor.checkProductInventory. rewrite Hp.
  unfold bind. rewrite Hc. reflexivity.
Qed.


Lemma changed_false (a b : bool) : a = b -> negb (Bool.eqb b a) = false.
Proof. intros ->. rewrite Bool.eqb_reflx. reflexivity. Qed.

(** The first row of the history query is an entry of the product, and no
    entry of the product is more recent. *)
Lemma newest_spec best rest :
  In (Cosmos.newest best rest) (best :: rest)
  /\ forall e, In e (best :: rest) -> h_timestamp e <= h_timestamp (Cosmos.newest best rest).
Proof.
  revert best. induction rest as [|x rest IH]; intro best; simpl.
  - split; [left; reflexivity|]. intros e [<-|[]]. lia.
  - destruct (IH (if h_timestamp best <? h_timestamp x then x else best)) as [Hin Hmax].
    split.
    + destruct Hin as [Heq|Hin]; [|right; right; exact Hin].
      rewrite <- Heq.
      destruct (h_timestamp best <? h_timestamp x); [right; left|left]; reflexivity.
    + intros e He.
      assert (Hx : h_timestamp x <= h_timestamp (Cosmos.newest (if h_timestamp best <? h_timestamp x then x else best) rest)).
      { destruct (h_timestamp best <? h_timestamp x) eqn:E.
        - apply Hmax. left. reflexivity.
        - apply Z.ltb_ge in E. etransitivity; [exact E|]. apply Hmax. left. reflexivity. }
      assert (Hb : h_timestamp best <= h_timestamp (Cosmos.newest (if h_timestamp best <? h_timestamp x then x else best) rest)).
      { destruct (h_timestamp best <? h_timestamp x) eqn:E.
        - apply Z.ltb_lt in E. lia.
        - apply Hmax. left. reflexivity. }
      destruct He as [<-|[<-|He]]; [exact Hb | exact Hx |].
      apply Hmax. right. exact He.
Qed.

Lemma latest_spec productId history :
  match Cosmos.top1ByTimestampDesc (filter (Cosmos.ofProduct productId) history) with
  | Some previous =>
      In previous history /\ h_productId previous = productId
      /\ forall e, In e history -> h_productId e = productId ->
                   h_timestamp e <= h_timestamp previous
  | None => forall e, In e history -> h_productId e <> productId
  end.
Proof.
  unfold Cosmos.top1ByTimestampDesc.
  destruct (filter (Cosmos.ofProduct productId) history) as [|best rest] eqn:E.
  - intros e He Hp.
    assert (Hin : In e (filter (Cosmos.ofProduct productId) history)).
    { apply filter_In. split; [exact He|]. unfold Cosmos.ofProduct. apply eqb_eq, Hp. }
    rewrite E in Hin. exact Hin.
  - destruct (newest_spec best rest) as [Hin Hmax].
    rewrite <- E in Hin. apply filter_In in Hin. destruct Hin as [Hin Hp].
    split; [exact Hin|]. split; [apply eqb_eq, Hp|].
    intros e He Hpe. apply Hmax. rewrite <- E. apply filter_In.
    split; [exact He|]. unfold Cosmos.ofProduct. apply eqb_eq, Hpe.
Qed.

Lemma durationInStockMs_spec previousEntry nowAvailable now d :
  Monitor.durationInStockMs previousEntry nowAvailable now = Some d
  <-> nowAvailable = false
      /\ exists previous, previousEntry = Some previous
                          /\ h_eventType previous = in_stock
                          /\ d = now - h_timestamp previous.
Proof.
  unfold Monitor.durationInStockMs.
  destruct previousEntry as [previous|].
  - destruct (h_eventType previous) eqn:Et, nowAvailable; simpl; split.
    all: try discriminate.
    all: try (intros [Hn _]; discriminate).
    all: try (intros [_ [p [Hp [Hi _]]]]; inversion Hp; subst; congruence).
    + intros H. inversion H. split; [reflexivity|]. exists previous. auto.
    + intros [_ [p [Hp [_ Hd]]]]. inversion Hp; subst. reflexivity.
  - split; [discriminate|]. intros [_ [p [Hp _]]]. discriminate.
Qed.

(** What a check leaves in the history container: nothing new, or the one
    entry built from the first row of the history query. *)
Lemma afterCheck_history env product result corr w1 :
  let now := clock env (w_clock w1) in
  let nowAvailable := Monitor.isAvailable (status result) in
  let statusChanged := negb (Bool.eqb (Monitor.isAvailable (currentStatus product)) nowAvailable) in
  let written := Cosmos.setUpdatedAt (clock env (S (w_clock w1)))
                   (Monitor.refreshed product result now statusChanged) in
  let w' := snd (Monitor.afterCheck env product result corr w1) in
  w_history w' = w_history w1
  \/ (statusChanged = true
      /\ w_history w' = w_history w1 ++
           [Monitor.historyEntryFor (uuid env (w_uuids w1)) written result
              (Cosmos.top1ByTimestampDesc (filter (Cosmos.ofProduct (id product)) (w_history w1)))
              nowAvailable now]).
Proof.
  intros now nowAvailable statusChanged written w'. subst w'.
  unfold Monitor.afterCheck. fold nowAvailable. fold statusChanged.
  destruct statusChanged eqn:Ec; unfold_m; split_faults; auto.
  all: destruct nowAvailable; unfold_m; split_faults.
  all: try (left; reflexivity).
  all: right; split; reflexivity.
Qed.




Lemma sample_console_check :
  checkInventory (asProvider (newBestBuyInventoryProvider
                    (mkInventoryProviderConfig (js "key-123") (Some (mkRateLimit 5 None)))))
    Sample.env (sku Sample.console) (storeLocations Sample.console) Sample.world
  = (Fulfilled (mkInventoryCheckResult (Sample.availableStatus 1700000000000)
                  (js "https://www.bestbuy.com/site/6428324.p")
                  (js "https://api.bestbuy.com/click/-/6428324/cart")
                  (Some (js "https://img.bestbuy.com/6428324.jpg"))
                  (Some (js "Game Console"))),
     mkWorld [Sample.console; Sample.ghost; Sample.headset] [] (Some Sample.smsOn) [] []
       [HttpGetProduct (js "key-123") (js "6428324")] [] 0 1).
Proof. vm_compute. reflexivity. Qed.


(** C2: a check appends at most one history entry, and only on a
    transition.  The entry's durationInStockMs is present exactly when the
    entry is out_of_stock and the most recent earlier entry of the product
    is in_stock, and is then the difference of the two timestamps; it is
    absent on a transition to in_stock and when the product has no earlier
    entry.  The earlier entry is the first row of the history query: an entry
    of the product that no other entry of the product is more recent than. *)
Theorem appended_entry_duration :
  forall env product factory provider result corr w w1,
    getProvider factory (retailer product) = Some provider ->
    checkInventory provider env (sku product) (storeLocations product) w
      = (Fulfilled result, w1) ->
    let w' := snd (Monitor.checkProductInventory env product factory corr w) in
    let prior := Cosmos.top1ByTimestampDesc
                   (filter (Cosmos.ofProduct (id product)) (w_history w1)) in
    (w_history w' = w_history w1 \/ exists entry, w_history w' = w_history w1 ++ [entry])
    /\ (forall previous, prior = Some previous ->
          In previous (w_history w1) /\ h_productId previous = id product
          /\ forall e, In e (w_history w1) -> h_productId e = id product ->
                       h_timestamp e <= h_timestamp previous)
    /\ (prior = None -> forall e, In e (w_history w1) -> h_productId e <> id product)
    /\ forall entry, w_history w' = w_history w1 ++ [entry] ->
         Monitor.isAvailable (status result) <> Monitor.isAvailable (currentStatus product)
         /\ h_productId entry = id product
         /\ h_timestamp entry = clock env (w_clock w1)
         /\ h_eventType entry
            = (if Monitor.isAvailable (status result) then in_stock else out_of_stock)
         /\ (forall d, h_durationInStockMs entry = Some d <->
               h_eventType entry = out_of_stock
               /\ exists previous, prior = Some previous
                                   /\ h_eventType previous = in_stock
                                   /\ d = h_timestamp entry - h_timestamp previous)
         /\ (h_eventType entry = in_stock -> h_durationInStockMs entry = None)
         /\ (prior = None -> h_durationInStockMs entry = None).
Proof.
  intros env product factory provider result corr w w1 Hp Hc w' prior.
  subst w'. rewrite (checkProductInventory_eq _ _ _ _ _ _ _ _ Hp Hc).
  pose proof (latest_spec (id product) (w_history w1)) as Hlatest. fold prior in Hlatest.
  pose proof (afterCheck_history env product result corr w1) as Hh. cbv zeta in Hh.
  fold prior in Hh.
  split; [|split; [|split]].
  - destruct Hh as [Hh|[_ Hh]]; [left; exact Hh | right; eexists; exact Hh].
  - intros previous Hprev. rewrite Hprev in Hlatest. exact Hlatest.
  - intros Hnone. rewrite Hnone in Hlatest. exact Hlatest.
  - intros entry Hentry.
    destruct Hh as [Hh|[Hchanged Hh]].
    + rewrite Hh in Hentry. apply (f_equal (@List.length _)) in Hentry.
      rewrite length_app in Hentry. simpl in Hentry. lia.
    + rewrite Hh in Hentry. apply app_inv_head in Hentry.
      injection Hentry as <-.
      split.
      { intro Heq. rewrite Heq, Bool.eqb_reflx in Hchanged. discriminate. }
      split; [reflexivity|]. split; [reflexivity|]. split; [reflexivity|].
      split; [|split].
      * intro d. cbn [h_durationInStockMs h_eventType h_timestamp Monitor.historyEntryFor].
        rewrite durationInStockMs_spec.
        destruct (Monitor.isAvailable (status result)); split.
        -- intros [Hf _]. discriminate.
        -- intros [Hf _]. discriminate.
        -- intros [_ H]. split; [reflexivity | exact H].
        -- intros [_ H]. split; [reflexivity | exact H].
      * cbn [h_durationInStockMs h_eventType Monitor.historyEntryFor].
        destruct (Monitor.isAvailable (status result)); [|discriminate].
        intros _. unfold Monitor.durationInStockMs.
        destruct prior as [p|]; [|reflexivity]. destruct (h_eventType p); reflexivity.
      * intros Hnone. cbn [h_durationInStockMs Monitor.historyEntryFor].
        rewrite Hnone. reflexivity.
Qed.

Lemma sample_soldout_check :
  checkInventory (asProvider (newBestBuyInventoryProvider
                    (mkInventoryProviderConfig (js "key-123") (Some (mkRateLimit 5 None)))))
    Sample.envSoldOut (sku Sample.consoleInStock) (storeLocations Sample.consoleInStock)
    Sample.worldInStock
  = (Fulfilled (mkInventoryCheckResult Sample.unavailableStatus
                  (js "https://www.bestbuy.com/site/6428324.p")
                  (js "https://api.bestbuy.com/click/-/6428324/cart")
                  None (Some (js "Game Console"))),
     mkWorld [Sample.consoleInStock] [Sample.wentInStock] (Some Sample.smsOn) [] []
       [HttpGetProduct (js "key-123") (js "6428324")] [] 0 0).
Proof. vm_compute. reflexivity. Qed.

(** The console, in stock since 1699999000000, is found sold out at
    1700000000000: the appended entry records 1000000 ms in stock. *)
Lemma appended_entry_duration_witness :
  exists entry,
    w_history (snd (Monitor.checkProductInventory Sample.envSoldOut Sample.consoleInStock
                      (Monitor.monitorFactory Sample.envSoldOut) Sample.correlation
                      Sample.worldInStock))
      = [Sample.wentInStock] ++ [entry]
    /\ h_eventType entry = out_of_stock
    /\ h_durationInStockMs entry = Some (1700000000000 - 1699999000000).
Proof.
  destruct (appended_entry_duration Sample.envSoldOut Sample.consoleInStock
              (Monitor.monitorFactory Sample.envSoldOut) _ _ Sample.correlation _ _
              eq_refl sample_soldout_check)
    as [_ [_ [_ Hentry]]].
  eexists. split; [vm_compute; reflexivity|].
  match goal with |- h_eventType ?e = _ /\ _ => specialize (Hentry e) end.
  destruct Hentry as [_ [_ [_ [Ht [Hd _]]]]]; [vm_compute; reflexivity|].
  split; [exact Ht|].
  apply Hd. split; [exact Ht|].
  exists Sample.wentInStock. split; [reflexivity|]. split; reflexivity.
Defined.

(** What a check asks of the store and the transport when the verdict is
    unchanged: the one product update. *)
Lemma afterCheck_unchanged env product result corr w1 :
  Monitor.isAvailable (status result) = Monitor.isAvailable (currentStatus product) ->
  let written := Cosmos.setUpdatedAt (clock env (S (w_clock w1)))
                   (Monitor.refreshed product result (clock env (w_clock w1)) false) in
  let w' := snd (Monitor.afterCheck env product result corr w1) in
  w_history w' = w_history w1
  /\ w_events w' = w_events w1
  /\ w_notifications w' = w_notifications w1
  /\ since (w_calls w1) (w_calls w') = [CosmosReplaceProduct written].
Proof.
  intros Hv written w'. subst w' written.
  unfold Monitor.afterCheck. rewrite (changed_false _ _ Hv).
  unfold_m; split_faults; rewrite since_app; auto.
Qed.

(** The verdict of a status: available online, or in some store. *)
Lemma isAvailable_spec (s : InventoryStatus) :
  Monitor.isAvailable s = true
  <-> available (online s) = true
      \/ exists store, In store (stores s) /\ sa_available store = true.
Proof.
  unfold Monitor.isAvailable. rewrite orb_true_iff, existsb_exists. tauto.
Qed.

(** C3: the verdict of a status is "available online or in some store".
    When the verdict observed by the check equals the stored verdict, the
    check appends no history entry, publishes no event and queues no
    notification request; the only request it issues is the product
    update. *)
Theorem unchanged_verdict_no_effects :
  forall env product factory provider result corr w w1,
    getProvider factory (retailer product) = Some provider ->
    checkInventory provider env (sku product) (storeLocations product) w
      = (Fulfilled result, w1) ->
    Monitor.isAvailable (status result) = Monitor.isAvailable (currentStatus product) ->
    let w' := snd (Monitor.checkProductInventory env product factory corr w) in
    (forall s, Monitor.isAvailable s = true
               <-> available (online s) = true
                   \/ exists store, In store (stores s) /\ sa_available store = true)
    /\ w_history w' = w_history w1
    /\ w_events w' = w_events w1
    /\ w_notifications w' = w_notifications w1
    /\ Forall (fun c => isReplaceProduct c = true) (since (w_calls w1) (w_calls w')).
Proof.
  intros env product factory provider result corr w w1 Hp Hc Hv w'.
  subst w'. rewrite (checkProductInventory_eq _ _ _ _ _ _ _ _ Hp Hc).
  destruct (afterCheck_unchanged env product result corr w1 Hv) as [Hh [He [Hq Hcalls]]].
  split; [exact isAvailable_spec|].
  repeat split; auto. rewrite Hcalls. constructor; [reflexivity | constructor].
Qed.

Lemma sample_headset_check :
  checkInventory (asProvider (newBestBuyInventoryProvider
                    (mkInventoryProviderConfig (js "key-123") (Some (mkRateLimit 5 None)))))
    Sample.env (sku Sample.headset) (storeLocations Sample.headset) Sample.world
  = (Fulfilled (mkInventoryCheckResult Sample.unavailableStatus
                  (js "https://www.bestbuy.com/site/5901353.p")
                  (js "https://api.bestbuy.com/click/-/5901353/cart")
                  None (Some (js "Headset"))),
     mkWorld [Sample.console; Sample.ghost; Sample.headset] [] (Some Sample.smsOn) [] []
       [HttpGetProduct (js "key-123") (js "5901353")] [] 0 0).
Proof. vm_compute. reflexivity. Qed.

Lemma unchanged_verdict_no_effects_witness :
  w_history (snd (Monitor.checkProductInventory Sample.env Sample.headset
                    (Monitor.monitorFactory Sample.env) Sample.correlation Sample.world)) = []
  /\ w_events (snd (Monitor.checkProductInventory Sample.env Sample.headset
                    (Monitor.monitorFactory Sample.env) Sample.correlation Sample.world)) = []
  /\ w_notifications (snd (Monitor.checkProductInventory Sample.env Sample.headset
                    (Monitor.monitorFactory Sample.env) Sample.correlation Sample.world)) = [].
Proof.
  destruct (unchanged_verdict_no_effects Sample.env Sample.headset
              (Monitor.monitorFactory Sample.env) _ _ Sample.correlation _ _
              eq_refl sample_headset_check)
    as [_ [Hh [He [Hq _]]]].
  - vm_compute. reflexivity.
  - split; [exact Hh|]. split; [exact He | exact Hq].
Defined.

(** What a check writes to the products container. *)
Lemma afterCheck_update env product result corr w1 :
  let now := clock env (w_clock w1) in
  let statusChanged :=
    negb (Bool.eqb (Monitor.isAvailable (currentStatus product))
                   (Monitor.isAvailable (status result))) in
  let written := Cosmos.setUpdatedAt (clock env (S (w_clock w1)))
                   (Monitor.refreshed product result now statusChanged) in
  let w' := snd (Monitor.afterCheck env product result corr w1) in
  filter isReplaceProduct (since (w_calls w1) (w_calls w')) = [CosmosReplaceProduct written]
  /\ (fault env (CosmosReplaceProduct written) = None ->
      existsb (Cosmos.hasId (id product)) (w_products w1) = true ->
      w_products w'
      = map (fun q => if Cosmos.hasId (id product) q then written else q) (w_products w1))
  /\ (fault env (CosmosReplaceProduct written) <> None
      \/ existsb (Cosmos.hasId (id product)) (w_products w1) = false ->
      w_products w' = w_products w1)
  /\ (fst (Monitor.afterCheck env product result corr w1) = Fulfilled tt ->
      w_products w'
      = map (fun q => if Cosmos.hasId (id product) q then written else q) (w_products w1)).
Proof.
  intros now statusChanged written w'. subst w' written now.
  unfold Monitor.afterCheck. fold statusChanged.
  destruct statusChanged eqn:Ec; unfold_m;
    change (id (Cosmos.setUpdatedAt ?t (Monitor.refreshed ?p ?r ?n ?c))) with (id p);
    split_faults.
  all: try (destruct (Monitor.isAvailable (status result)); unfold_m; split_faults).
  all: rewrite <- ?app_assoc; rewrite since_app; simpl filter.
  all: split; [reflexivity|]; split; [|split]; intros; try reflexivity; try congruence.
  all: match goal with H : _ \/ _ |- _ => destruct H; congruence end.
Qed.

(** C5: a check whose provider call succeeded issues exactly one product
    update.  The record it writes carries the observed status as
    currentStatus, the poll time as lastCheckedAt, the provider's product and
    add-to-cart links, and the provider's image when it gave one (the stored
    image otherwise); its lastStatusChangeAt is the poll time when the verdict
    changed and the previous value when it did not; identity, name and
    monitoring settings are those of the stored product.  When the store
    accepts the update, and in particular whenever the check completes, the
    product's item is that record and no other item changes. *)
Theorem product_update_on_check :
  forall env product factory provider result corr w w1,
    getProvider factory (retailer product) = Some provider ->
    checkInventory provider env (sku product) (storeLocations product) w
      = (Fulfilled result, w1) ->
    let now := clock env (w_clock w1) in
    let statusChanged :=
      negb (Bool.eqb (Monitor.isAvailable (currentStatus product))
                     (Monitor.isAvailable (status result))) in
    let w' := snd (Monitor.checkProductInventory env product factory corr w) in
    exists written,
      filter isReplaceProduct (since (w_calls w1) (w_calls w'))
        = [CosmosReplaceProduct written]
      /\ currentStatus written = status result
      /\ lastCheckedAt written = now
      /\ productUrl written = r_productUrl result
      /\ addToCartUrl written = r_addToCartUrl result
      /\ imageUrl written
         = (if truthyOpt (r_imageUrl result) then r_imageUrl result else imageUrl product)
      /\ (statusChanged = true -> lastStatusChangeAt written = Some now)
      /\ (statusChanged = false -> lastStatusChangeAt written = lastStatusChangeAt product)
      /\ (id written, retailer written, sku written, name written, isActive written,
          priority written, storeLocations written, createdAt written)
         = (id product, retailer product, sku product, name product, isActive product,
            priority product, storeLocations product, createdAt product)
      /\ (fault env (CosmosReplaceProduct written) = None ->
          existsb (Cosmos.hasId (id product)) (w_products w1) = true ->
          w_products w'
          = map (fun q => if Cosmos.hasId (id product) q then written else q) (w_products w1))
      /\ (fst (Monitor.checkProductInventory env product factory corr w) = Fulfilled tt ->
          w_products w'
          = map (fun q => if Cosmos.hasId (id product) q then written else q) (w_products w1)).
Proof.
  intros env product factory provider result corr w w1 Hp Hc now statusChanged w'.
  subst w'. rewrite (checkProductInventory_eq _ _ _ _ _ _ _ _ Hp Hc).
  destruct (afterCheck_update env product result corr w1) as [Hcalls [Hstore [_ Hdone]]].
  eexists. split; [exact Hcalls|].
  fold now. fold statusChanged.
  repeat split; try reflexivity.
  - intros ->. reflexivity.
  - intros ->. reflexivity.
  - exact Hstore.
  - exact Hdone.
Qed.

(** The console comes back in stock: its stored item gets the poll time
    as lastStatusChangeAt; the headset stays sold out: its lastStatusChangeAt
    stays absent. *)
Lemma product_update_on_check_witness :
  map lastStatusChangeAt
    (w_products (snd (Monitor.checkProductInventory Sample.env Sample.console
                        (Monitor.monitorFactory Sample.env) Sample.correlation Sample.world)))
  = [Some 1700000000250; None; None].
Proof.
  destruct (product_update_on_check Sample.env Sample.console
              (Monitor.monitorFactory Sample.env) _ _ Sample.correlation _ _
              eq_refl sample_console_check)
    as [written [_ [_ [_ [_ [_ [_ [Hchanged [_ [_ [Hstore _]]]]]]]]]]].
  specialize (Hchanged eq_refl).
  rewrite Hstore; [|reflexivity|reflexivity].
  cbn [w_products map]. 
  change (Cosmos.hasId (id Sample.console) Sample.console) with true.
  change (Cosmos.hasId (id Sample.console) Sample.ghost) with false.
  change (Cosmos.hasId (id Sample.console) Sample.headset) with false.
  cbv iota. rewrite Hchanged. reflexivity.
Defined.

(** ** The Best Buy adapter *)

Lemma bind_assoc {A B C} (m : M A) (f : A -> M B) (g : B -> M C) (w : World) :
  bind (bind m f) g w = bind m (fun a => bind (f a) g) w.
Proof.
  unfold bind. destruct (m w) as [[a|e] w1]; reflexivity.
Qed.

(** A computation that never rejects. *)
Lemma mapM_fulfils {A B} (f : A -> M B) (l : list A) :
  (forall a w, exists b, fst (f a w) = Fulfilled b) ->
  forall w, exists bs, fst (mapM f l w) = Fulfilled bs.
Proof.
  intro Hf. induction l as [|a l IH]; intro w.
  - eexists. reflexivity.
  - simpl. unfold bind at 1. destruct (Hf a w) as [b Hb].
    destruct (f a w) as [[b'|e] w1]; simpl in Hb; [|discriminate].
    unfold bind at 1. destruct (IH w1) as [bs Hbs].
    destruct (mapM f l w1) as [[bs'|e] w2]; simpl in Hbs; [|discriminate].
    eexists. reflexivity.
Qed.

Lemma stampIf_fulfils env flag w : exists t, fst (stampIf env flag w) = Fulfilled t.
Proof. unfold stampIf. destruct flag; eexists; reflexivity. Qed.

Lemma toStoreAvailability_fulfils env sa w :
  exists s, fst (toStoreAvailability env sa w) = Fulfilled s.
Proof.
  unfold toStoreAvailability, bind. destruct (stampIf_fulfils env (bbs_inStorePickup sa) w) as [t Ht].
  destruct (stampIf env (bbs_inStorePickup sa) w) as [[t'|e] w1]; simpl in Ht; [|discriminate].
  eexists. reflexivity.
Qed.

Section AdapterFrame.

(** Any relation that holds across the recording of a request and across
    a clock reading holds across a check of the adapter. *)
Variable R : World -> World -> Prop.
Hypothesis R_refl : forall w, R w w.
Hypothesis R_trans : forall a b c, R a b -> R b c -> R a c.
Hypothesis R_calls : forall c w, R w (withCalls (fun cs => cs ++ [c]) w).
Hypothesis R_clock : forall env w, R w (snd (newDate env w)).

Local Ltac pret := apply (preserves_ret R R_refl).
Local Ltac pthrow := apply (preserves_throw R R_refl).
Local Ltac pbind := apply (preserves_bind R R_trans).

Lemma preserves_readProductReply reply : preserves R (readProductReply reply).
Proof.
  destruct reply as [e|st tx data]; simpl; [pthrow|].
  destruct (negb (ok st)).
  - destruct (st =? 404); [pret | pthrow].
  - destruct (bb_products data) as [products|]; [|pret].
    destruct ((bb_total data =? 0) || (List.length products =? 0)%nat); pret.
Qed.

Lemma preserves_fetchProductDetails self env sku :
  preserves R (fetchProductDetails self env sku).
Proof.
  unfold fetchProductDetails. pbind.
  - intro w. apply R_calls.
  - intros _. apply preserves_readProductReply.
Qed.

Lemma preserves_fetchStoreAvailability self env sku storeIds :
  preserves R (fetchStoreAvailability self env sku storeIds).
Proof.
  unfold fetchStoreAvailability. pbind.
  - intro w. apply R_calls.
  - intros _. destruct (httpStores env (bb_apiKey self) sku storeIds) as [e|st tx data];
      [pthrow|].
    destruct (negb (ok st)); [pthrow | pret].
Qed.

Lemma preserves_stampIf env flag : preserves R (stampIf env flag).
Proof.
  unfold stampIf. destruct flag; [|pret].
  pbind; [intro w; apply R_clock|]. intro t. pret.
Qed.

Lemma preserves_checkFound self env sku storeLocations productData :
  preserves R (checkFound self env sku storeLocations productData).
Proof.
  unfold checkFound. destruct productData as [productData|]; [|pthrow].
  pbind; [apply preserves_stampIf|]. intro t. pbind.
  - destruct storeLocations as [[|loc locs]|]; try pret.
    pbind; [apply preserves_fetchStoreAvailability|].
    intro sas. apply (preserves_mapM R R_refl R_trans). intro sa.
    unfold toStoreAvailability. pbind; [apply preserves_stampIf|]. intro t'. pret.
  - intro storeList. pret.
Qed.

Lemma preserves_bestBuyCheckInventory self env sku storeLocations :
  preserves R (bestBuyCheckInventory self env sku storeLocations).
Proof.
  unfold bestBuyCheckInventory. pbind.
  - apply preserves_fetchProductDetails.
  - intro productData. apply preserves_checkFound.
Qed.

End AdapterFrame.

Lemma sameContainers_refl w : Spec.sameContainers w w.
Proof. unfold Spec.sameContainers. auto 10. Qed.

Lemma sameContainers_trans a b c :
  Spec.sameContainers a b -> Spec.sameContainers b c -> Spec.sameContainers a c.
Proof.
  unfold Spec.sameContainers.
  intros [H1 [H2 [H3 [H4 [H5 H6]]]]] [K1 [K2 [K3 [K4 [K5 K6]]]]].
  repeat split; congruence.
Qed.

(** A check of the adapter touches neither the containers, nor the queues,
    nor the log. *)
Lemma bestBuyCheckInventory_frame self env sku storeLocations :
  preserves Spec.sameContainers (bestBuyCheckInventory self env sku storeLocations).
Proof.
  apply preserves_bestBuyCheckInventory.
  - apply sameContainers_refl.
  - apply sameContainers_trans.
  - intros f w. unfold Spec.sameContainers. simpl. auto 10.
  - intros env' w. unfold Spec.sameContainers. simpl. auto 10.
Qed.

Lemma callsGrow_refl w : Spec.callsGrow w w.
Proof. exists []. rewrite app_nil_r. reflexivity. Qed.

Lemma callsGrow_trans a b c : Spec.callsGrow a b -> Spec.callsGrow b c -> Spec.callsGrow a c.
Proof.
  intros [m1 H1] [m2 H2]. exists (m1 ++ m2). rewrite H2, H1, app_assoc. reflexivity.
Qed.

(** The product request of a check is recorded as soon as the check is
    called, before anything else. *)
Lemma bestBuyCheckInventory_first_request self env sku storeLocations w :
  exists more,
    since (w_calls w) (w_calls (snd (bestBuyCheckInventory self env sku storeLocations w)))
    = HttpGetProduct (bb_apiKey self) sku :: more.
Proof.
  unfold bestBuyCheckInventory, fetchProductDetails.
  rewrite bind_assoc. unfold bind at 1, modify at 1.
  set (w0 := withCalls (fun cs => cs ++ [HttpGetProduct (bb_apiKey self) sku]) w).
  assert (Hrest : preserves Spec.callsGrow
            (bind (readProductReply (httpProduct env (bb_apiKey self) sku))
                  (fun productData => checkFound self env sku storeLocations productData))).
  { apply (preserves_bind _ callsGrow_trans).
    - apply preserves_readProductReply. apply callsGrow_refl.
    - intro pd. apply preserves_checkFound.
      + apply callsGrow_refl.
      + apply callsGrow_trans.
      + intros c w1. eexists. reflexivity.
      + intros env' w1. exists []. simpl. rewrite app_nil_r. reflexivity. }
  destruct (Hrest w0) as [more Hmore]. exists more.
  rewrite Hmore. unfold w0. cbn [w_calls withCalls].
  rewrite <- app_assoc. rewrite since_app. reflexivity.
Qed.

(** A check rejects only with the error of a rejected fetch, with
    'Best Buy API error: ...' or with 'Product not found: ...'. *)
Lemma bestBuyCheckInventory_rejections self env sku storeLocations w e :
  fst (bestBuyCheckInventory self env sku storeLocations w) = Rejected e ->
  e = productNotFound sku
  \/ (exists status statusText, e = bestBuyApiError status statusText)
  \/ httpProduct env (bb_apiKey self) sku = FetchRejected e
  \/ (exists storeIds, httpStores env (bb_apiKey self) sku storeIds = FetchRejected e).
Proof.
  unfold bestBuyCheckInventory, fetchProductDetails.
  rewrite bind_assoc. unfold bind at 1, modify at 1.
  set (w0 := withCalls _ w). clearbody w0.
  unfold bind at 1.
  destruct (httpProduct env (bb_apiKey self) sku) as [e0|st tx data] eqn:Ehttp.
  { simpl. intro H. inversion H. subst. right; right; left. reflexivity. }
  assert (Hfound : forall pd w1,
            fst (checkFound self env sku storeLocations pd w1) = Rejected e ->
            e = productNotFound sku
            \/ (exists status statusText, e = bestBuyApiError status statusText)
            \/ (exists storeIds, httpStores env (bb_apiKey self) sku storeIds = FetchRejected e)).
  { intros [pd|] w1; [|simpl; intro H; inversion H; left; reflexivity].
    unfold checkFound. unfold bind at 1.
    destruct (stampIf env (bbp_onlineAvailability pd) w1) as [[t|e1] w2] eqn:Es.
    2:{ unfold stampIf in Es. destruct (bbp_onlineAvailability pd); discriminate. }
    unfold bind at 1.
    destruct storeLocations as [[|loc locs]|]; try (simpl; discriminate).
    unfold bind at 1. unfold fetchStoreAvailability at 1. unfold bind at 1, modify at 1.
    destruct (httpStores env (bb_apiKey self) sku (map loc_storeId (loc :: locs)))
      as [e2|st2 tx2 data2] eqn:Est.
    { simpl. intro H. inversion H. subst. right; right. eexists. exact Est. }
    destruct (negb (ok st2)).
    { simpl. intro H. inversion H. right; left. eauto. }
    unfold ret at 1. cbv beta iota.
    match goal with |- context [mapM ?f ?l ?w] =>
      destruct (mapM_fulfils f l (toStoreAvailability_fulfils env) w) as [rs Hrs] end.
    match goal with |- context [mapM ?f ?l ?w] => destruct (mapM f l w) as [[rs'|e'] w5] end;
      simpl in Hrs; [|discriminate].
    simpl. discriminate. }
  simpl readProductReply.
  destruct (negb (ok st)).
  - destruct (st =? 404).
    + unfold ret at 1. intro H. apply Hfound in H. tauto.
    + simpl. intro H. inversion H. right; left. eauto.
  - destruct (bb_products data) as [products|].
    + destruct ((bb_total data =? 0) || (List.length products =? 0)%nat);
        unfold ret at 1; intro H; apply Hfound in H; tauto.
    + unfold ret at 1. intro H. apply Hfound in H. tauto.
Qed.

(** C8, the failing input: an adapter limited to one request per second
    (and two per day) is asked three times within 200 ms.  Each check sends
    its product request at once and fulfils: three requests leave within the
    same second, and no check reports that the limit was exceeded. *)
Lemma burst_exceeds_rate_limit :
  let adapter := newBestBuyInventoryProvider
                   (mkInventoryProviderConfig (js "key-123") (Some (mkRateLimit 1 (Some 2)))) in
  let trace := Spec.checksAt adapter Sample.env
                 [(0, js "6428324"); (100, js "6428324"); (200, js "6428324")]
                 Sample.emptyWorld in
  requestsPerSecond (bb_rateLimit adapter) = 1
  /\ trace = [(0, true, [HttpGetProduct (js "key-123") (js "6428324")]);
              (100, true, [HttpGetProduct (js "key-123") (js "6428324")]);
              (200, true, [HttpGetProduct (js "key-123") (js "6428324")])]
  /\ Spec.requestsInSecond 0 trace = 3.
Proof. vm_compute. repeat split; reflexivity. Qed.

(** C8, on the code: the adapter keeps the rate limit it is configured
    with (five requests per second when none is given), which its
    configuration documents as the maximum number of requests per second,
    yet it never consults it.  Every check records its product request as
    soon as it is called, whatever was requested before; the outcome and the
    effects of a check do not depend on the configured limit; and a check
    rejects only with the error of a rejected fetch, with
    'Best Buy API error: <status>' or with 'Product not found: <sku>': there
    is no rate-limited outcome. *)
Theorem adapter_ignores_rate_limit :
  forall apiKey limit env sku storeLocations w,
    let self := mkBestBuyInventoryProvider apiKey limit in
    let outcome := fst (bestBuyCheckInventory self env sku storeLocations w) in
    let w' := snd (bestBuyCheckInventory self env sku storeLocations w) in
    bb_rateLimit (newBestBuyInventoryProvider (mkInventoryProviderConfig apiKey None))
      = mkRateLimit 5 None
    /\ bb_rateLimit (newBestBuyInventoryProvider (mkInventoryProviderConfig apiKey (Some limit)))
       = limit
    /\ (exists more, since (w_calls w) (w_calls w') = HttpGetProduct apiKey sku :: more)
    /\ (forall limit',
          bestBuyCheckInventory (mkBestBuyInventoryProvider apiKey limit') env sku storeLocations w
          = bestBuyCheckInventory self env sku storeLocations w)
    /\ (forall e, outcome = Rejected e ->
          e = productNotFound sku
          \/ (exists status statusText, e = bestBuyApiError status statusText)
          \/ httpProduct env apiKey sku = FetchRejected e
          \/ (exists storeIds, httpStores env apiKey sku storeIds = FetchRejected e)).
Proof.
  intros apiKey limit env sku storeLocations w self outcome w'.
  split; [reflexivity|]. split; [reflexivity|]. split; [|split].
  - apply (bestBuyCheckInventory_first_request self).
  - intro limit'. reflexivity.
  - intros e He. apply (bestBuyCheckInventory_rejections self env sku storeLocations w e He).
Qed.

(** The unknown sku is requested at once and rejected as not found. *)
Lemma adapter_ignores_rate_limit_witness :
  (exists more,
     since [] (w_calls (snd (bestBuyCheckInventory
                               (mkBestBuyInventoryProvider (js "key-123") (mkRateLimit 1 None))
                               Sample.env (js "0000000") None Sample.emptyWorld)))
     = HttpGetProduct (js "key-123") (js "0000000") :: more)
  /\ (productNotFound (js "0000000") = productNotFound (js "0000000")
      \/ (exists status statusText,
            productNotFound (js "0000000") = bestBuyApiError status statusText)
      \/ httpProduct Sample.env (js "key-123") (js "0000000")
         = FetchRejected (productNotFound (js "0000000"))
      \/ (exists storeIds, httpStores Sample.env (js "key-123") (js "0000000") storeIds
                           = FetchRejected (productNotFound (js "0000000")))).
Proof.
  destruct (adapter_ignores_rate_limit (js "key-123") (mkRateLimit 1 None) Sample.env
              (js "0000000") None Sample.emptyWorld) as [_ [_ [Hfirst [_ Hrej]]]].
  split; [exact Hfirst|].
  apply Hrej. vm_compute. reflexivity.
Defined.

(** ** A tick of the monitor *)

Lemma allSettled_app {A B} (f : A -> M B) (before : list A) (a : A) (after : list A)
    (w wend : World) (results : list (Outcome B)) :
  allSettled f (before ++ a :: after) w = (Fulfilled results, wend) ->
  exists rb ra wb,
    allSettled f before w = (Fulfilled rb, wb)
    /\ allSettled f after (snd (f a wb)) = (Fulfilled ra, wend)
    /\ results = rb ++ fst (f a wb) :: ra.
Proof.
  revert w results. induction before as [|x before IH]; intros w results H.
  - simpl in H. rewrite allSettled_cons in H.
    destruct (f a w) as [o w1] eqn:Ef.
    destruct (allSettled f after w1) as [[rs|e] w2] eqn:Ea; [|discriminate].
    inversion H; subst. exists [], rs, w. simpl. rewrite Ef. simpl. auto.
  - simpl in H. rewrite allSettled_cons in H.
    destruct (f x w) as [o w1] eqn:Ef.
    destruct (allSettled f (before ++ a :: after) w1) as [[rs|e] w2] eqn:Ea; [|discriminate].
    inversion H; subst.
    destruct (IH _ _ Ea) as [rb [ra [wb [Hb [Ha Hr]]]]].
    exists (o :: rb), ra, wb. rewrite allSettled_cons, Ef, Hb. subst rs. auto.
Qed.

Lemma countWhere_cons {A} (f : A -> bool) (a : A) (l : list A) :
  Monitor.countWhere f (a :: l) = (if f a then 1 else 0) + Monitor.countWhere f l.
Proof.
  unfold Monitor.countWhere. simpl filter. destruct (f a); [|lia].
  change (List.length (a :: filter f l)) with (S (List.length (filter f l))).
  rewrite Nat2Z.inj_succ. lia.
Qed.

(** Every settled check counts either as succeeded or as failed. *)
Lemma counts_add_up {A} (results : list (Outcome A)) :
  Monitor.countWhere isFulfilled results + Monitor.countWhere isRejected results
  = Z.of_nat (List.length results).
Proof.
  induction results as [|r rs IH]; [reflexivity|].
  rewrite !countWhere_cons.
  change (List.length (r :: rs)) with (S (List.length rs)). rewrite Nat2Z.inj_succ.
  destruct r; cbn [isFulfilled isRejected]; lia.
Qed.

(** logFailures writes one line per rejected check and nothing else. *)
Lemma logFailures_spec products : forall results w,
  fst (Monitor.logFailures products results w) = Fulfilled tt
  /\ w_products (snd (Monitor.logFailures products results w)) = w_products w
  /\ w_history (snd (Monitor.logFailures products results w)) = w_history w
  /\ w_events (snd (Monitor.logFailures products results w)) = w_events w
  /\ w_notifications (snd (Monitor.logFailures products results w)) = w_notifications w
  /\ w_calls (snd (Monitor.logFailures products results w)) = w_calls w
  /\ (forall l, In l (w_log w) -> In l (w_log (snd (Monitor.logFailures products results w))))
  /\ (forall i p e, nth_error products i = Some p -> nth_error results i = Some (Rejected e) ->
        In (LogFailedToCheck (sku p) (errorToString e))
           (w_log (snd (Monitor.logFailures products results w)))).
Proof.
  induction products as [|p ps IH]; intros results w.
  - simpl. repeat split; auto.
    intros [|i] p e H; discriminate.
  - destruct results as [|r rs].
    + simpl. repeat split; auto.
      intros [|i] q e _ H; discriminate.
    + simpl. destruct r as [[]|reason]; unfold_m.
      * destruct (IH rs w) as [H1 [H3 [H4 [H5 [H6 [H7 [H8 H9]]]]]]].
        repeat split; auto.
        intros [|i] q e Hq Hr; simpl in *; [discriminate|]. eapply H9; eauto.
      * match goal with |- context [Monitor.logFailures ps rs ?w0] =>
          destruct (IH rs w0) as [H1 [H3 [H4 [H5 [H6 [H7 [H8 H9]]]]]]] end.
        cbn [w_products w_history w_events w_notifications w_calls w_log] in *.
        repeat split; auto.
        -- intros l Hl. apply H8. apply in_or_app. left. exact Hl.
        -- intros [|i] q e Hq Hr; simpl in *.
           ++ inversion Hq; inversion Hr; subst. apply H8. apply in_or_app. right. left. reflexivity.
           ++ eapply H9; eauto.
Qed.

(** Once the products are loaded, a tick runs to its end whatever the
    checks do. *)
Lemma processProducts_spec env startTime corr products w :
  products <> [] ->
  let check := fun p => Monitor.checkProductInventory env p (Monitor.monitorFactory env) corr in
  let w0 := withLog (fun ls => ls ++ [LogFoundActive (Z.of_nat (List.length products))]) w in
  exists results wend,
    allSettled check products w0 = (Fulfilled results, wend)
    /\ List.length results = List.length products
    /\ Monitor.processProducts env startTime corr products w
       = Monitor.logFailures products results
           (mkWorld (w_products wend) (w_history wend) (w_preferences wend) (w_events wend)
              (w_notifications wend) (w_calls wend)
              (w_log wend ++ [LogCheckComplete (Monitor.countWhere isFulfilled results)
                                (Monitor.countWhere isRejected results)
                                (clock env (w_clock wend) - startTime)])
              (w_uuids wend) (S (w_clock wend))).
Proof.
  intros Hne check w0.
  destruct (allSettled_fulfils check products w0) as [results [Hres Hlen]].
  destruct (allSettled check products w0) as [o wend] eqn:Eall. simpl in Hres. subst o.
  exists results, wend. split; [reflexivity|]. split; [exact Hlen|].
  unfold Monitor.processProducts. destruct products as [|p ps]; [congruence|].
  unfold bind at 1. unfold log at 1, modify at 1.
  fold w0. unfold bind at 1. fold check. rewrite Eall.
  unfold_m. reflexivity.
Qed.

Lemma inventoryMonitor_loaded env w :
  truthyOpt (getenv env "COSMOS_ENDPOINT") = true ->
  truthyOpt (getenv env "SERVICE_BUS_NAMESPACE") = true ->
  fault env CosmosQueryActiveProducts = None ->
  Monitor.inventoryMonitor env w
  = catch (Monitor.processProducts env (clock env (w_clock w)) (uuid env (w_uuids w))
             (filter isActive (w_products w)))
          (fun e => log (LogMonitorError e) ;;; throw e)
          (Spec.tickLoaded env w).
Proof.
  intros Hc Hs Hq.
  unfold Monitor.inventoryMonitor, Cosmos.getActiveProducts,
    ServiceBus.getServiceBusMessenger, Cosmos.getCosmosClient.
  rewrite Hc, Hs. unfold_m. rewrite Hq. unfold_m. reflexivity.
Qed.

(** A check of a Best Buy product whose sku the API does not know (404, or
    an empty result) is rejected with 'Product not found'; it leaves the
    containers, the queues and the log as they were. *)
Lemma unknown_sku_check_rejected env product corr w :
  retailer product = bestbuy ->
  truthyOpt (getenv env "BESTBUY_API_KEY") = true ->
  readProductReply (httpProduct env (orElse (getenv env "BESTBUY_API_KEY") []) (sku product))
    = ret None ->
  Monitor.checkProductInventory env product (Monitor.monitorFactory env) corr w
  = (Rejected (productNotFound (sku product)),
     withCalls (fun cs => cs ++ [HttpGetProduct (orElse (getenv env "BESTBUY_API_KEY") [])
                                   (sku product)]) w).
Proof.
  intros Hr Hk Hreply.
  unfold Monitor.checkProductInventory, Monitor.monitorFactory, create.
  cbn [apiKey]. destruct (getenv env "BESTBUY_API_KEY") as [key|]; [|discriminate].
  cbn [orElse truthyOpt] in *. rewrite Hk, Hr.
  cbn [registerProvider mapSet getProvider find fst snd RetailerId_eqb asProvider retailerId
       checkInventory].
  unfold bestBuyCheckInventory, fetchProductDetails.
  cbn [newBestBuyInventoryProvider bb_apiKey apiKey].
  unfold bind at 1. unfold bind at 1. unfold bind at 1. unfold modify at 1.
  rewrite Hreply. reflexivity.
Qed.

(** C9: when the clients are configured and the product query is
    answered, a tick fulfils whatever the checks do.  With no active product
    it changes no container and no queue and issues no request beyond the
    query.  Otherwise every active product gets its check, in order, each
    from the world its predecessor left, whether that predecessor fulfilled
    or rejected; the summary line counts the fulfilled and the rejected
    checks, which add up to the number of products, and each rejected check
    is reported with the product's sku and the reason.  In particular the
    check of a Best Buy product whose sku the API does not know rejects with
    'Product not found' and changes nothing but the list of issued
    requests. *)
Theorem tick_isolates_failures :
  forall env w,
    truthyOpt (getenv env "COSMOS_ENDPOINT") = true ->
    truthyOpt (getenv env "SERVICE_BUS_NAMESPACE") = true ->
    fault env CosmosQueryActiveProducts = None ->
    let products := filter isActive (w_products w) in
    let check := fun p => Monitor.checkProductInventory env p (Monitor.monitorFactory env)
                            (uuid env (w_uuids w)) in
    let outcome := fst (Monitor.inventoryMonitor env w) in
    let w' := snd (Monitor.inventoryMonitor env w) in
    outcome = Fulfilled tt
    /\ (products = [] ->
        w_products w' = w_products w /\ w_history w' = w_history w
        /\ w_events w' = w_events w /\ w_notifications w' = w_notifications w
        /\ since (w_calls w) (w_calls w') = [CosmosQueryActiveProducts])
    /\ (forall p wb,
          retailer p = bestbuy ->
          truthyOpt (getenv env "BESTBUY_API_KEY") = true ->
          readProductReply
            (httpProduct env (orElse (getenv env "BESTBUY_API_KEY") []) (sku p)) = ret None ->
          check p wb
          = (Rejected (productNotFound (sku p)),
             withCalls (fun cs => cs ++ [HttpGetProduct
                                           (orElse (getenv env "BESTBUY_API_KEY") []) (sku p)])
                       wb))
    /\ (products <> [] ->
        exists results wend duration,
          allSettled check products (Spec.tickStart env w) = (Fulfilled results, wend)
          /\ List.length results = List.length products
          /\ (forall before p after, products = before ++ p :: after ->
                exists rb ra wb,
                  allSettled check before (Spec.tickStart env w) = (Fulfilled rb, wb)
                  /\ allSettled check after (snd (check p wb)) = (Fulfilled ra, wend)
                  /\ results = rb ++ fst (check p wb) :: ra)
          /\ In (LogCheckComplete (Monitor.countWhere isFulfilled results)
                   (Monitor.countWhere isRejected results) duration) (w_log w')
          /\ Monitor.countWhere isFulfilled results + Monitor.countWhere isRejected results
             = Z.of_nat (List.length products)
          /\ (forall i p e, nth_error products i = Some p ->
                nth_error results i = Some (Rejected e) ->
                In (LogFailedToCheck (sku p) (errorToString e)) (w_log w'))
          /\ w_products w' = w_products wend /\ w_history w' = w_history wend
          /\ w_events w' = w_events wend /\ w_notifications w' = w_notifications wend
          /\ w_calls w' = w_calls wend).
Proof.
  intros env w Hc Hs Hq products check outcome w'. subst outcome w'.
  rewrite (inventoryMonitor_loaded env w Hc Hs Hq). fold products.
  assert (Hunknown : forall p wb,
            retailer p = bestbuy ->
            truthyOpt (getenv env "BESTBUY_API_KEY") = true ->
            readProductReply
              (httpProduct env (orElse (getenv env "BESTBUY_API_KEY") []) (sku p)) = ret None ->
            check p wb
            = (Rejected (productNotFound (sku p)),
               withCalls (fun cs => cs ++ [HttpGetProduct
                                             (orElse (getenv env "BESTBUY_API_KEY") []) (sku p)])
                         wb)).
  { intros q wb Hr Hk Hreply. apply unknown_sku_check_rejected; assumption. }
  destruct products as [|p ps] eqn:Eps.
  - split; [reflexivity|]. split; [|split; [exact Hunknown | congruence]]. intros _.
    unfold catch, Monitor.processProducts, Spec.tickLoaded. unfold_m.
    rewrite since_app. auto.
  - assert (Hne : p :: ps <> []) by discriminate.
    destruct (processProducts_spec env (clock env (w_clock w)) (uuid env (w_uuids w))
                (p :: ps) (Spec.tickLoaded env w) Hne) as [results [wend [Hall [Hlen Hrun]]]].
    unfold catch. rewrite Hrun.
    match goal with |- context [Monitor.logFailures (p :: ps) results ?w0] =>
      destruct (logFailures_spec (p :: ps) results w0)
        as [Hf [Hp [Hh [He [Hn [Hcalls [Hkeep Hlines]]]]]]];
      destruct (Monitor.logFailures (p :: ps) results w0) as [o wf] eqn:Elog
    end.
    cbn [fst snd w_products w_history w_events w_notifications w_calls w_log] in *.
    subst o. split; [reflexivity|]. split; [congruence|]. split; [exact Hunknown|]. intros _.
    assert (Hstart : Spec.tickStart env w
                     = withLog (fun ls => ls ++ [LogFoundActive (Z.of_nat (List.length (p :: ps)))])
                               (Spec.tickLoaded env w)).
    { unfold Spec.tickStart. fold products. rewrite Eps. reflexivity. }
    rewrite Hstart. fold check in Hall.
    set (w0 := withLog _ (Spec.tickLoaded env w)) in *. clearbody w0.
    exists results, wend, (clock env (w_clock wend) - clock env (w_clock w)).
    split; [exact Hall|]. split; [exact Hlen|]. split; [|split; [|split; [|split]]].
    + intros before q after Hsplit. rewrite Hsplit in Hall.
      apply (allSettled_app check before q after _ _ _ Hall).
    + apply Hkeep. apply in_or_app. right. left. reflexivity.
    + rewrite counts_add_up. congruence.
    + exact Hlines.
    + auto.
Qed.

(** The console comes back, the ghost's sku is unknown, the headset stays
    sold out: the tick fulfils, counts two succeeded checks and one failed,
    and reports the ghost's sku with 'Product not found'. *)
Lemma tick_isolates_failures_witness :
  fst (Monitor.inventoryMonitor Sample.env Sample.world) = Fulfilled tt
  /\ exists duration,
       In (LogCheckComplete 2 1 duration)
          (w_log (snd (Monitor.inventoryMonitor Sample.env Sample.world)))
       /\ In (LogFailedToCheck (js "0000000") (js "Error: Product not found: 0000000"))
             (w_log (snd (Monitor.inventoryMonitor Sample.env Sample.world))).
Proof.
  destruct (tick_isolates_failures Sample.env Sample.world eq_refl eq_refl eq_refl)
    as [Hout [_ [_ Hfull]]].
  split; [exact Hout|].
  destruct Hfull as [results [wend [duration [Hall [_ [_ [Hsum [_ [Hlines _]]]]]]]]];
    [vm_compute; discriminate|].
  assert (Hres : results = [Fulfilled tt; Rejected (productNotFound (js "0000000")); Fulfilled tt]).
  { vm_compute in Hall. inversion Hall. reflexivity. }
  subst results. exists duration. split.
  - exact Hsum.
  - apply (Hlines 1%nat Sample.ghost (productNotFound (js "0000000"))); reflexivity.
Defined.

(** ** What the monitor queues *)

Lemma queueGrew_refl w : Spec.queueGrewBySmsOnly w w.
Proof. exists []. rewrite app_nil_r. split; [reflexivity | constructor]. Qed.

Lemma queueGrew_trans a b c :
  Spec.queueGrewBySmsOnly a b -> Spec.queueGrewBySmsOnly b c -> Spec.queueGrewBySmsOnly a c.
Proof.
  intros [q1 [H1 F1]] [q2 [H2 F2]]. exists (q1 ++ q2). split.
  - rewrite H2, H1, app_assoc. reflexivity.
  - apply Forall_app. split; assumption.
Qed.

Lemma queueGrew_same {A} (m : M A) :
  (forall w, w_notifications (snd (m w)) = w_notifications w) ->
  preserves Spec.queueGrewBySmsOnly m.
Proof.
  intros H w. exists []. rewrite app_nil_r. split; [apply H | constructor].
Qed.

Lemma queueGrew_log l : preserves Spec.queueGrewBySmsOnly (log l).
Proof. apply queueGrew_same. reflexivity. Qed.

Lemma queueGrew_newDate env : preserves Spec.queueGrewBySmsOnly (newDate env).
Proof. apply queueGrew_same. reflexivity. Qed.

Lemma queueGrew_uuidv4 env : preserves Spec.queueGrewBySmsOnly (uuidv4 env).
Proof. apply queueGrew_same. reflexivity. Qed.

(** A check queues nothing, or one sms-only request. *)
Lemma queueGrew_afterCheck env product result corr :
  preserves Spec.queueGrewBySmsOnly (Monitor.afterCheck env product result corr).
Proof.
  intro w1. unfold Monitor.afterCheck.
  destruct (negb (Bool.eqb (Monitor.isAvailable (currentStatus product))
                           (Monitor.isAvailable (status result)))); unfold_m; split_faults.
  all: try (exists []; rewrite app_nil_r; split; [reflexivity | constructor]).
  all: destruct (Monitor.isAvailable (status result)); unfold_m; split_faults.
  all: try (exists []; rewrite app_nil_r; split; [reflexivity | constructor]).
  all: eexists [_]; split; [reflexivity|].
  all: constructor; [|constructor]; repeat split; reflexivity.
Qed.

(** The factory of a tick knows at most the Best Buy adapter. *)
Lemma monitorFactory_provider env r provider :
  getProvider (Monitor.monitorFactory env) r = Some provider ->
  exists self, checkInventory provider = bestBuyCheckInventory self.
Proof.
  unfold Monitor.monitorFactory, create. cbn [apiKey].
  destruct (truthy (orElse (getenv env "BESTBUY_API_KEY") [])); [|discriminate].
  cbn [registerProvider mapSet asProvider retailerId].
  unfold getProvider. cbn [find fst snd].
  destruct (RetailerId_eqb bestbuy r); [|discriminate].
  intro H. inversion H. eexists. reflexivity.
Qed.

Lemma queueGrew_check env product corr :
  preserves Spec.queueGrewBySmsOnly
    (Monitor.checkProductInventory env product (Monitor.monitorFactory env) corr).
Proof.
  unfold Monitor.checkProductInventory.
  destruct (getProvider (Monitor.monitorFactory env) (retailer product)) as [provider|] eqn:Ep.
  - destruct (monitorFactory_provider env _ _ Ep) as [self Hself]. rewrite Hself.
    apply (preserves_bind _ queueGrew_trans).
    + apply preserves_bestBuyCheckInventory.
      * apply queueGrew_refl.
      * apply queueGrew_trans.
      * intros c w. apply queueGrew_same with (m := modify (withCalls (fun cs => cs ++ [c]))).
        reflexivity.
      * intros env' w. apply queueGrew_newDate.
    + intro result. apply queueGrew_afterCheck.
  - apply queueGrew_log.
Qed.

Lemma queueGrew_processProducts env startTime corr products :
  preserves Spec.queueGrewBySmsOnly (Monitor.processProducts env startTime corr products).
Proof.
  unfold Monitor.processProducts.
  apply (preserves_bind _ queueGrew_trans); [apply queueGrew_log|]. intros _.
  destruct products as [|p ps]; [apply (preserves_ret _ queueGrew_refl)|].
  apply (preserves_bind _ queueGrew_trans).
  - apply (preserves_allSettled _ queueGrew_refl queueGrew_trans).
    intro q. apply queueGrew_check.
  - intro results.
    apply (preserves_bind _ queueGrew_trans); [apply queueGrew_newDate|]. intro t.
    apply (preserves_bind _ queueGrew_trans); [apply queueGrew_log|]. intros _.
    apply queueGrew_same. intro w.
    destruct (logFailures_spec (p :: ps) results w) as [_ [_ [_ [_ [H _]]]]]. exact H.
Qed.

Lemma queueGrew_inventoryMonitor env :
  preserves Spec.queueGrewBySmsOnly (Monitor.inventoryMonitor env).
Proof.
  unfold Monitor.inventoryMonitor.
  apply (preserves_bind _ queueGrew_trans); [apply queueGrew_newDate|]. intro startTime.
  apply (preserves_bind _ queueGrew_trans); [apply queueGrew_uuidv4|]. intro corr.
  apply (preserves_bind _ queueGrew_trans); [apply queueGrew_newDate|]. intro t.
  apply (preserves_bind _ queueGrew_trans); [apply queueGrew_log|]. intros _.
  apply (preserves_bind _ queueGrew_trans); [apply queueGrew_log|]. intros _.
  apply (preserves_catch _ queueGrew_trans).
  - apply (preserves_bind _ queueGrew_trans).
    { apply queueGrew_same. intro w. unfold Cosmos.getCosmosClient.
      destruct (truthyOpt _); reflexivity. }
    intros _. apply (preserves_bind _ queueGrew_trans).
    { apply queueGrew_same. intro w. unfold ServiceBus.getServiceBusMessenger.
      destruct (truthyOpt _); reflexivity. }
    intros _. apply (preserves_bind _ queueGrew_trans).
    { apply queueGrew_same. intro w. unfold Cosmos.getActiveProducts. unfold_m.
      destruct (fault env CosmosQueryActiveProducts); reflexivity. }
    intro products. apply queueGrew_processProducts.
  - intro e. apply (preserves_bind _ queueGrew_trans); [apply queueGrew_log|].
    intros _. apply (preserves_throw _ queueGrew_refl).
Qed.

(** ** The notification sender *)

(** sendSmsNotification rejects only when the SMS service cannot be
    built; otherwise it gives one result, on the sms channel. *)
Lemma sendSmsNotification_spec env message phoneNumber w :
  match fst (Sender.sendSmsNotification env message phoneNumber w) with
  | Fulfilled r => res_channel r = sms /\ res_requestId r = requestId message
  | Rejected e => truthyOpt (getenv env "ACS_ENDPOINT") = false /\ e = configError "ACS_ENDPOINT"
  end.
Proof.
  unfold Sender.sendSmsNotification, Sms.getSmsService, Sms.newSmsNotificationService, Sms.sendSms.
  destruct (truthyOpt (getenv env "ACS_ENDPOINT")); cbn [negb]; unfold_m; [|auto].
  destruct (acsSend env _ _ _) as [[|r rs]|e]; cbn [hd_error]; unfold_m; auto.
  destruct (successful r); unfold_m; auto.
Qed.

(** The placeholder gives one successful push result per subscription. *)
Lemma sendPushNotifications_spec env message subscriptions w :
  exists results w',
    Sender.sendPushNotifications env message subscriptions w = (Fulfilled results, w')
    /\ List.length results = List.length subscriptions
    /\ Forall (fun r => res_channel r = push /\ success r = true) results.
Proof.
  unfold Sender.sendPushNotifications. unfold_m.
  match goal with |- context [mapM ?f subscriptions ?w0] => generalize w0 end.
  induction subscriptions as [|s subs IH]; intro w0.
  - exists [], w0. repeat split; constructor.
  - destruct (IH (snd (newDate env w0))) as [rs [w' [Hm [Hl Hf]]]].
    simpl mapM. unfold_m. cbn [newDate snd] in Hm.
    match goal with |- context [mapM ?f subs ?wx] =>
      match type of Hm with mapM ?g subs ?wy = _ => change (mapM f subs wx) with (mapM g subs wy) end
    end.
    rewrite Hm. eexists _, w'. split; [reflexivity|]. split; [simpl; congruence|].
    constructor; [split; reflexivity | exact Hf].
Qed.

(** One turn of the loop never rejects; the results it pushes bear the
    channel of the turn, and there is at least one exactly when the channel
    is attempted. *)
Lemma processChannel_spec env message prefs channel w :
  exists results w',
    Sender.processChannel env message prefs channel w = (Fulfilled results, w')
    /\ Forall (fun r => res_channel r = channel) results
    /\ (results = [] <-> Sender.attempted prefs channel = false).
Proof.
  unfold Sender.processChannel, Sender.attempted. destruct channel as [| |other].
  - destruct (sms_enabled prefs && truthyOpt (sms_phoneNumber prefs)).
    + unfold catch, bind.
      pose proof (sendSmsNotification_spec env message (orElse (sms_phoneNumber prefs) []) w) as Hs.
      destruct (Sender.sendSmsNotification env message (orElse (sms_phoneNumber prefs) []) w)
        as [[r|e] w1]; cbn [fst] in Hs; unfold_m.
      * eexists _, _. split; [reflexivity|]. split.
        -- constructor; [apply Hs | constructor].
        -- split; discriminate.
      * eexists _, _. split; [reflexivity|]. split.
        -- constructor; [reflexivity | constructor].
        -- split; discriminate.
    + unfold_m. eexists _, _. split; [reflexivity|]. split; [constructor|]. split; reflexivity.
  - destruct (push_enabled prefs && (0 <? Z.of_nat (List.length (push_subscriptions prefs)))) eqn:Ea.
    + destruct (sendPushNotifications_spec env message (push_subscriptions prefs) w)
        as [rs [w' [Hp [Hl Hf]]]].
      unfold catch. rewrite Hp. exists rs, w'. split; [reflexivity|]. split.
      * eapply Forall_impl; [|exact Hf]. intros r [Hr _]. exact Hr.
      * apply andb_true_iff in Ea. destruct Ea as [_ Ea]. apply Z.ltb_lt in Ea.
        split; [|discriminate]. intros ->. simpl in Hl. lia.
    + unfold_m. eexists _, _. split; [reflexivity|]. split; [constructor|]. split; reflexivity.
  - unfold_m. eexists _, _. split; [reflexivity|]. split; [constructor|]. split; reflexivity.
Qed.

(** The loop never rejects; every result bears one of the requested
    channels, and there is at least one exactly when some requested channel
    is attempted. *)
Lemma processChannels_spec env message prefs chans : forall w,
  exists results w',
    Sender.processChannels env message prefs chans w = (Fulfilled results, w')
    /\ Forall (fun r => In (res_channel r) chans) results
    /\ (results = [] <-> existsb (Sender.attempted prefs) chans = false).
Proof.
  induction chans as [|c chans IH]; intro w.
  - exists [], w. split; [reflexivity|]. split; [constructor|]. split; reflexivity.
  - destruct (processChannel_spec env message prefs c w) as [rs [w1 [Hc [Hf Hn]]]].
    destruct (IH w1) as [more [w2 [Hm [Hfm Hnm]]]].
    exists (rs ++ more), w2. split; [|split].
    + simpl. unfold bind at 1. rewrite Hc. unfold bind at 1. rewrite Hm. reflexivity.
    + apply Forall_app. split.
      * eapply Forall_impl; [|exact Hf]. intros r Hr. left. symmetry. exact Hr.
      * eapply Forall_impl; [|exact Hfm]. intros r Hr. right. exact Hr.
    + simpl existsb. rewrite orb_false_iff, <- Hn, <- Hnm. split.
      * intro H. apply app_eq_nil in H. exact H.
      * intros [-> ->]. reflexivity.
Qed.

Lemma no_success_iff (results : list NotificationResult) :
  (Monitor.countWhere success results =? 0) = forallb Sender.failedResult results.
Proof.
  induction results as [|r rs IH]; [reflexivity|].
  rewrite countWhere_cons. simpl forallb. unfold Sender.failedResult at 1.
  assert (0 <= Monitor.countWhere success rs) by (unfold Monitor.countWhere; lia).
  destruct (success r); simpl negb.
  - simpl andb. apply Z.eqb_neq. lia.
  - rewrite <- IH. simpl andb. reflexivity.
Qed.

(** The decision at the end of the try block. *)
Lemma conclude_spec env startTime results w :
  fst (Sender.conclude env startTime results w)
  = match results with
    | [] => Fulfilled tt
    | _ :: _ => if forallb Sender.failedResult results
                then Rejected (Sender.allFailed results)
                else Fulfilled tt
    end.
Proof.
  unfold Sender.conclude. unfold_m. rewrite no_success_iff.
  destruct results as [|r rs]; [reflexivity|].
  change (0 <? Z.of_nat (List.length (r :: rs))) with true. cbn [andb].
  destruct (forallb Sender.failedResult (r :: rs)); reflexivity.
Qed.

(** The lookup of the preferences: a missing COSMOS_ENDPOINT and a refused
    read are rejections, except that a read refused with code 404 counts as
    "no preferences". *)
Lemma lookupPreferences_spec env w :
  fst (Sender.lookupPreferences env w)
  = if truthyOpt (getenv env "COSMOS_ENDPOINT") then
      match fault env CosmosReadPreferences with
      | Some e =>
          match code e with
          | Some c => if c =? 404 then Fulfilled None else Rejected e
          | None => Rejected e
          end
      | None => Fulfilled (w_preferences w)
      end
    else Rejected (configError "COSMOS_ENDPOINT").
Proof.
  unfold Sender.lookupPreferences, Cosmos.getCosmosClient, Cosmos.getUserPreferences.
  destruct (truthyOpt (getenv env "COSMOS_ENDPOINT")); unfold_m; [|reflexivity].
  destruct (fault env CosmosReadPreferences) as [e|]; unfold_m; [|reflexivity].
  destruct (code e) as [c|]; [|reflexivity].
  destruct (c =? 404); reflexivity.
Qed.

(** The outcome of the try block and its handler, which rethrows. *)
Lemma deliver_outcome env message startTime w0 :
  fst (catch (Sender.deliver env message startTime)
             (fun e => log (LogSenderError e) ;;; throw e) w0)
  = match Sender.lookupPreferences env w0 with
    | (Rejected e, _) => Rejected e
    | (Fulfilled None, _) => Fulfilled tt
    | (Fulfilled (Some preferences), wp) =>
        match Sender.processChannels env message (notifications preferences)
                (channels message) wp with
        | (Fulfilled results, wr) => fst (Sender.conclude env startTime results wr)
        | (Rejected e, _) => Rejected e
        end
    end.
Proof.
  unfold catch, Sender.deliver, bind.
  destruct (Sender.lookupPreferences env w0) as [[[preferences|]|e] wp];
    [|reflexivity|reflexivity].
  destruct (Sender.processChannels env message (notifications preferences)
              (channels message) wp) as [[results|e] wr]; [|reflexivity].
  destruct (Sender.conclude env startTime results wr) as [[[]|e] wc]; reflexivity.
Qed.

(** C4, as stated, fails: the store refuses to read the preferences (503).
    The sender rejects, so the transport redelivers, although no channel was
    attempted: the only request issued is the read, and nothing was sent. *)
Lemma sender_rejects_without_attempt :
  let outcome := fst (Sender.notificationSender Sample.envPreferencesDown Sample.request
                        Sample.world) in
  let w' := snd (Sender.notificationSender Sample.envPreferencesDown Sample.request
                   Sample.world) in
  outcome = Rejected Sample.serviceUnavailable
  /\ w_calls w' = [CosmosReadPreferences]
  /\ filter isAcsSend (w_calls w') = [].
Proof. vm_compute. repeat split; reflexivity. Qed.

(** C4, amended: the sender rejects, handing the request back to the
    transport, in two cases only.  Either the lookup of the preferences
    itself rejects (the store client cannot be built, or the read is refused
    with a code other than 404), and then no channel is attempted; or the
    preferences are found, at least one requested channel is attempted and
    every result collected is a failure.  With no preferences, with no
    attempted channel (preferences disabled, targets absent or channel
    unknown), or with at least one successful result, the sender fulfils. *)
Theorem sender_rejects_iff :
  forall env message w,
    let w0 := snd (Sender.started env message w) in
    let outcome := fst (Sender.notificationSender env message w) in
    match Sender.lookupPreferences env w0 with
    | (Rejected e, _) => outcome = Rejected e
    | (Fulfilled None, _) => outcome = Fulfilled tt
    | (Fulfilled (Some preferences), wp) =>
        exists results wr,
          Sender.processChannels env message (notifications preferences)
            (channels message) wp = (Fulfilled results, wr)
          /\ (results = []
              <-> existsb (Sender.attempted (notifications preferences)) (channels message)
                  = false)
          /\ (isRejected outcome = true
              <-> existsb (Sender.attempted (notifications preferences)) (channels message)
                  = true
                  /\ forallb Sender.failedResult results = true)
          /\ (isRejected outcome = false <-> outcome = Fulfilled tt)
    end.
Proof.
  intros env message w w0 outcome.
  assert (Hs : exists t, Sender.started env message w = (Fulfilled t, w0)).
  { eexists. unfold w0, Sender.started. unfold_m. reflexivity. }
  destruct Hs as [t Hs].
  assert (Hout : outcome
                 = fst (catch (Sender.deliver env message t)
                              (fun e => log (LogSenderError e) ;;; throw e) w0)).
  { unfold outcome, Sender.notificationSender. unfold bind at 1. rewrite Hs. reflexivity. }
  rewrite Hout, deliver_outcome. clear Hout Hs outcome.
  destruct (Sender.lookupPreferences env w0) as [[[preferences|]|e] wp];
    [|reflexivity|reflexivity].
  destruct (processChannels_spec env message (notifications preferences)
              (channels message) wp) as [results [wr [Hp [_ Hn]]]].
  exists results, wr. split; [exact Hp|]. split; [exact Hn|].
  rewrite Hp, conclude_spec.
  destruct results as [|r rs].
  - cbn [isRejected]. destruct Hn as [Hn _]. rewrite (Hn eq_refl).
    split; [split; [discriminate | intros [H _]; discriminate]|].
    split; reflexivity.
  - assert (Ha : existsb (Sender.attempted (notifications preferences)) (channels message)
                 = true).
    { destruct (existsb _ _) eqn:E; [reflexivity|].
      destruct Hn as [_ Hn]. specialize (Hn eq_refl). discriminate. }
    rewrite Ha. destruct (forallb Sender.failedResult (r :: rs)); cbn [isRejected].
    + split; [split; auto|]. split; discriminate.
    + split; [split; [discriminate | intros [_ H]; discriminate]|]. split; reflexivity.
Qed.

(** The transport delivers the request while every delivery fails: the
    sender rejects. *)
Lemma sender_rejects_iff_witness :
  isRejected (fst (Sender.notificationSender Sample.envUndeliverable Sample.request
                     Sample.world)) = true.
Proof.
  pose proof (sender_rejects_iff Sample.envUndeliverable Sample.request Sample.world) as H.
  cbv zeta in H.
  destruct (Sender.lookupPreferences Sample.envUndeliverable
              (snd (Sender.started Sample.envUndeliverable Sample.request Sample.world)))
    as [[[preferences|]|e] wp] eqn:El; vm_compute in El; try discriminate.
  destruct H as [results [wr [Hp [_ [Hrej _]]]]].
  apply Hrej. inversion El; subst preferences wp.
  vm_compute in Hp. inversion Hp; subst results.
  split; reflexivity.
Defined.

(** C10: every request a tick adds to the notifications queue names the
    sms channel alone, with attemptCount 0 and maxAttempts 3.  When the
    sender processes such a request, whatever the preferences, every result
    it collects is on the sms channel: no push delivery is started. *)
Theorem queued_requests_are_sms_only :
  forall env w,
    let w' := snd (Monitor.inventoryMonitor env w) in
    exists queued,
      w_notifications w' = w_notifications w ++ queued
      /\ Forall (fun request =>
           channels request = [sms]
           /\ attemptCount request = 0
           /\ maxAttempts request = 3
           /\ forall env' prefs w0 results w1,
                Sender.processChannels env' request prefs (channels request) w0
                  = (Fulfilled results, w1) ->
                Forall (fun r => res_channel r = sms) results
                /\ existsb (fun r => isPush (res_channel r)) results = false) queued.
Proof.
  intros env w w'.
  destruct (queueGrew_inventoryMonitor env w) as [queued [Hq Hf]].
  exists queued. split; [exact Hq|].
  eapply Forall_impl; [|exact Hf].
  intros request [Hc [Ha Hm]]. repeat split; auto.
  - destruct (processChannels_spec env' request prefs (channels request) w0)
      as [rs [w2 [Hp [Hin _]]]].
    rewrite Hp in H. inversion H; subst.
    eapply Forall_impl; [|exact Hin]. rewrite Hc. intros r [Hr|[]]. symmetry. exact Hr.
  - destruct (processChannels_spec env' request prefs (channels request) w0)
      as [rs [w2 [Hp [Hin _]]]].
    rewrite Hp in H. inversion H; subst. clear H Hp.
    rewrite Hc in Hin. induction Hin as [|r rs [Hr|[]] _ IH]; [reflexivity|].
    simpl. rewrite <- Hr. exact IH.
Qed.

(** What the tick over the sample world queues. *)
Lemma queued_requests_are_sms_only_witness :
  exists queued,
    w_notifications (snd (Monitor.inventoryMonitor Sample.env Sample.world)) = [] ++ queued
    /\ Forall (fun request =>
                 channels request = [sms] /\ attemptCount request = 0
                 /\ maxAttempts request = 3) queued.
Proof.
  destruct (queued_requests_are_sms_only Sample.env Sample.world) as [queued [Hq Hf]].
  exists queued. split; [exact Hq|].
  eapply Forall_impl; [|exact Hf].
  intros request [Hc [Ha [Hm _]]]. auto.
Defined.

(** ** The SMS service *)

(** Without an ACS endpoint the service cannot be built: the send attempt
    is rejected with the configuration error before any request is issued. *)
Lemma sms_fails_fast_without_endpoint env message phoneNumber w :
  truthyOpt (getenv env "ACS_ENDPOINT") = false ->
  Sender.sendSmsNotification env message phoneNumber w
  = (Rejected (configError "ACS_ENDPOINT"), w).
Proof.
  intro He. unfold Sender.sendSmsNotification, Sms.getSmsService, Sms.newSmsNotificationService.
  rewrite He. reflexivity.
Qed.

(** C7, on the code: with an ACS endpoint but no outbound number, the
    service is built with an empty from-number; isConfigured says it is not
    configured, yet nothing consults it and sendSmsNotification hands the
    alert to the ACS client with the empty sender. *)
Theorem sms_sent_without_from_number :
  forall env message phoneNumber w,
    truthyOpt (getenv env "ACS_ENDPOINT") = true ->
    truthyOpt (getenv env "ACS_SMS_FROM_NUMBER") = false ->
    exists service text,
      Sms.getSmsService env w = (Fulfilled service, w)
      /\ Sms.isConfigured service env = false
      /\ since (w_calls w)
               (w_calls (snd (Sender.sendSmsNotification env message phoneNumber w)))
         = [AcsSend [] phoneNumber text].
Proof.
  intros env message phoneNumber w He Hf.
  assert (Hfrom : orElse (getenv env "ACS_SMS_FROM_NUMBER") [] = []).
  { destruct (getenv env "ACS_SMS_FROM_NUMBER") as [[|c s]|]; try reflexivity.
    simpl in Hf. discriminate. }
  eexists _, _. split; [|split].
  - unfold Sms.getSmsService, Sms.newSmsNotificationService. rewrite He. reflexivity.
  - unfold Sms.isConfigured. cbn [Sms.fromNumber]. rewrite Hfrom. reflexivity.
  - unfold Sender.sendSmsNotification, Sms.getSmsService, Sms.newSmsNotificationService,
      Sms.sendSms.
    rewrite He. cbn [negb]. unfold_m. cbn [Sms.fromNumber]. rewrite Hfrom.
    destruct (acsSend env _ _ _) as [[|r rs]|e]; cbn [hd_error]; unfold_m.
    + rewrite since_app. reflexivity.
    + destruct (successful r); unfold_m; rewrite since_app; reflexivity.
    + rewrite since_app. reflexivity.
Qed.

(** The deployment without ACS_SMS_FROM_NUMBER: the alert for the console
    goes to the ACS client with an empty sender. *)
Lemma sms_sent_without_from_number_witness :
  exists text,
    w_calls (snd (Sender.sendSmsNotification Sample.envNoFromNumber Sample.request
                    (js "+14255550123") Sample.world))
    = [AcsSend [] (js "+14255550123") text].
Proof.
  destruct (sms_sent_without_from_number Sample.envNoFromNumber Sample.request
              (js "+14255550123") Sample.world eq_refl eq_refl)
    as [service [text [_ [_ Hcalls]]]].
  exists text. exact Hcalls.
Defined.

(** SMS and push both disabled: no channel is attempted, nothing is sent,
    and the sender fulfils. *)
Example all_channels_off_fulfils :
  fst (Sender.notificationSender Sample.env Sample.request Sample.worldAllOff) = Fulfilled tt
  /\ filter isAcsSend
       (w_calls (snd (Sender.notificationSender Sample.env Sample.request Sample.worldAllOff)))
     = [].
Proof. vm_compute. split; reflexivity. Qed.

(** The console comes back in stock: the product is updated with the poll
    time as lastStatusChangeAt, one in_stock entry without duration is
    appended, one inventory.available event is published and one request for
    the sms channel is queued. *)
Example console_back_in_stock :
  let w' := snd (Monitor.checkProductInventory Sample.env Sample.console
                   (Monitor.monitorFactory Sample.env) Sample.correlation Sample.world) in
  map lastStatusChangeAt (w_products w') = [Some 1700000000250; None; None]
  /\ map (fun e => (h_eventType e, h_durationInStockMs e)) (w_history w') = [(in_stock, None)]
  /\ map eventType (w_events w') = [inventory_available]
  /\ map channels (w_notifications w') = [[sms]].
Proof. vm_compute. repeat split; reflexivity. Qed.

(* ================================================================== *)
(** * Further properties of the adapter, the factory, the store wrapper
      and the workers *)

(** ** The Best Buy adapter: requests, results and errors *)

(** Reading a reply neither changes the world nor depends on it. *)
Lemma readProductReply_pure reply :
  exists o, forall w, readProductReply reply w = (o, w).
Proof.
  destruct reply as [e|st tx data]; simpl.
  - eexists. intro w. reflexivity.
  - destruct (negb (ok st)).
    + destruct (st =? 404); eexists; intro w; reflexivity.
    + destruct (bb_products data) as [products|]; [|eexists; intro w; reflexivity].
      destruct ((bb_total data =? 0) || (List.length products =? 0)%nat);
        eexists; intro w; reflexivity.
Qed.

Lemma stampIf_calls env flag w : w_calls (snd (stampIf env flag w)) = w_calls w.
Proof. unfold stampIf. destruct flag; reflexivity. Qed.

Lemma toStoreAvailability_run env sa w :
  exists t w',
    toStoreAvailability env sa w
    = (Fulfilled (mkStoreAvailability (bbs_storeId sa) (bbs_inStorePickup sa) None t), w')
    /\ w_calls w' = w_calls w
    /\ (t <> None <-> bbs_inStorePickup sa = true).
Proof.
  unfold toStoreAvailability, stampIf. destruct (bbs_inStorePickup sa); unfold_m.
  - eexists _, _. split; [reflexivity|]. split; [reflexivity|]. split; [reflexivity | discriminate].
  - eexists _, _. split; [reflexivity|]. split; [reflexivity|].
    split; [intro H; contradiction H; reflexivity | discriminate].
Qed.

(** The stores of a result are the stores of the reply, in its order, each
    with a last-known-available stamp exactly when it is available. *)
Lemma storeList_run env sas : forall w,
  exists storeList w',
    mapM (toStoreAvailability env) sas w = (Fulfilled storeList, w')
    /\ w_calls w' = w_calls w
    /\ map (fun s => (sa_storeId s, sa_available s)) storeList
       = map (fun b => (bbs_storeId b, bbs_inStorePickup b)) sas
    /\ Forall (fun s => (sa_lastKnownAvailable s <> None <-> sa_available s = true)
                        /\ sa_quantity s = None) storeList.
Proof.
  induction sas as [|sa sas IH]; intro w.
  - exists [], w. repeat split; constructor.
  - destruct (toStoreAvailability_run env sa w) as [t [w1 [Hrun [Hc Ht]]]].
    destruct (IH w1) as [rest [w2 [Hrest [Hc2 [Hmap Hall]]]]].
    eexists _, w2. simpl mapM. unfold bind at 1. rewrite Hrun.
    unfold bind at 1. rewrite Hrest. unfold ret.
    split; [reflexivity|]. split; [congruence|]. split.
    + simpl. rewrite Hmap. reflexivity.
    + constructor; [|exact Hall]. simpl. split; [exact Ht | reflexivity].
Qed.

(** X1. validateSku never rejects: it issues the one product request and
    answers true exactly when the reply is a 2xx response with a non-zero
    total and a non-empty product list; a rejected fetch, any other status
    and an empty result all give false. *)
Theorem validateSku_total :
  forall self env sku w,
    let reply := httpProduct env (bb_apiKey self) sku in
    exists valid,
      fst (bestBuyValidateSku self env sku w) = Fulfilled valid
      /\ since (w_calls w) (w_calls (snd (bestBuyValidateSku self env sku w)))
         = [HttpGetProduct (bb_apiKey self) sku]
      /\ (valid = true <->
          exists status statusText data product others,
            reply = HttpResponse status statusText data
            /\ ok status = true
            /\ bb_total data <> 0
            /\ bb_products data = Some (product :: others)).
Proof.
  intros self env sku w reply. unfold bestBuyValidateSku, fetchProductDetails.
  unfold catch. rewrite bind_assoc. unfold bind at 1, modify at 1.
  fold reply. cbn [withCalls].
  destruct reply as [e|st tx data] eqn:Er; simpl readProductReply.
  - unfold_m. rewrite since_app. exists false. split; [reflexivity|]. split; [reflexivity|].
    split; [discriminate|]. intros [s [t [d [p [o [H _]]]]]]. discriminate.
  - destruct (ok st) eqn:Eok; cbn [negb].
    + destruct (bb_products data) as [products|] eqn:Ep.
      * destruct (bb_total data =? 0) eqn:Et; cbn [orb].
        -- unfold_m. rewrite since_app. exists false. split; [reflexivity|].
           split; [reflexivity|]. split; [discriminate|].
           intros [s [t [d [p [o [H [_ [Hn _]]]]]]]]. inversion H; subst.
           apply Z.eqb_eq in Et. contradiction.
        -- destruct products as [|p others]; cbn [List.length Nat.eqb hd_error]; unfold_m;
             rewrite since_app.
           ++ exists false. split; [reflexivity|]. split; [reflexivity|].
              split; [discriminate|].
              intros [s [t [d [q [o [H [_ [_ Hp]]]]]]]]. inversion H; subst. congruence.
           ++ exists true. split; [reflexivity|]. split; [reflexivity|].
              split; [|reflexivity]. intros _.
              exists st, tx, data, p, others. repeat split; auto.
              apply Z.eqb_neq. exact Et.
      * unfold_m. rewrite since_app. exists false. split; [reflexivity|].
        split; [reflexivity|]. split; [discriminate|].
        intros [s [t [d [q [o [H [_ [_ Hp]]]]]]]]. inversion H; subst. congruence.
    + assert (Hno : ~ exists status statusText data0 product others,
                      HttpResponse st tx data = HttpResponse status statusText data0
                      /\ ok status = true /\ bb_total data0 <> 0
                      /\ bb_products data0 = Some (product :: others)).
      { intros [s [t [d [q [o [H [Hok _]]]]]]]. inversion H; subst. congruence. }
      destruct (st =? 404); unfold_m; rewrite since_app; exists false;
        (split; [reflexivity|]); (split; [reflexivity|]); (split; [discriminate|]);
        intro H; contradiction.
Qed.

Lemma fetchStoreAvailability_run self env sku storeIds w :
  fetchStoreAvailability self env sku storeIds w
  = (match httpStores env (bb_apiKey self) sku storeIds with
     | FetchRejected e => Rejected e
     | HttpResponse st tx data =>
         if negb (ok st) then Rejected (bestBuyApiError st tx)
         else Fulfilled (orElse (bb_stores data) [])
     end,
     withCalls (fun cs => cs ++ [HttpGetStores (bb_apiKey self) sku storeIds]) w).
Proof.
  unfold fetchStoreAvailability. unfold_m.
  destruct (httpStores env (bb_apiKey self) sku storeIds) as [e|st tx data]; [reflexivity|].
  destruct (negb (ok st)); reflexivity.
Qed.

(** What checkInventory does once the product is found. *)
Lemma checkFound_run self env sku storeLocations productData w :
  let storeIds := match storeLocations with
                  | Some (loc :: locs) => map loc_storeId (loc :: locs)
                  | _ => []
                  end in
  let asked := match storeLocations with Some (_ :: _) => true | _ => false end in
  let w' := snd (checkFound self env sku storeLocations (Some productData) w) in
  since (w_calls w) (w_calls w')
    = (if asked then [HttpGetStores (bb_apiKey self) sku storeIds] else [])
  /\ match fst (checkFound self env sku storeLocations (Some productData) w) with
     | Fulfilled result =>
         r_productUrl result = bestBuyProductUrl sku
         /\ r_addToCartUrl result = bestBuyAddToCartUrl sku
         /\ r_imageUrl result = bbp_image productData
         /\ r_productName result = Some (bbp_name productData)
         /\ available (online (status result)) = bbp_onlineAvailability productData
         /\ quantity (online (status result)) = None
         /\ (lastKnownAvailable (online (status result)) <> None
             <-> available (online (status result)) = true)
         /\ Forall (fun s => (sa_lastKnownAvailable s <> None <-> sa_available s = true)
                             /\ sa_quantity s = None) (stores (status result))
         /\ (if asked then
               exists st tx data,
                 httpStores env (bb_apiKey self) sku storeIds
                   = HttpResponse st tx data
                 /\ ok st = true
                 /\ map (fun s => (sa_storeId s, sa_available s)) (stores (status result))
                    = map (fun b => (bbs_storeId b, bbs_inStorePickup b))
                          (orElse (bb_stores data) [])
             else stores (status result) = [])
     | Rejected e =>
         asked = true
         /\ match httpStores env (bb_apiKey self) sku storeIds with
            | FetchRejected e' => e = e'
            | HttpResponse st tx _ =>
                ok st = false /\ e = bestBuyApiError st tx
            end
     end.
Proof.
  intros storeIds asked w'. subst w'.
  remember (checkFound self env sku storeLocations (Some productData) w) as run eqn:Erun.
  unfold checkFound in Erun. unfold bind at 1 in Erun.
  assert (Hstamp : exists t w1,
            stampIf env (bbp_onlineAvailability productData) w = (Fulfilled t, w1)
            /\ w_calls w1 = w_calls w
            /\ (t <> None <-> bbp_onlineAvailability productData = true)).
  { unfold stampIf. destruct (bbp_onlineAvailability productData); unfold_m;
      eexists _, _; (split; [reflexivity|]); (split; [reflexivity|]).
    - split; [reflexivity | discriminate].
    - split; [intro H; contradiction H; reflexivity | discriminate]. }
  destruct Hstamp as [t [w1 [Hs [Hc1 Ht]]]]. rewrite Hs in Erun.
  destruct storeLocations as [[|loc locs]|]; subst asked storeIds; cbv iota.
  - unfold bind, ret in Erun. subst run. cbn [fst snd]. rewrite Hc1, since_same.
    split; [reflexivity|].
    repeat split; auto; try apply Ht; constructor.
  - unfold bind in Erun. rewrite fetchStoreAvailability_run in Erun.
    set (ids := map loc_storeId (loc :: locs)) in *.
    set (w2 := withCalls (fun cs => cs ++ [HttpGetStores (bb_apiKey self) sku ids]) w1) in *.
    assert (Hc2 : w_calls w2 = w_calls w ++ [HttpGetStores (bb_apiKey self) sku ids]).
    { subst w2. cbn [w_calls withCalls]. rewrite Hc1. reflexivity. }
    destruct (httpStores env (bb_apiKey self) sku ids) as [e|st tx data] eqn:Eh.
    + subst run. cbn [fst snd]. rewrite Hc2, since_app.
      split; [reflexivity|]. split; reflexivity.
    + destruct (ok st) eqn:Eok; cbn [negb] in Erun.
      * destruct (storeList_run env (orElse (bb_stores data) []) w2)
          as [storeList [w3 [Hm [Hc3 [Hmap Hall]]]]].
        rewrite Hm in Erun. unfold ret in Erun. subst run. cbn [fst snd].
        rewrite Hc3, Hc2, since_app. split; [reflexivity|].
        repeat split; auto; try apply Ht.
        exists st, tx, data. repeat split; auto.
      * subst run. cbn [fst snd]. rewrite Hc2, since_app.
        split; [reflexivity|]. repeat split; reflexivity.
  - unfold bind, ret in Erun. subst run. cbn [fst snd]. rewrite Hc1, since_same.
    split; [reflexivity|].
    repeat split; auto; try apply Ht; constructor.
Qed.

(** A run of checkInventory: the product request, the reading of its
    reply, then checkFound. *)
Lemma bestBuyCheckInventory_run self env sku storeLocations w :
  exists o,
    (forall w0, readProductReply (httpProduct env (bb_apiKey self) sku) w0 = (o, w0))
    /\ bestBuyCheckInventory self env sku storeLocations w
       = match o with
         | Fulfilled productData =>
             checkFound self env sku storeLocations productData
               (withCalls (fun cs => cs ++ [HttpGetProduct (bb_apiKey self) sku]) w)
         | Rejected e =>
             (Rejected e, withCalls (fun cs => cs ++ [HttpGetProduct (bb_apiKey self) sku]) w)
         end.
Proof.
  destruct (readProductReply_pure (httpProduct env (bb_apiKey self) sku)) as [o Ho].
  exists o. split; [exact Ho|].
  unfold bestBuyCheckInventory, fetchProductDetails. rewrite bind_assoc.
  unfold bind at 1, modify at 1. unfold bind at 1. rewrite Ho.
  destruct o; reflexivity.
Qed.

(** The requests of a check, in the order they are issued. *)
Lemma bestBuyCheckInventory_calls self env sku storeLocations w :
  w_calls (snd (bestBuyCheckInventory self env sku storeLocations w))
  = w_calls w
    ++ HttpGetProduct (bb_apiKey self) sku
       :: match storeLocations with
          | Some (loc :: locs) =>
              match fst (readProductReply (httpProduct env (bb_apiKey self) sku) w) with
              | Fulfilled (Some _) =>
                  [HttpGetStores (bb_apiKey self) sku (map loc_storeId (loc :: locs))]
              | _ => []
              end
          | _ => []
          end.
Proof.
  destruct (bestBuyCheckInventory_run self env sku storeLocations w) as [o [Ho Hrun]].
  rewrite Hrun. rewrite Ho. cbn [fst].
  set (w0 := withCalls (fun cs => cs ++ [HttpGetProduct (bb_apiKey self) sku]) w).
  assert (Hw0 : w_calls w0 = w_calls w ++ [HttpGetProduct (bb_apiKey self) sku]) by reflexivity.
  destruct o as [[productData|]|e].
  - destruct (checkFound_run self env sku storeLocations productData w0) as [Hcalls _].
    assert (Hgrow : exists more,
              w_calls (snd (checkFound self env sku storeLocations (Some productData) w0))
              = w_calls w0 ++ more).
    { apply (preserves_checkFound Spec.callsGrow callsGrow_refl callsGrow_trans).
      - intros c w1. eexists. reflexivity.
      - intros env' w1. exists []. simpl. rewrite app_nil_r. reflexivity. }
    destruct Hgrow as [more Hmore]. rewrite Hmore, since_app in Hcalls.
    rewrite Hmore, Hw0, <- app_assoc. simpl. rewrite Hcalls.
    destruct storeLocations as [[|loc locs]|]; reflexivity.
  - unfold checkFound, throw. cbn [snd]. rewrite Hw0.
    destruct storeLocations as [[|loc locs]|]; reflexivity.
  - cbn [snd]. rewrite Hw0. destruct storeLocations as [[|loc locs]|]; reflexivity.
Qed.

(** X2. A check issues the product request and then, exactly when the
    product was found and at least one store location is given, one stores
    request carrying the ids of all the given locations in their order;
    nothing else is requested.  An empty list of locations is treated like
    no list, and a product that is not found is never looked up in the
    stores. *)
Theorem checkInventory_requests :
  forall self env sku storeLocations w,
    let found := match fst (readProductReply (httpProduct env (bb_apiKey self) sku) w) with
                 | Fulfilled (Some _) => true
                 | _ => false
                 end in
    since (w_calls w) (w_calls (snd (bestBuyCheckInventory self env sku storeLocations w)))
    = HttpGetProduct (bb_apiKey self) sku
      :: match storeLocations with
         | Some (loc :: locs) =>
             if found
             then [HttpGetStores (bb_apiKey self) sku (map loc_storeId (loc :: locs))]
             else []
         | _ => []
         end.
Proof.
  intros self env sku storeLocations w found.
  rewrite bestBuyCheckInventory_calls, since_app. subst found.
  destruct storeLocations as [[|loc locs]|]; try reflexivity.
  destruct (fst (readProductReply (httpProduct env (bb_apiKey self) sku) w)) as [[p|]|e];
    reflexivity.
Qed.

(** X3. Whatever a check returns is built from the sku and the replies
    alone: the links are the adapter's links for the sku, the image and the
    name are the product's, the online verdict is onlineAvailability, no
    quantity is ever reported, every availability state carries a
    last-known-available stamp exactly when it is available, and the stores
    listed are those of the stores reply, in its order (none when no store
    location is given), whether or not they were the ones asked for. *)
Theorem checkInventory_result :
  forall self env sku storeLocations w result,
    fst (bestBuyCheckInventory self env sku storeLocations w) = Fulfilled result ->
    r_productUrl result = bestBuyProductUrl sku
    /\ r_addToCartUrl result = bestBuyAddToCartUrl sku
    /\ quantity (online (status result)) = None
    /\ (lastKnownAvailable (online (status result)) <> None
        <-> available (online (status result)) = true)
    /\ Forall (fun s => (sa_lastKnownAvailable s <> None <-> sa_available s = true)
                        /\ sa_quantity s = None) (stores (status result))
    /\ (exists st tx data product others,
          httpProduct env (bb_apiKey self) sku = HttpResponse st tx data
          /\ ok st = true
          /\ bb_products data = Some (product :: others)
          /\ available (online (status result)) = bbp_onlineAvailability product
          /\ r_imageUrl result = bbp_image product
          /\ r_productName result = Some (bbp_name product))
    /\ match storeLocations with
       | Some (loc :: locs) =>
           exists st tx data,
             httpStores env (bb_apiKey self) sku (map loc_storeId (loc :: locs))
               = HttpResponse st tx data
             /\ ok st = true
             /\ map (fun s => (sa_storeId s, sa_available s)) (stores (status result))
                = map (fun b => (bbs_storeId b, bbs_inStorePickup b))
                      (orElse (bb_stores data) [])
       | _ => stores (status result) = []
       end.
Proof.
  intros self env sku storeLocations w result Hres.
  destruct (bestBuyCheckInventory_run self env sku storeLocations w) as [o [Ho Hrun]].
  rewrite Hrun in Hres.
  destruct o as [[productData|]|e]; [|simpl in Hres; discriminate|simpl in Hres; discriminate].
  set (w0 := withCalls _ w) in Hres.
  destruct (checkFound_run self env sku storeLocations productData w0) as [_ Hout].
  rewrite Hres in Hout.
  destruct Hout as [H1 [H2 [H3 [H4 [H5 [H6 [H7 [H8 H9]]]]]]]].
  split; [exact H1|]. split; [exact H2|]. split; [exact H6|]. split; [exact H7|].
  split; [exact H8|]. split.
  - specialize (Ho w). destruct (httpProduct env (bb_apiKey self) sku) as [e|st tx data];
      simpl in Ho; [discriminate|].
    destruct (ok st) eqn:Eok; cbn [negb] in Ho.
    + destruct (bb_products data) as [products|] eqn:Ep; [|discriminate].
      destruct ((bb_total data =? 0) || (List.length products =? 0)%nat); [discriminate|].
      destruct products as [|p others]; [discriminate|].
      inversion Ho; subst. exists st, tx, data, productData, others. repeat split; auto.
    + destruct (st =? 404); discriminate.
  - destruct storeLocations as [[|loc locs]|]; exact H9.
Qed.

(** The console is on sale online and no store is watched. *)
Lemma checkInventory_result_witness :
  let result := mkInventoryCheckResult (Sample.availableStatus 1700000000000)
                  (js "https://www.bestbuy.com/site/6428324.p")
                  (js "https://api.bestbuy.com/click/-/6428324/cart")
                  (Some (js "https://img.bestbuy.com/6428324.jpg"))
                  (Some (js "Game Console")) in
  fst (bestBuyCheckInventory
         (newBestBuyInventoryProvider
            (mkInventoryProviderConfig (js "key-123") (Some (mkRateLimit 5 None))))
         Sample.env (js "6428324") None Sample.world) = Fulfilled result
  /\ r_addToCartUrl result = bestBuyAddToCartUrl (js "6428324")
  /\ stores (status result) = [].
Proof.
  intro result.
  assert (Hrun : fst (bestBuyCheckInventory
                        (newBestBuyInventoryProvider
                           (mkInventoryProviderConfig (js "key-123") (Some (mkRateLimit 5 None))))
                        Sample.env (js "6428324") None Sample.world) = Fulfilled result)
    by (vm_compute; reflexivity).
  split; [exact Hrun|].
  destruct (checkInventory_result _ _ _ _ _ _ Hrun) as [_ [Hcart [_ [_ [_ [_ Hstores]]]]]].
  split; [exact Hcart | exact Hstores].
Defined.

(** ** The provider factory *)

Lemma RetailerId_eqb_eq (a b : RetailerId) : RetailerId_eqb a b = true <-> a = b.
Proof. destruct a, b; simpl; split; intro H; try reflexivity; discriminate. Qed.

Lemma RetailerId_eqb_refl (a : RetailerId) : RetailerId_eqb a a = true.
Proof. destruct a; reflexivity. Qed.

Lemma getProvider_mapSet_same k v m :
  getProvider (mapSet k v m) k = Some v.
Proof.
  unfold getProvider.
  induction m as [|[k' v'] m IH]; simpl.
  - rewrite RetailerId_eqb_refl. reflexivity.
  - destruct (RetailerId_eqb k' k) eqn:E; simpl.
    + rewrite RetailerId_eqb_refl. reflexivity.
    + rewrite E. exact IH.
Qed.

Lemma getProvider_mapSet_other k v m r :
  r <> k -> getProvider (mapSet k v m) r = getProvider m r.
Proof.
  intro Hne. unfold getProvider.
  assert (Hk : RetailerId_eqb k r = false).
  { destruct (RetailerId_eqb k r) eqn:E; [|reflexivity].
    apply RetailerId_eqb_eq in E. congruence. }
  induction m as [|[k' v'] m IH]; simpl.
  - rewrite Hk. reflexivity.
  - destruct (RetailerId_eqb k' k) eqn:E; simpl.
    + apply RetailerId_eqb_eq in E. subst k'. rewrite Hk. reflexivity.
    + destruct (RetailerId_eqb k' r); [reflexivity | exact IH].
Qed.

Lemma keys_mapSet k v m :
  map fst (mapSet k v m) = if existsb (fun kv => RetailerId_eqb (fst kv) k) m
                           then map fst m else map fst m ++ [k].
Proof.
  induction m as [|[k' v'] m IH]; simpl; [reflexivity|].
  destruct (RetailerId_eqb k' k) eqn:E; simpl.
  - apply RetailerId_eqb_eq in E. subst. reflexivity.
  - rewrite IH. destruct (existsb _ m); reflexivity.
Qed.

(** X4. Registering a provider makes it the provider of its retailer and
    leaves every other retailer's provider as it was.  A retailer that was
    already registered keeps its place in the list of supported retailers,
    a new one goes to its end; the list never holds a retailer twice; and
    isSupported agrees with getProvider. *)
Theorem registerProvider_lookup :
  forall provider factory,
    NoDup (getSupportedRetailers factory) ->
    getProvider (registerProvider provider factory) (retailerId provider) = Some provider
    /\ (forall r, r <> retailerId provider ->
          getProvider (registerProvider provider factory) r = getProvider factory r)
    /\ getSupportedRetailers (registerProvider provider factory)
       = (if isSupported factory (retailerId provider)
          then getSupportedRetailers factory
          else getSupportedRetailers factory ++ [retailerId provider])
    /\ NoDup (getSupportedRetailers (registerProvider provider factory))
    /\ (forall r, isSupported (registerProvider provider factory) r = true
                  <-> getProvider (registerProvider provider factory) r <> None).
Proof.
  intros provider factory Hnd. unfold registerProvider, getSupportedRetailers, isSupported in *.
  split; [apply getProvider_mapSet_same|].
  split; [intros r Hr; apply getProvider_mapSet_other; exact Hr|].
  split; [apply keys_mapSet|]. split.
  - rewrite keys_mapSet.
    destruct (existsb (fun kv => RetailerId_eqb (fst kv) (retailerId provider)) factory) eqn:E;
      [exact Hnd|].
    apply NoDup_app; [exact Hnd | constructor; [intros [] | constructor] |].
    intros a Ha [<-|[]].
    apply in_map_iff in Ha. destruct Ha as [[k v] [Hk Hin]]. simpl in Hk. subst k.
    assert (Ht : existsb (fun kv => RetailerId_eqb (fst kv) (retailerId provider)) factory = true).
    { apply existsb_exists. exists (retailerId provider, v). split; [exact Hin|].
      apply RetailerId_eqb_refl. }
    congruence.
  - intro r. unfold getProvider.
    generalize (mapSet (retailerId provider) provider factory). intro m.
    induction m as [|[k v] m IH]; simpl.
    + split; [discriminate | intro H; contradiction H; reflexivity].
    + destruct (RetailerId_eqb k r); simpl; [split; [discriminate | reflexivity] | exact IH].
Qed.

(** Registering a second Best Buy adapter replaces the first. *)
Lemma registerProvider_lookup_witness :
  getSupportedRetailers
    (registerProvider
       (asProvider (mkBestBuyInventoryProvider (js "key-2") (mkRateLimit 5 None)))
       (Monitor.monitorFactory Sample.env))
  = [bestbuy].
Proof.
  destruct (registerProvider_lookup
              (asProvider (mkBestBuyInventoryProvider (js "key-2") (mkRateLimit 5 None)))
              (Monitor.monitorFactory Sample.env)) as [_ [_ [Hkeys _]]].
  - vm_compute. constructor; [intros [] | constructor].
  - rewrite Hkeys. reflexivity.
Defined.

(** X5. InventoryProviderFactory.create knows one retailer at most: it
    registers the Best Buy adapter exactly when a Best Buy configuration with
    a non-empty API key is given, and ignores the configuration of every
    other retailer.  The adapter keeps the configured key, and the configured
    rate limit or five requests per second. *)
Theorem create_registers_bestbuy_only :
  forall configs r,
    getProvider (create configs) r
    = match r, configs bestbuy with
      | bestbuy, Some config =>
          if truthy (apiKey config)
          then Some (asProvider
                       (mkBestBuyInventoryProvider (apiKey config)
                          (orElse (rateLimit config) (mkRateLimit 5 None))))
          else None
      | _, _ => None
      end.
Proof.
  intros configs r. unfold create.
  destruct (configs bestbuy) as [config|]; [|destruct r; reflexivity].
  destruct (truthy (apiKey config)); [|destruct r; reflexivity].
  destruct r; reflexivity.
Qed.

(** ** The monitor and its providers *)

Lemma monitorFactory_lookup env r :
  getProvider (Monitor.monitorFactory env) r
  = match r with
    | bestbuy =>
        if truthy (orElse (getenv env "BESTBUY_API_KEY") [])
        then Some (asProvider
                     (mkBestBuyInventoryProvider (orElse (getenv env "BESTBUY_API_KEY") [])
                        (mkRateLimit 5 None)))
        else None
    | _ => None
    end.
Proof.
  unfold Monitor.monitorFactory, create. cbn [apiKey].
  destruct (truthy (orElse (getenv env "BESTBUY_API_KEY") [])); destruct r; reflexivity.
Qed.

(** A tick has a provider for Best Buy alone, and only when
    BESTBUY_API_KEY is set and not empty. *)
Lemma no_provider env r :
  r <> bestbuy \/ truthyOpt (getenv env "BESTBUY_API_KEY") = false ->
  getProvider (Monitor.monitorFactory env) r = None.
Proof.
  intro H. rewrite monitorFactory_lookup.
  destruct H as [H|H].
  - destruct r; try reflexivity. contradiction H; reflexivity.
  - destruct (getenv env "BESTBUY_API_KEY") as [k|]; cbn [orElse truthyOpt truthy] in *.
    + rewrite H. destruct r; reflexivity.
    + destruct r; reflexivity.
Qed.

(** X6. A product whose retailer has no provider in the tick's factory
    (any retailer other than Best Buy, and Best Buy itself when
    BESTBUY_API_KEY is missing or empty) is not checked: the check writes a
    warning, issues no request, changes nothing, and fulfils, so that the
    tick counts it as succeeded. *)
Theorem unsupported_product_is_skipped :
  forall env product corr w,
    retailer product <> bestbuy \/ truthyOpt (getenv env "BESTBUY_API_KEY") = false ->
    Monitor.checkProductInventory env product (Monitor.monitorFactory env) corr w
    = (Fulfilled tt, withLog (fun ls => ls ++ [LogNoProvider (retailer product)]) w).
Proof.
  intros env product corr w H. unfold Monitor.checkProductInventory.
  rewrite (no_provider env _ H). reflexivity.
Qed.

(** A product tracked at another retailer, in the sample deployment. *)
Lemma unsupported_product_is_skipped_witness :
  let product := mkMonitoredProduct (js "p-9") walmart (js "555") (js "Kettle") true normal
                   None Sample.unavailableStatus 0 None None [] [] 0 0 in
  fst (Monitor.checkProductInventory Sample.env product (Monitor.monitorFactory Sample.env)
         Sample.correlation Sample.world) = Fulfilled tt
  /\ w_calls (snd (Monitor.checkProductInventory Sample.env product
                     (Monitor.monitorFactory Sample.env) Sample.correlation Sample.world))
     = w_calls Sample.world.
Proof.
  intro product.
  rewrite (unsupported_product_is_skipped Sample.env product Sample.correlation Sample.world).
  - split; reflexivity.
  - left. discriminate.
Defined.

Lemma bestBuyCheckInventory_uuids self env sku storeLocations w :
  w_uuids (snd (bestBuyCheckInventory self env sku storeLocations w)) = w_uuids w.
Proof.
  apply (preserves_bestBuyCheckInventory (fun a b => w_uuids b = w_uuids a)).
  - reflexivity.
  - intros a b c H1 H2. congruence.
  - reflexivity.
  - reflexivity.
Qed.

(** X7. When the provider's check rejects (the product is not found, the
    API answers with an error, or a fetch fails), the check of the product
    rejects with the same error and writes nothing: the stored product keeps
    its status and its lastCheckedAt, no history entry, event or request is
    added, nothing is logged, and the only requests issued went to the
    retailer's API. *)
Theorem failed_check_writes_nothing :
  forall env product corr w provider e,
    getProvider (Monitor.monitorFactory env) (retailer product) = Some provider ->
    fst (checkInventory provider env (sku product) (storeLocations product) w) = Rejected e ->
    let run := Monitor.checkProductInventory env product (Monitor.monitorFactory env) corr w in
    fst run = Rejected e
    /\ Spec.sameContainers w (snd run)
    /\ w_uuids (snd run) = w_uuids w
    /\ forallb isHttp (since (w_calls w) (w_calls (snd run))) = true.
Proof.
  intros env product corr w provider e Hp He run. subst run.
  destruct (monitorFactory_provider env _ _ Hp) as [self Hself].
  unfold Monitor.checkProductInventory. rewrite Hp. rewrite Hself in *.
  pose proof (bestBuyCheckInventory_frame self env (sku product) (storeLocations product) w)
    as Hframe.
  pose proof (bestBuyCheckInventory_uuids self env (sku product) (storeLocations product) w)
    as Huuid.
  pose proof (bestBuyCheckInventory_calls self env (sku product) (storeLocations product) w)
    as Hcalls.
  unfold bind.
  destruct (bestBuyCheckInventory self env (sku product) (storeLocations product) w)
    as [[result|e'] w1]; cbn [fst snd] in *; [discriminate|].
  inversion He; subst e'.
  split; [reflexivity|]. split; [exact Hframe|]. split; [exact Huuid|].
  rewrite Hcalls, since_app.
  destruct (storeLocations product) as [[|loc locs]|]; try reflexivity.
  destruct (fst (readProductReply _ w)) as [[p|]|e0]; reflexivity.
Qed.

(** The ghost's sku is unknown to the API. *)
Lemma failed_check_writes_nothing_witness :
  fst (Monitor.checkProductInventory Sample.env Sample.ghost (Monitor.monitorFactory Sample.env)
         Sample.correlation Sample.world)
  = Rejected (productNotFound (js "0000000"))
  /\ w_products (snd (Monitor.checkProductInventory Sample.env Sample.ghost
                        (Monitor.monitorFactory Sample.env) Sample.correlation Sample.world))
     = w_products Sample.world.
Proof.
  destruct (failed_check_writes_nothing Sample.env Sample.ghost Sample.correlation Sample.world
              (asProvider (mkBestBuyInventoryProvider (js "key-123") (mkRateLimit 5 None)))
              (productNotFound (js "0000000")))
    as [Hout [[Hproducts _] _]].
  - reflexivity.
  - vm_compute. reflexivity.
  - split; [exact Hout | exact Hproducts].
Defined.

(** ** Relations kept by a whole tick *)

Lemma bind_fulfilled {A B} (m : M A) (f : A -> M B) (w w' : World) (a : A) :
  m w = (Fulfilled a, w') -> bind m f w = f a w'.
Proof. intro H. unfold bind. rewrite H. reflexivity. Qed.

Section TickFrame.

(** A relation that holds across every step a check can take, for the
    products of a given kind, the results the Best Buy adapter can give for
    them and the correlation id of the tick, holds across the tick. *)
Variable R : World -> World -> Prop.
Variable tracked : MonitoredProduct -> Prop.
Variable good : MonitoredProduct -> InventoryCheckResult -> Prop.
Variable corr : jstring.
Hypothesis R_refl : forall w, R w w.
Hypothesis R_trans : forall a b c, R a b -> R b c -> R a c.
Hypothesis R_log : forall l w, R w (withLog (fun ls => ls ++ [l]) w).
Hypothesis R_calls : forall c w, R w (withCalls (fun cs => cs ++ [c]) w).
Hypothesis R_clock : forall env w, R w (snd (newDate env w)).
Hypothesis R_uuid : forall env w, R w (snd (uuidv4 env w)).
Hypothesis good_check : forall self env product w result,
  fst (bestBuyCheckInventory self env (sku product) (storeLocations product) w)
    = Fulfilled result ->
  good product result.
Hypothesis R_after : forall env product result,
  tracked product -> retailer product = bestbuy -> good product result ->
  preserves R (Monitor.afterCheck env product result corr).

Lemma preserves_log l : preserves R (log l).
Proof. intro w. apply R_log. Qed.

Lemma preserves_checkProductInventory env product :
  tracked product ->
  preserves R (Monitor.checkProductInventory env product (Monitor.monitorFactory env) corr).
Proof.
  intro Ht. unfold Monitor.checkProductInventory.
  destruct (getProvider (Monitor.monitorFactory env) (retailer product)) as [provider|] eqn:Ep.
  - destruct (monitorFactory_provider env _ _ Ep) as [self Hself]. rewrite Hself.
    assert (Hr : retailer product = bestbuy).
    { destruct (retailer product) eqn:Er; [reflexivity| | |];
        rewrite no_provider in Ep; try discriminate; left; discriminate. }
    intro w. unfold bind.
    pose proof (preserves_bestBuyCheckInventory R R_refl R_trans R_calls R_clock
                  self env (sku product) (storeLocations product) w) as Hcheck.
    pose proof (good_check self env product w) as Hgood.
    destruct (bestBuyCheckInventory self env (sku product) (storeLocations product) w)
      as [[result|e] w1]; cbn [fst snd] in *; [|exact Hcheck].
    apply (R_trans _ w1); [exact Hcheck|].
    apply R_after; [exact Ht | exact Hr | apply Hgood; reflexivity].
  - apply preserves_log.
Qed.

Lemma preserves_logFailures products : forall results,
  preserves R (Monitor.logFailures products results).
Proof.
  induction products as [|p ps IH]; intros [|r rs]; simpl;
    try apply (preserves_ret _ R_refl).
  apply (preserves_bind _ R_trans); [|intros _; apply IH].
  destruct r; [apply (preserves_ret _ R_refl) | apply preserves_log].
Qed.

Lemma preserves_allSettled_in {A B} (f : A -> M B) (l : list A) (P : A -> Prop) :
  (forall a, P a -> preserves R (f a)) -> Forall P l -> preserves R (allSettled f l).
Proof.
  intros Hf Hl. unfold allSettled. induction Hl as [|a l Ha Hl IH]; simpl.
  - apply (preserves_ret _ R_refl).
  - apply (preserves_bind _ R_trans); [apply preserves_settle, Hf, Ha|]. intro b.
    apply (preserves_bind _ R_trans); [exact IH|]. intro bs. apply (preserves_ret _ R_refl).
Qed.

Lemma preserves_processProducts env startTime products :
  Forall tracked products ->
  preserves R (Monitor.processProducts env startTime corr products).
Proof.
  intro Ht. unfold Monitor.processProducts.
  apply (preserves_bind _ R_trans); [apply preserves_log|]. intros _.
  destruct products as [|p ps]; [apply (preserves_ret _ R_refl)|].
  apply (preserves_bind _ R_trans).
  - apply (preserves_allSettled_in _ _ tracked); [|exact Ht].
    intros q Hq. apply preserves_checkProductInventory. exact Hq.
  - intro results.
    apply (preserves_bind _ R_trans); [intro w; apply R_clock|]. intro t.
    apply (preserves_bind _ R_trans); [apply preserves_log|]. intros _.
    apply preserves_logFailures.
Qed.

(** The try block of the tick and its handler, from the world in which
    they start. *)
Lemma tick_body_frame env startTime w :
  Forall tracked (filter isActive (w_products w)) ->
  R w (snd (catch (Cosmos.getCosmosClient env ;;;
                   ServiceBus.getServiceBusMessenger env ;;;
                   products <- Cosmos.getActiveProducts env ;;
                   Monitor.processProducts env startTime corr products)
                  (fun e => log (LogMonitorError e) ;;; throw e) w)).
Proof.
  intro Ht. unfold catch, Cosmos.getCosmosClient, ServiceBus.getServiceBusMessenger.
  destruct (truthyOpt (getenv env "COSMOS_ENDPOINT")); [|apply R_log].
  rewrite (bind_fulfilled _ _ w w tt eq_refl).
  destruct (truthyOpt (getenv env "SERVICE_BUS_NAMESPACE")); [|apply R_log].
  rewrite (bind_fulfilled _ _ w w tt eq_refl).
  unfold Cosmos.getActiveProducts. rewrite !bind_assoc.
  unfold issue. rewrite bind_assoc.
  rewrite (bind_fulfilled _ _ w (withCalls (fun cs => cs ++ [CosmosQueryActiveProducts]) w) tt
             eq_refl).
  set (w1 := withCalls (fun cs => cs ++ [CosmosQueryActiveProducts]) w).
  assert (H1 : R w w1) by apply R_calls.
  destruct (fault env CosmosQueryActiveProducts) as [e|].
  - cbn. apply (R_trans _ w1); [exact H1 | apply R_log].
  - rewrite (bind_fulfilled _ _ w1 w1 tt eq_refl).
    rewrite (bind_fulfilled (bind get _) _ w1 w1 (filter isActive (w_products w1)) eq_refl).
    change (w_products w1) with (w_products w).
    pose proof (preserves_processProducts env startTime _ Ht w1) as Hp.
    destruct (Monitor.processProducts env startTime corr (filter isActive (w_products w)) w1)
      as [[[]|e] w2]; cbn [snd] in *.
    + apply (R_trans _ w1); [exact H1 | exact Hp].
    + apply (R_trans _ w1); [exact H1|]. apply (R_trans _ w2); [exact Hp | apply R_log].
Qed.

Lemma tick_frame env w :
  uuid env (w_uuids w) = corr ->
  Forall tracked (filter isActive (w_products w)) ->
  R w (snd (Monitor.inventoryMonitor env w)).
Proof.
  intros Hcorr Ht. unfold Monitor.inventoryMonitor.
  set (w1 := snd (newDate env w)).
  set (w2 := snd (uuidv4 env w1)).
  set (w3 := snd (newDate env w2)).
  set (w4 := withLog (fun ls => ls ++ [LogMonitorTriggered (clock env (w_clock w2))]) w3).
  set (w5 := withLog (fun ls => ls ++ [LogCorrelationId (uuid env (w_uuids w))]) w4).
  rewrite (bind_fulfilled _ _ w w1 (clock env (w_clock w)) eq_refl).
  rewrite (bind_fulfilled _ _ w1 w2 (uuid env (w_uuids w)) eq_refl).
  rewrite (bind_fulfilled _ _ w2 w3 (clock env (w_clock w2)) eq_refl).
  rewrite (bind_fulfilled _ _ w3 w4 tt eq_refl).
  rewrite (bind_fulfilled _ _ w4 w5 tt eq_refl).
  rewrite Hcorr.
  apply (R_trans _ w1); [apply R_clock|].
  apply (R_trans _ w2); [apply R_uuid|].
  apply (R_trans _ w3); [apply R_clock|].
  apply (R_trans _ w4); [apply R_log|].
  apply (R_trans _ w5); [apply R_log|].
  apply tick_body_frame. exact Ht.
Qed.

End TickFrame.

(** *** The products container *)

Lemma Forall2_refl_on {A} (P : A -> A -> Prop) (l : list A) :
  (forall a, P a a) -> Forall2 P l l.
Proof. intro H. induction l; constructor; auto. Qed.

Lemma Forall2_trans_on {A} (P : A -> A -> Prop) :
  (forall a b c, P a b -> P b c -> P a c) ->
  forall l1 l2 l3, Forall2 P l1 l2 -> Forall2 P l2 l3 -> Forall2 P l1 l3.
Proof.
  intros Ht l1 l2 l3 H12. revert l3.
  induction H12 as [|a b l1 l2 Hab H12 IH]; intros l3 H23; inversion H23; subst;
    constructor; eauto.
Qed.

Lemma Forall2_nth_error {A} (P : A -> A -> Prop) (l l' : list A) :
  Forall2 P l l' ->
  forall n a, nth_error l n = Some a -> exists b, nth_error l' n = Some b /\ P a b.
Proof.
  induction 1 as [|a b l l' Hab H IH]; intros [|n] x Hx; simpl in *; try discriminate.
  - inversion Hx; subst. eauto.
  - apply IH. exact Hx.
Qed.

Lemma keepsProducts_same frozen w w' :
  w_products w' = w_products w -> w_preferences w' = w_preferences w ->
  Invariants.keepsProducts frozen w w'.
Proof.
  intros Hp Hq. split; [|exact Hq]. rewrite Hp.
  apply Forall2_refl_on. intro a. split; reflexivity.
Qed.

Lemma keepsProducts_trans frozen a b c :
  Invariants.keepsProducts frozen a b -> Invariants.keepsProducts frozen b c ->
  Invariants.keepsProducts frozen a c.
Proof.
  intros [H1 P1] [H2 P2]. split; [|congruence].
  eapply Forall2_trans_on; [|exact H1|exact H2].
  intros x y z [Hxy Fxy] [Hyz Fyz]. split; [congruence|].
  intro Hf. rewrite Fyz; [apply Fxy, Hf|]. rewrite Hxy. exact Hf.
Qed.

(** Replacing the item of a product keeps the ids, and touches no item of
    another id. *)
Lemma replace_keeps frozen (written : MonitoredProduct) (l : list MonitoredProduct) :
  ~ frozen (id written) ->
  Forall2 (fun q q' => id q' = id q /\ (frozen (id q) -> q' = q))
          l (map (fun q => if Cosmos.hasId (id written) q then written else q) l).
Proof.
  intro Hn. induction l as [|q l IH]; simpl; constructor; [|exact IH].
  unfold Cosmos.hasId. destruct (JS.eqb (id q) (id written)) eqn:E.
  - apply eqb_eq in E. split; [congruence|]. intro Hf. rewrite E in Hf. contradiction.
  - split; reflexivity.
Qed.

Lemma afterCheck_preferences env product result corr w1 :
  w_preferences (snd (Monitor.afterCheck env product result corr w1)) = w_preferences w1.
Proof.
  unfold Monitor.afterCheck.
  destruct (negb (Bool.eqb (Monitor.isAvailable (currentStatus product))
                           (Monitor.isAvailable (status result)))); unfold_m; split_faults;
    try reflexivity.
  all: destruct (Monitor.isAvailable (status result)); unfold_m; split_faults; reflexivity.
Qed.

Lemma afterCheck_keepsProducts frozen env product result corr :
  ~ frozen (id product) ->
  preserves (Invariants.keepsProducts frozen) (Monitor.afterCheck env product result corr).
Proof.
  intros Hn w1. split; [|apply afterCheck_preferences].
  destruct (afterCheck_update env product result corr w1) as [_ [Hok [Hko _]]].
  cbv zeta in Hok, Hko.
  match type of Hok with fault env (CosmosReplaceProduct ?p) = None -> _ =>
    set (written := p) in * end.
  destruct (fault env (CosmosReplaceProduct written)) as [e|] eqn:Ef.
  - rewrite Hko; [|left; discriminate].
    apply Forall2_refl_on. intro a. split; reflexivity.
  - destruct (existsb (Cosmos.hasId (id product)) (w_products w1)) eqn:Ex.
    + rewrite (Hok eq_refl eq_refl).
      change (id product) with (id written). apply replace_keeps. exact Hn.
    + rewrite Hko; [|right; reflexivity].
      apply Forall2_refl_on. intro a. split; reflexivity.
Qed.

Lemma tick_keepsProducts frozen env w :
  Forall (fun p => ~ frozen (id p)) (filter isActive (w_products w)) ->
  Invariants.keepsProducts frozen w (snd (Monitor.inventoryMonitor env w)).
Proof.
  intro Ht.
  apply (tick_frame (Invariants.keepsProducts frozen) (fun p => ~ frozen (id p))
           (fun _ _ => True) (uuid env (w_uuids w))).
  - intro w0. apply keepsProducts_same; reflexivity.
  - apply keepsProducts_trans.
  - intros l w0. apply keepsProducts_same; reflexivity.
  - intros c w0. apply keepsProducts_same; reflexivity.
  - intros env' w0. apply keepsProducts_same; reflexivity.
  - intros env' w0. apply keepsProducts_same; reflexivity.
  - intros; exact I.
  - intros env' product result Hn _ _. apply afterCheck_keepsProducts. exact Hn.
  - reflexivity.
  - exact Ht.
Qed.

(** X8. A tick neither adds, removes nor reorders stored products, and
    leaves the preferences alone.  It rewrites only items that bear the id
    of an active product: an item none of whose namesakes is active is
    exactly as it was, at the same place. *)
Theorem tick_touches_active_products_only :
  forall env w,
    let w' := snd (Monitor.inventoryMonitor env w) in
    map id (w_products w') = map id (w_products w)
    /\ w_preferences w' = w_preferences w
    /\ forall n q,
         nth_error (w_products w) n = Some q ->
         (forall p, In p (w_products w) -> id p = id q -> isActive p = false) ->
         nth_error (w_products w') n = Some q.
Proof.
  intros env w w'. subst w'. split; [|split].
  - destruct (tick_keepsProducts (fun _ => False) env w) as [H _].
    { apply Forall_forall. intros p _ []. }
    induction H as [|q q' l l' [Hid _] _ IH]; simpl; [reflexivity | congruence].
  - destruct (tick_keepsProducts (fun _ => False) env w) as [_ H]; [|exact H].
    apply Forall_forall. intros p _ [].
  - intros n q Hq Hinactive.
    destruct (tick_keepsProducts (fun i => i = id q) env w) as [H _].
    { apply Forall_forall. intros p Hp Hid. apply filter_In in Hp. destruct Hp as [Hin Ha].
      rewrite (Hinactive p Hin Hid) in Ha. discriminate. }
    destruct (Forall2_nth_error _ _ _ H n q Hq) as [q' [Hq' [_ Hsame]]].
    rewrite Hq', Hsame; reflexivity.
Qed.

(** *** What a tick appends *)

Lemma linked_nil corr : Invariants.linked corr [] [] [].
Proof. repeat split; constructor. Qed.

Lemma appendsLinked_same corr w w' :
  w_history w' = w_history w -> w_events w' = w_events w ->
  w_notifications w' = w_notifications w ->
  Invariants.appendsLinked corr w w'.
Proof.
  intros H1 H2 H3. exists [], [], []. rewrite !app_nil_r.
  repeat split; auto; constructor.
Qed.

Lemma appendsLinked_trans corr a b c :
  Invariants.appendsLinked corr a b -> Invariants.appendsLinked corr b c ->
  Invariants.appendsLinked corr a c.
Proof.
  intros [hs1 [es1 [qs1 [Hh1 [He1 [Hq1 [Lh1 [Le1 Lq1]]]]]]]]
         [hs2 [es2 [qs2 [Hh2 [He2 [Hq2 [Lh2 [Le2 Lq2]]]]]]]].
  exists (hs1 ++ hs2), (es1 ++ es2), (qs1 ++ qs2).
  split; [rewrite Hh2, Hh1, app_assoc; reflexivity|].
  split; [rewrite He2, He1, app_assoc; reflexivity|].
  split; [rewrite Hq2, Hq1, app_assoc; reflexivity|].
  split; [apply Forall_app; split; assumption|]. split.
  - apply Forall_app. split.
    + eapply Forall_impl; [|exact Le1].
      intros e [Hc [Hs [h [Hin Hr]]]]. repeat split; auto.
      exists h. split; [apply in_or_app; left; exact Hin | exact Hr].
    + eapply Forall_impl; [|exact Le2].
      intros e [Hc [Hs [h [Hin Hr]]]]. repeat split; auto.
      exists h. split; [apply in_or_app; right; exact Hin | exact Hr].
  - apply Forall_app. split.
    + eapply Forall_impl; [|exact Lq1].
      intros q [Hin Hr]. split; [apply in_or_app; left; exact Hin | exact Hr].
    + eapply Forall_impl; [|exact Lq2].
      intros q [Hin Hr]. split; [apply in_or_app; right; exact Hin | exact Hr].
Qed.

(** A check appends nothing, or a history entry; with the entry, nothing
    more, or the event it records; with the event, for a product that
    became available, nothing more or the request that carries it. *)
Lemma afterCheck_appendsLinked env product result corr :
  preserves (Invariants.appendsLinked corr) (Monitor.afterCheck env product result corr).
Proof.
  intro w1. unfold Monitor.afterCheck.
  destruct (negb (Bool.eqb (Monitor.isAvailable (currentStatus product))
                           (Monitor.isAvailable (status result)))); unfold_m; split_faults.
  all: try (apply appendsLinked_same; reflexivity).
  all: destruct (Monitor.isAvailable (status result)) eqn:Enow; unfold_m; split_faults.
  all: try (apply appendsLinked_same; reflexivity).
  all: try (eexists [_], [], []; rewrite ?app_nil_r;
            (split; [reflexivity|]); (split; [reflexivity|]); (split; [reflexivity|]);
            split; [repeat constructor | split; constructor]).
  all: try (eexists [_], [_], []; rewrite ?app_nil_r;
            (split; [reflexivity|]); (split; [reflexivity|]); (split; [reflexivity|]);
            split; [repeat constructor | split; [|constructor]];
            constructor; [|constructor];
            split; [reflexivity|]; split; [reflexivity|];
            eexists; split; [left; reflexivity|];
            repeat split; try reflexivity; simpl; try rewrite Enow; congruence).
  all: eexists [_], [_], [_];
       (split; [reflexivity|]); (split; [reflexivity|]); (split; [reflexivity|]);
       split; [repeat constructor | split];
       (constructor; [|constructor]).
  all: try (split; [reflexivity|]; split; [reflexivity|];
            eexists; split; [left; reflexivity|];
            repeat split; try reflexivity; simpl; try rewrite Enow; congruence).
  all: split; [left; reflexivity|]; repeat split; simpl; try rewrite Enow; reflexivity.
Qed.

(** X9. Whatever a tick adds, it appends, and in a fixed order of
    causes: every notification request added carries an event published in
    the same tick, announcing that the product became available, and bears
    the event's time; every event published has its history entry, added in
    the same tick for the same product, sku, retailer, time and verdict;
    every history entry added expires after 90 days.  All events and requests
    of the tick carry the one correlation id drawn at its start. *)
Theorem tick_appends_linked :
  forall env w,
    let w' := snd (Monitor.inventoryMonitor env w) in
    exists hs es qs,
      w_history w' = w_history w ++ hs
      /\ w_events w' = w_events w ++ es
      /\ w_notifications w' = w_notifications w ++ qs
      /\ Invariants.linked (uuid env (w_uuids w)) hs es qs.
Proof.
  intros env w.
  apply (tick_frame (Invariants.appendsLinked (uuid env (w_uuids w))) (fun _ => True)
           (fun _ _ => True) (uuid env (w_uuids w))).
  - intro w0. apply appendsLinked_same; reflexivity.
  - apply appendsLinked_trans.
  - intros l w0. apply appendsLinked_same; reflexivity.
  - intros c w0. apply appendsLinked_same; reflexivity.
  - intros env' w0. apply appendsLinked_same; reflexivity.
  - intros env' w0. apply appendsLinked_same; reflexivity.
  - intros; exact I.
  - intros env' product result _ _ _. apply afterCheck_appendsLinked.
  - reflexivity.
  - apply Forall_forall. intros p _. exact I.
Qed.

(** *** The requests of a tick *)

Lemma afterCheck_calls env product result corr w1 :
  exists more,
    w_calls (snd (Monitor.afterCheck env product result corr w1)) = w_calls w1 ++ more
    /\ filter isHttp more = [].
Proof.
  unfold Monitor.afterCheck.
  destruct (negb (Bool.eqb (Monitor.isAvailable (currentStatus product))
                           (Monitor.isAvailable (status result)))); unfold_m; split_faults.
  all: try (eexists; split; [rewrite <- ?app_assoc; reflexivity | reflexivity]).
  all: destruct (Monitor.isAvailable (status result)); unfold_m; split_faults.
  all: eexists; split; [rewrite <- ?app_assoc; reflexivity | reflexivity].
Qed.

Lemma no_http_no_product_request (l : list Call) :
  filter isHttp l = [] -> filter Invariants.isProductRequest l = [].
Proof.
  induction l as [|c l IH]; [reflexivity|]. simpl.
  destruct c; simpl; try exact IH; discriminate.
Qed.

(** The product requests of one check: one for a Best Buy product when the
    API key is set, none otherwise. *)
Lemma check_product_requests env product corr w :
  let key := orElse (getenv env "BESTBUY_API_KEY") [] in
  exists more,
    w_calls (snd (Monitor.checkProductInventory env product (Monitor.monitorFactory env) corr w))
    = w_calls w ++ more
    /\ filter Invariants.isProductRequest more
       = if truthy key && RetailerId_eqb (retailer product) bestbuy
         then [HttpGetProduct key (sku product)] else [].
Proof.
  intro key. unfold Monitor.checkProductInventory. rewrite monitorFactory_lookup. fold key.
  destruct (truthy key && RetailerId_eqb (retailer product) bestbuy) eqn:E.
  - apply andb_true_iff in E. destruct E as [Hk Hr]. apply RetailerId_eqb_eq in Hr.
    rewrite Hr, Hk. cbn [asProvider checkInventory].
    set (self := mkBestBuyInventoryProvider key (mkRateLimit 5 None)).
    pose proof (bestBuyCheckInventory_calls self env (sku product) (storeLocations product) w)
      as Hcalls.
    unfold bind.
    destruct (bestBuyCheckInventory self env (sku product) (storeLocations product) w)
      as [[result|e] w1]; cbn [snd] in Hcalls.
    + destruct (afterCheck_calls env product result corr w1) as [more [Hmore Hnone]].
      eexists. split; [rewrite Hmore, Hcalls, <- app_assoc; reflexivity|].
      rewrite filter_app, (no_http_no_product_request _ Hnone), app_nil_r.
      cbn [filter Invariants.isProductRequest bb_apiKey self].
      destruct (storeLocations product) as [[|loc locs]|]; try reflexivity.
      destruct (fst (readProductReply _ w)) as [[p|]|e0]; reflexivity.
    + eexists. split; [exact Hcalls|].
      cbn [filter Invariants.isProductRequest bb_apiKey self].
      destruct (storeLocations product) as [[|loc locs]|]; try reflexivity.
      destruct (fst (readProductReply _ w)) as [[p|]|e0]; reflexivity.
  - exists []. rewrite app_nil_r.
    assert (Hnone : match retailer product with
                    | bestbuy =>
                        if truthy key
                        then Some (asProvider (mkBestBuyInventoryProvider key (mkRateLimit 5 None)))
                        else None
                    | _ => None
                    end = None).
    { destruct (retailer product); try reflexivity.
      destruct (truthy key); [discriminate | reflexivity]. }
    rewrite Hnone. split; reflexivity.
Qed.

Lemma batch_product_requests env corr products : forall w,
  let key := orElse (getenv env "BESTBUY_API_KEY") [] in
  let check := fun p => Monitor.checkProductInventory env p (Monitor.monitorFactory env) corr in
  exists more,
    w_calls (snd (allSettled check products w)) = w_calls w ++ more
    /\ filter Invariants.isProductRequest more
       = map (fun p => HttpGetProduct key (sku p))
             (filter (fun p => truthy key && RetailerId_eqb (retailer p) bestbuy) products).
Proof.
  intros w key check. revert w. induction products as [|p ps IH]; intro w.
  - exists []. rewrite app_nil_r. split; reflexivity.
  - rewrite allSettled_cons.
    destruct (check_product_requests env p corr w) as [m1 [H1 F1]].
    change (Monitor.checkProductInventory env p (Monitor.monitorFactory env) corr w)
      with (check p w) in H1.
    destruct (check p w) as [o w1]. cbn [snd] in H1.
    destruct (IH w1) as [m2 [H2 F2]].
    destruct (allSettled check ps w1) as [[rs|e] w2]; cbn [snd] in *.
    all: exists (m1 ++ m2); split; [rewrite H2, H1, app_assoc; reflexivity|].
    all: rewrite filter_app, F1, F2; fold key; simpl filter.
    all: destruct (truthy key && RetailerId_eqb (retailer p) bestbuy); reflexivity.
Qed.

(** The world a configured tick ends in, as far as the stores and the
    requests go, is the world its batch of checks ends in. *)
Lemma configured_tick env w :
  truthyOpt (getenv env "COSMOS_ENDPOINT") = true ->
  truthyOpt (getenv env "SERVICE_BUS_NAMESPACE") = true ->
  fault env CosmosQueryActiveProducts = None ->
  let products := filter isActive (w_products w) in
  let check := fun p => Monitor.checkProductInventory env p (Monitor.monitorFactory env)
                          (uuid env (w_uuids w)) in
  let w' := snd (Monitor.inventoryMonitor env w) in
  fst (Monitor.inventoryMonitor env w) = Fulfilled tt
  /\ exists results wend,
       allSettled check products (Spec.tickStart env w) = (Fulfilled results, wend)
       /\ w_products w' = w_products wend /\ w_history w' = w_history wend
       /\ w_events w' = w_events wend /\ w_notifications w' = w_notifications wend
       /\ w_calls w' = w_calls wend
       /\ (forall l, In l (w_log wend) -> In l (w_log w'))
       /\ (products <> [] ->
           In (LogCheckComplete (Monitor.countWhere isFulfilled results)
                 (Monitor.countWhere isRejected results)
                 (clock env (w_clock wend) - clock env (w_clock w))) (w_log w')).
Proof.
  intros Hc Hs Hq products check w'. subst w'.
  rewrite (inventoryMonitor_loaded env w Hc Hs Hq). fold products.
  unfold Spec.tickStart. fold products.
  destruct products as [|p ps] eqn:Eps.
  - unfold catch, Monitor.processProducts. unfold_m. split; [reflexivity|].
    exists [], (withLog (fun ls => ls ++ [LogFoundActive 0]) (Spec.tickLoaded env w)).
    repeat split; auto. intro H. contradiction H; reflexivity.
  - assert (Hne : p :: ps <> []) by discriminate.
    destruct (processProducts_spec env (clock env (w_clock w)) (uuid env (w_uuids w))
                (p :: ps) (Spec.tickLoaded env w) Hne) as [results [wend [Hall [Hlen Hrun]]]].
    unfold catch. rewrite Hrun.
    match goal with |- context [Monitor.logFailures (p :: ps) results ?w0] =>
      destruct (logFailures_spec (p :: ps) results w0)
        as [Hf [Hp [Hh [He [Hn [Hcalls [Hkeep Hlines]]]]]]];
      destruct (Monitor.logFailures (p :: ps) results w0) as [o wf] eqn:Elog
    end.
    cbn [fst snd w_products w_history w_events w_notifications w_calls w_log] in *.
    subst o. split; [reflexivity|].
    exists results, wend. fold check in Hall. split; [exact Hall|].
    repeat split; auto.
    + intros l Hl. apply Hkeep. apply in_or_app. left. exact Hl.
    + intros _. apply Hkeep. apply in_or_app. right. left. reflexivity.
Qed.

(** X10. A configured tick asks the Best Buy API about every active
    Best Buy product exactly once, in the order of the product query,
    whatever the outcome of the other checks, and about no other product;
    without an API key it asks about none. *)
Theorem tick_product_requests :
  forall env w,
    truthyOpt (getenv env "COSMOS_ENDPOINT") = true ->
    truthyOpt (getenv env "SERVICE_BUS_NAMESPACE") = true ->
    fault env CosmosQueryActiveProducts = None ->
    let key := orElse (getenv env "BESTBUY_API_KEY") [] in
    let w' := snd (Monitor.inventoryMonitor env w) in
    filter Invariants.isProductRequest (since (w_calls w) (w_calls w'))
    = map (fun p => HttpGetProduct key (sku p))
          (filter (fun p => truthy key && RetailerId_eqb (retailer p) bestbuy)
                  (filter isActive (w_products w))).
Proof.
  intros env w Hc Hs Hq key w'. subst w'.
  destruct (configured_tick env w Hc Hs Hq)
    as [_ [results [wend [Hall [_ [_ [_ [_ [Hcalls _]]]]]]]]].
  rewrite Hcalls.
  destruct (batch_product_requests env (uuid env (w_uuids w)) (filter isActive (w_products w))
              (Spec.tickStart env w)) as [more [Hmore Hfilter]].
  cbv zeta in Hmore. rewrite Hall in Hmore. cbn [snd] in Hmore.
  rewrite Hmore. unfold Spec.tickStart, Spec.tickLoaded. cbn [w_calls withLog].
  rewrite <- app_assoc, since_app. exact Hfilter.
Qed.

(** The three products of the sample world are asked about, in order. *)
Lemma tick_product_requests_witness :
  filter Invariants.isProductRequest
         (since (w_calls Sample.world)
                (w_calls (snd (Monitor.inventoryMonitor Sample.env Sample.world))))
  = map (fun p => HttpGetProduct (js "key-123") (sku p))
        [Sample.console; Sample.ghost; Sample.headset].
Proof.
  apply (tick_product_requests Sample.env Sample.world); reflexivity.
Defined.

(** *** Ticks that check nothing *)

Lemma withLog_app l1 l2 w :
  withLog (fun ls => ls ++ l2) (withLog (fun ls => ls ++ l1) w)
  = withLog (fun ls => ls ++ l1 ++ l2) w.
Proof. unfold withLog. cbn. rewrite <- app_assoc. reflexivity. Qed.

Lemma allSettled_skipped env corr products : forall w,
  (forall p, In p products ->
     retailer p <> bestbuy \/ truthyOpt (getenv env "BESTBUY_API_KEY") = false) ->
  allSettled (fun p => Monitor.checkProductInventory env p (Monitor.monitorFactory env) corr)
             products w
  = (Fulfilled (map (fun _ => Fulfilled tt) products),
     withLog (fun ls => ls ++ map (fun p => LogNoProvider (retailer p)) products) w).
Proof.
  induction products as [|p ps IH]; intros w Hskip.
  - unfold allSettled, withLog. simpl. unfold ret. rewrite app_nil_r. destruct w; reflexivity.
  - rewrite allSettled_cons. unfold Monitor.checkProductInventory at 1.
    rewrite (no_provider env _ (Hskip p (or_introl eq_refl))).
    unfold log, modify. rewrite IH; [|intros q Hq; apply Hskip; right; exact Hq].
    rewrite withLog_app. reflexivity.
Qed.

Lemma countWhere_all_fulfilled {A} (l : list A) :
  Monitor.countWhere isFulfilled (map (fun _ => @Fulfilled unit tt) l) = Z.of_nat (List.length l)
  /\ Monitor.countWhere isRejected (map (fun _ => @Fulfilled unit tt) l) = 0.
Proof.
  induction l as [|a l [IH1 IH2]]; [split; reflexivity|].
  simpl map. rewrite !countWhere_cons, IH1, IH2. cbn [isFulfilled isRejected].
  change (List.length (a :: l)) with (S (List.length l)). rewrite Nat2Z.inj_succ.
  split; lia.
Qed.

(** X11. When no active product has a provider (each is tracked at a
    retailer other than Best Buy, or BESTBUY_API_KEY is missing or empty), a
    configured tick fulfils without checking anything: its only request is
    the product query, it writes to no container and no queue, it logs one
    warning per product, and its summary reports every product as succeeded
    and none as failed. *)
Theorem tick_without_provider :
  forall env w,
    truthyOpt (getenv env "COSMOS_ENDPOINT") = true ->
    truthyOpt (getenv env "SERVICE_BUS_NAMESPACE") = true ->
    fault env CosmosQueryActiveProducts = None ->
    (forall p, In p (w_products w) -> isActive p = true ->
       retailer p <> bestbuy \/ truthyOpt (getenv env "BESTBUY_API_KEY") = false) ->
    let products := filter isActive (w_products w) in
    let w' := snd (Monitor.inventoryMonitor env w) in
    fst (Monitor.inventoryMonitor env w) = Fulfilled tt
    /\ Invariants.sameStores w w'
    /\ since (w_calls w) (w_calls w') = [CosmosQueryActiveProducts]
    /\ (forall p, In p products -> In (LogNoProvider (retailer p)) (w_log w'))
    /\ (products <> [] ->
        exists duration,
          In (LogCheckComplete (Z.of_nat (List.length products)) 0 duration) (w_log w')).
Proof.
  intros env w Hc Hs Hq Hskip products w'. subst w'.
  destruct (configured_tick env w Hc Hs Hq)
    as [Hout [results [wend [Hall [Hp [Hh [He [Hn [Hcalls [Hkeep Hsum]]]]]]]]]].
  fold products in Hall, Hsum.
  rewrite allSettled_skipped in Hall.
  2:{ intros p Hin. apply filter_In in Hin. destruct Hin as [Hin Ha]. apply Hskip; assumption. }
  inversion Hall as [[Hres Hwend]]. clear Hall.
  split; [exact Hout|]. split; [|split; [|split]].
  - unfold Invariants.sameStores. rewrite Hp, Hh, He, Hn, <- Hwend.
    destruct (tick_keepsProducts (fun _ => False) env w) as [_ Hpref].
    { apply Forall_forall. intros p _ []. }
    rewrite Hpref. repeat split; reflexivity.
  - rewrite Hcalls, <- Hwend. unfold Spec.tickStart, Spec.tickLoaded. cbn [w_calls withLog].
    apply since_app.
  - intros p Hin. apply Hkeep. rewrite <- Hwend. cbn [w_log withLog].
    apply in_or_app. right. apply in_map_iff. exists p. split; [reflexivity | exact Hin].
  - intro Hne. specialize (Hsum Hne).
    destruct (countWhere_all_fulfilled products) as [H1 H2].
    rewrite <- Hres, H1, H2 in Hsum. eexists. exact Hsum.
Qed.

(** The deployment without BESTBUY_API_KEY: the three products count as
    succeeded although none was looked up. *)
Lemma tick_without_provider_witness :
  let env := mkEnv (fun name => if JS.eqb name (js "BESTBUY_API_KEY") then None
                                else processEnv Sample.env name)
                   (clock Sample.env) (uuid Sample.env) (httpProduct Sample.env)
                   (httpStores Sample.env) (fault Sample.env) (acsSend Sample.env) in
  since (w_calls Sample.world) (w_calls (snd (Monitor.inventoryMonitor env Sample.world)))
  = [CosmosQueryActiveProducts]
  /\ exists duration,
       In (LogCheckComplete 3 0 duration)
          (w_log (snd (Monitor.inventoryMonitor env Sample.world))).
Proof.
  intro env.
  destruct (tick_without_provider env Sample.world eq_refl eq_refl eq_refl)
    as [_ [_ [Hcalls [_ Hsum]]]].
  - intros p _ _. right. reflexivity.
  - split; [exact Hcalls|]. apply Hsum. discriminate.
Defined.

(** What a tick does before its try block: two clock readings, the
    correlation id, two log lines. *)
Lemma inventoryMonitor_prefix env w :
  Monitor.inventoryMonitor env w
  = catch (Cosmos.getCosmosClient env ;;;
           ServiceBus.getServiceBusMessenger env ;;;
           products <- Cosmos.getActiveProducts env ;;
           Monitor.processProducts env (clock env (w_clock w)) (uuid env (w_uuids w)) products)
          (fun e => log (LogMonitorError e) ;;; throw e)
          (mkWorld (w_products w) (w_history w) (w_preferences w) (w_events w)
             (w_notifications w) (w_calls w)
             ((w_log w ++ [LogMonitorTriggered (clock env (S (w_clock w)))])
                ++ [LogCorrelationId (uuid env (w_uuids w))])
             (S (w_uuids w)) (S (S (w_clock w)))).
Proof. reflexivity. Qed.

(** The handler of the tick: the error is logged and thrown again. *)
Lemma tick_handler {A} (m : M A) (w w1 : World) (e : Error) :
  m w = (Rejected e, w1) ->
  catch m (fun e => log (LogMonitorError e) ;;; throw e) w
  = (Rejected e, withLog (fun ls => ls ++ [LogMonitorError e]) w1).
Proof. intro H. unfold catch. rewrite H. reflexivity. Qed.

(** X12. A tick rejects in three cases only, each before any product is
    checked: COSMOS_ENDPOINT is missing or empty, SERVICE_BUS_NAMESPACE is
    missing or empty (both configuration errors, found before any request
    is issued), or the product query is refused, whose error is passed on.
    A rejected tick has written to no container and no queue, and its last
    log line reports the error.  In every other case the tick fulfils,
    whatever the checks did. *)
Theorem tick_rejects_iff :
  forall env w,
    let cosmos := truthyOpt (getenv env "COSMOS_ENDPOINT") in
    let bus := truthyOpt (getenv env "SERVICE_BUS_NAMESPACE") in
    let outcome := fst (Monitor.inventoryMonitor env w) in
    let w' := snd (Monitor.inventoryMonitor env w) in
    outcome = (if negb cosmos then Rejected (configError "COSMOS_ENDPOINT")
               else if negb bus then Rejected (configError "SERVICE_BUS_NAMESPACE")
               else match fault env CosmosQueryActiveProducts with
                    | Some e => Rejected e
                    | None => Fulfilled tt
                    end)
    /\ (forall e, outcome = Rejected e ->
          Invariants.sameStores w w'
          /\ since (w_calls w) (w_calls w')
             = (if cosmos && bus then [CosmosQueryActiveProducts] else [])
          /\ exists lines, w_log w' = lines ++ [LogMonitorError e]).
Proof.
  intros env w cosmos bus outcome w'. subst outcome w'.
  rewrite inventoryMonitor_prefix.
  set (w0 := mkWorld _ _ _ _ _ _ _ _ _).
  destruct cosmos eqn:Ec; [destruct bus eqn:Eb;
    [destruct (fault env CosmosQueryActiveProducts) as [e0|] eqn:Eq|]|]; subst cosmos bus;
    cbn [negb andb].
  - rewrite (tick_handler _ w0 (withCalls (fun cs => cs ++ [CosmosQueryActiveProducts]) w0) e0).
    2:{ unfold Cosmos.getCosmosClient, ServiceBus.getServiceBusMessenger,
          Cosmos.getActiveProducts, issue. rewrite Ec, Eb, Eq. reflexivity. }
    cbn [fst snd]. split; [reflexivity|]. intros e He. inversion He; subst e0.
    split; [repeat split|]. split; [apply since_app|].
    eexists. reflexivity.
  - rewrite <- inventoryMonitor_prefix.
    destruct (configured_tick env w Ec Eb Eq) as [Hout _].
    split; [exact Hout|]. intros e He. rewrite Hout in He. discriminate.
  - rewrite (tick_handler _ w0 w0 (configError "SERVICE_BUS_NAMESPACE")).
    2:{ unfold Cosmos.getCosmosClient, ServiceBus.getServiceBusMessenger.
        rewrite Ec, Eb. reflexivity. }
    cbn [fst snd]. split; [reflexivity|]. intros e He. inversion He; subst e.
    split; [repeat split|]. split; [apply since_same|].
    eexists. reflexivity.
  - rewrite (tick_handler _ w0 w0 (configError "COSMOS_ENDPOINT")).
    2:{ unfold Cosmos.getCosmosClient. rewrite Ec. reflexivity. }
    cbn [fst snd]. split; [reflexivity|]. intros e He. inversion He; subst e.
    split; [repeat split|]. split; [apply since_same|].
    eexists. reflexivity.
Qed.

(** ** The store wrapper *)

(** X13. An entry that was just added and is more recent than every
    stored entry of its product is what getLatestHistoryEntry returns for
    that product; for any other product the answer is what it was before the
    entry was added. *)
Theorem added_entry_is_latest :
  forall env entry w,
    fst (Cosmos.addHistoryEntry env entry w) = Fulfilled tt ->
    fault env (CosmosQueryLatestHistory (h_productId entry)) = None ->
    (forall e, In e (w_history w) -> h_productId e = h_productId entry ->
               h_timestamp e < h_timestamp entry) ->
    let w1 := snd (Cosmos.addHistoryEntry env entry w) in
    w_history w1 = w_history w ++ [entry]
    /\ fst (Cosmos.getLatestHistoryEntry env (h_productId entry) w1) = Fulfilled (Some entry)
    /\ forall other, other <> h_productId entry ->
         fst (Cosmos.getLatestHistoryEntry env other w1)
         = fst (Cosmos.getLatestHistoryEntry env other w).
Proof.
  intros env entry w Hadd Hq Hnew w1.
  assert (Hw1 : w_history w1 = w_history w ++ [entry]).
  { subst w1. revert Hadd. unfold Cosmos.addHistoryEntry. unfold_m. split_faults;
      try discriminate. reflexivity. }
  split; [exact Hw1|]. split.
  - unfold Cosmos.getLatestHistoryEntry. unfold_m. rewrite Hq. unfold_m. rewrite Hw1.
    pose proof (latest_spec (h_productId entry) (w_history w ++ [entry])) as Hl.
    destruct (Cosmos.top1ByTimestampDesc
                (filter (Cosmos.ofProduct (h_productId entry)) (w_history w ++ [entry])))
      as [previous|].
    + destruct Hl as [Hin [Hp Hmax]].
      apply in_app_or in Hin. destruct Hin as [Hin|[<-|[]]]; [|reflexivity].
      specialize (Hnew previous Hin Hp).
      assert (h_timestamp entry <= h_timestamp previous).
      { apply Hmax; [apply in_or_app; right; left; reflexivity | reflexivity]. }
      lia.
    + exfalso. apply (Hl entry); [apply in_or_app; right; left; reflexivity | reflexivity].
  - intros other Hother. unfold Cosmos.getLatestHistoryEntry. unfold_m.
    destruct (fault env (CosmosQueryLatestHistory other)); unfold_m; [reflexivity|].
    rewrite Hw1, filter_app. simpl filter. unfold Cosmos.ofProduct at 2.
    destruct (JS.eqb (h_productId entry) other) eqn:E.
    + apply eqb_eq in E. congruence.
    + rewrite app_nil_r. reflexivity.
Qed.

(** The console sells out after having been in stock. *)
Lemma added_entry_is_latest_witness :
  let entry := mkInventoryHistoryEntry (js "h-2") (js "p-1") out_of_stock 1700000000000
                 bestbuy (js "6428324") false [] (Some 1000000000) (Some 7776000) in
  fst (Cosmos.getLatestHistoryEntry Sample.env (js "p-1")
         (snd (Cosmos.addHistoryEntry Sample.env entry Sample.worldInStock)))
  = Fulfilled (Some entry).
Proof.
  intro entry.
  apply (added_entry_is_latest Sample.env entry Sample.worldInStock).
  - reflexivity.
  - reflexivity.
  - intros e [<-|[]] _. reflexivity.
Defined.

(** X14. updateProduct replaces and never creates: it stamps updatedAt
    with the current time, sends one replace request carrying the stamped
    product, and the container holds as many items afterwards as before.
    When it fulfils, the stamped product, which the caller goes on using,
    stands where the item of that id stood, all other items being
    untouched; when it rejects (the request is refused, or no item has that
    id: 404), the container is as it was. *)
Theorem updateProduct_replaces_only :
  forall env product w,
    let stamped := Cosmos.setUpdatedAt (clock env (w_clock w)) product in
    let run := Cosmos.updateProduct env product w in
    since (w_calls w) (w_calls (snd run)) = [CosmosReplaceProduct stamped]
    /\ List.length (w_products (snd run)) = List.length (w_products w)
    /\ w_history (snd run) = w_history w
    /\ match fst run with
       | Fulfilled returned =>
           returned = stamped
           /\ w_products (snd run)
              = map (fun q => if Cosmos.hasId (id product) q then stamped else q) (w_products w)
           /\ In stamped (w_products (snd run))
       | Rejected e =>
           w_products (snd run) = w_products w
           /\ (fault env (CosmosReplaceProduct stamped) = Some e
               \/ (existsb (Cosmos.hasId (id product)) (w_products w) = false
                   /\ code e = Some 404))
       end.
Proof.
  intros env product w stamped run. subst run.
  unfold Cosmos.updateProduct. unfold_m. fold stamped.
  change (id stamped) with (id product).
  destruct (fault env (CosmosReplaceProduct stamped)) as [e|] eqn:Ef; unfold_m.
  - rewrite since_app. repeat split; auto.
  - destruct (existsb (Cosmos.hasId (id product)) (w_products w)) eqn:Ex; unfold_m.
    + rewrite since_app, length_map. repeat split; auto.
      apply existsb_exists in Ex. destruct Ex as [q [Hq Hid]].
      apply in_map_iff. exists q. rewrite Hid. split; [reflexivity | exact Hq].
    + rewrite since_app. repeat split; auto.
Qed.

(** ** From the adapter to the alert *)

(** Whenever the budget of the name is at least three code units, the
    alert fits in 160. *)
Lemma alert_fits productName retailer addToCartUrl location :
  3 <= 145 - len (Sms.locationText location) - len addToCartUrl ->
  len (Sms.formatAlertMessage productName retailer addToCartUrl location) <= 160.
Proof.
  intro Hb. rewrite formatAlertMessage_length. unfold Sms.truncatedName.
  rewrite maxProductLength_eq.
  set (budget := 145 - len (Sms.locationText location) - len addToCartUrl) in *.
  destruct (len productName >? budget) eqn:E.
  - apply Z.gtb_lt in E.
    destruct (substring_prefix productName (budget - 3)) as [_ Hl]; [lia | lia |].
    rewrite len_app, Hl. change (len (js "...")) with 3. unfold budget. lia.
  - rewrite Z.gtb_ltb in E. apply Z.ltb_ge in E. unfold budget in *. lia.
Qed.

Lemma bestBuyAddToCartUrl_length sku : len (bestBuyAddToCartUrl sku) = 37 + len sku.
Proof.
  unfold bestBuyAddToCartUrl. rewrite !len_app.
  change (len (js "https://api.bestbuy.com/click/-/")) with 32.
  change (len (js "/cart")) with 5. lia.
Qed.

(** The links of a fulfilled check are the adapter's links for the sku. *)
Lemma bestBuyCheckInventory_links self env sku storeLocations w result :
  fst (bestBuyCheckInventory self env sku storeLocations w) = Fulfilled result ->
  r_addToCartUrl result = bestBuyAddToCartUrl sku
  /\ r_productUrl result = bestBuyProductUrl sku.
Proof.
  intro Hres.
  destruct (bestBuyCheckInventory_run self env sku storeLocations w) as [o [Ho Hrun]].
  rewrite Hrun in Hres.
  destruct o as [[productData|]|e]; [|simpl in Hres; discriminate|simpl in Hres; discriminate].
  set (w0 := withCalls _ w) in Hres.
  destruct (checkFound_run self env sku storeLocations productData w0) as [_ Hout].
  rewrite Hres in Hout. destruct Hout as [H1 [H2 _]]. split; assumption.
Qed.

Lemma queueGrewBy_same P w w' :
  w_notifications w' = w_notifications w -> Invariants.queueGrewBy P w w'.
Proof. intro H. exists []. rewrite app_nil_r. split; [exact H | constructor]. Qed.

Lemma queueGrewBy_trans P a b c :
  Invariants.queueGrewBy P a b -> Invariants.queueGrewBy P b c -> Invariants.queueGrewBy P a c.
Proof.
  intros [q1 [H1 F1]] [q2 [H2 F2]]. exists (q1 ++ q2). split.
  - rewrite H2, H1, app_assoc. reflexivity.
  - apply Forall_app. split; assumption.
Qed.

Lemma afterCheck_bestBuyAlert env product result corr :
  retailer product = bestbuy ->
  r_addToCartUrl result = bestBuyAddToCartUrl (sku product) ->
  r_productUrl result = bestBuyProductUrl (sku product) ->
  preserves (Invariants.queueGrewBy Invariants.bestBuyAlert)
            (Monitor.afterCheck env product result corr).
Proof.
  intros Hr Hcart Hurl w1. unfold Monitor.afterCheck.
  destruct (negb (Bool.eqb (Monitor.isAvailable (currentStatus product))
                           (Monitor.isAvailable (status result)))); unfold_m; split_faults.
  all: try (apply queueGrewBy_same; reflexivity).
  all: destruct (Monitor.isAvailable (status result)); unfold_m; split_faults.
  all: try (apply queueGrewBy_same; reflexivity).
  all: eexists [_]; split; [reflexivity|].
  all: constructor; [|constructor].
  all: unfold Invariants.bestBuyAlert; simpl; auto.
Qed.

(** X15. Every request a tick queues shows a Best Buy product with the
    adapter's own links for its sku, whatever links were stored before.
    Hence the SMS alert written for it keeps within 160 code units, for any
    product name, as soon as the sku and the location text together take at
    most 105 code units (a sku of up to 98 code units for an online alert). *)
Theorem queued_alerts_fit :
  forall env w,
    let w' := snd (Monitor.inventoryMonitor env w) in
    exists queued,
      w_notifications w' = w_notifications w ++ queued
      /\ Forall (fun request =>
           let product := ev_product (triggerEvent request) in
           ep_retailer product = bestbuy
           /\ ep_addToCartUrl product = bestBuyAddToCartUrl (ep_sku product)
           /\ ep_productUrl product = bestBuyProductUrl (ep_sku product)
           /\ forall location,
                len (ep_sku product) + len (Sms.locationText location) <= 105 ->
                len (Sms.formatAlertMessage (ep_name product)
                       (Sender.retailerToString (ep_retailer product))
                       (ep_addToCartUrl product) location) <= 160) queued.
Proof.
  intros env w w'. subst w'.
  assert (H : Invariants.queueGrewBy Invariants.bestBuyAlert w
                (snd (Monitor.inventoryMonitor env w))).
  { apply (tick_frame (Invariants.queueGrewBy Invariants.bestBuyAlert) (fun _ => True)
             (fun product result =>
                r_addToCartUrl result = bestBuyAddToCartUrl (sku product)
                /\ r_productUrl result = bestBuyProductUrl (sku product))
             (uuid env (w_uuids w))).
    - intro w0. apply queueGrewBy_same. reflexivity.
    - apply queueGrewBy_trans.
    - intros l w0. apply queueGrewBy_same. reflexivity.
    - intros c w0. apply queueGrewBy_same. reflexivity.
    - intros env' w0. apply queueGrewBy_same. reflexivity.
    - intros env' w0. apply queueGrewBy_same. reflexivity.
    - intros self env' product w0 result. apply bestBuyCheckInventory_links.
    - intros env' product result _ Hr [Hcart Hurl]. apply afterCheck_bestBuyAlert; assumption.
    - reflexivity.
    - apply Forall_forall. intros p _. exact I. }
  destruct H as [queued [Hq Hf]]. exists queued. split; [exact Hq|].
  eapply Forall_impl; [|exact Hf].
  intros request [Hr [Hcart Hurl]]. cbv zeta.
  split; [exact Hr|]. split; [exact Hcart|]. split; [exact Hurl|].
  intros location Hlen. apply alert_fits.
  rewrite Hcart, bestBuyAddToCartUrl_length. lia.
Qed.

(** ** The notification sender: what it sends and what it leaves alone *)

Section SenderFrame.

(** A relation that holds across a log line, a clock reading, the
    recording of a request to ACS and of the read of the preferences holds
    across everything the sender does. *)
Variable R : World -> World -> Prop.
Hypothesis R_refl : forall w, R w w.
Hypothesis R_trans : forall a b c, R a b -> R b c -> R a c.
Hypothesis R_log : forall l w, R w (withLog (fun ls => ls ++ [l]) w).
Hypothesis R_clock : forall env w, R w (snd (newDate env w)).
Hypothesis R_acs : forall from to text w,
  R w (withCalls (fun cs => cs ++ [AcsSend from to text]) w).
Hypothesis R_read : forall w,
  R w (withCalls (fun cs => cs ++ [CosmosReadPreferences]) w).

Local Ltac pret := apply (preserves_ret R R_refl).
Local Ltac pthrow := apply (preserves_throw R R_refl).
Local Ltac pbind := apply (preserves_bind R R_trans).
Local Ltac plog := intro; apply R_log.
Local Ltac pclock := intro; apply R_clock.

Lemma preserves_sendSmsNotification env message phoneNumber :
  preserves R (Sender.sendSmsNotification env message phoneNumber).
Proof.
  unfold Sender.sendSmsNotification, Sms.getSmsService, Sms.newSmsNotificationService.
  pbind.
  { destruct (negb (truthyOpt (getenv env "ACS_ENDPOINT"))); [pthrow | pret]. }
  intro service. pbind; [plog|]. intros _. pbind; [plog|]. intros _.
  apply (preserves_catch R R_trans).
  - pbind.
    + unfold Sms.sendSms. pbind; [intro w; apply R_acs|]. intros _.
      destruct (acsSend env _ _ _); [pret | pthrow].
    + intros [result|]; [|pthrow].
      destruct (successful result).
      * pbind; [plog|]. intros _. pbind; [pclock|]. intro t. pret.
      * pbind; [plog|]. intros _. pbind; [pclock|]. intro t. pret.
  - intro e. pbind; [pclock|]. intro t. pret.
Qed.

Lemma preserves_sendPushNotifications env message subscriptions :
  preserves R (Sender.sendPushNotifications env message subscriptions).
Proof.
  unfold Sender.sendPushNotifications.
  pbind; [plog|]. intros _. pbind; [plog|]. intros _.
  apply (preserves_mapM R R_refl R_trans). intros _.
  pbind; [pclock|]. intro t. pret.
Qed.

Lemma preserves_processChannel env message prefs channel :
  preserves R (Sender.processChannel env message prefs channel).
Proof.
  unfold Sender.processChannel. apply (preserves_catch R R_trans).
  - destruct channel as [| |other].
    + destruct (sms_enabled prefs && truthyOpt (sms_phoneNumber prefs)).
      * pbind; [apply preserves_sendSmsNotification|]. intro r. pret.
      * pbind; [plog|]. intros _. pret.
    + destruct (push_enabled prefs && (0 <? Z.of_nat (List.length (push_subscriptions prefs)))).
      * apply preserves_sendPushNotifications.
      * pbind; [plog|]. intros _. pret.
    + pbind; [plog|]. intros _. pret.
  - intro e. pbind; [plog|]. intros _. pbind; [pclock|]. intro t. pret.
Qed.

Lemma preserves_processChannels env message prefs chans :
  preserves R (Sender.processChannels env message prefs chans).
Proof.
  induction chans as [|c chans IH]; simpl; [pret|].
  pbind; [apply preserves_processChannel|]. intro pushed.
  pbind; [exact IH|]. intro more. pret.
Qed.

Lemma preserves_notificationSender env message :
  preserves R (Sender.notificationSender env message).
Proof.
  unfold Sender.notificationSender. pbind.
  { unfold Sender.started. pbind; [pclock|]. intro t.
    pbind; [plog|]. intros _. pbind; [plog|]. intros _. pbind; [plog|]. intros _. pret. }
  intro startTime. apply (preserves_catch R R_trans).
  - unfold Sender.deliver. pbind.
    + unfold Sender.lookupPreferences, Cosmos.getCosmosClient, Cosmos.getUserPreferences.
      pbind; [destruct (truthyOpt _); [pret | pthrow]|]. intros _.
      apply (preserves_catch R R_trans).
      * pbind.
        { unfold issue. pbind; [intro w; apply R_read|]. intros _.
          destruct (fault env CosmosReadPreferences); [pthrow | pret]. }
        intros _. pbind; [intro w; apply R_refl|]. intro w0. pret.
      * intro e. destruct (code e) as [c|]; [|pthrow].
        destruct (c =? 404); [pret | pthrow].
    + intros [preferences|]; [|plog].
      pbind; [apply preserves_processChannels|]. intro results.
      unfold Sender.conclude. pbind; [pclock|]. intro t. pbind; [plog|]. intros _.
      destruct (_ && _); [pthrow | pret].
  - intro e. pbind; [plog|]. intros _. pthrow.
Qed.

End SenderFrame.

Lemma deliversOnly_refl w : Invariants.deliversOnly w w.
Proof.
  split; [repeat split|]. exists []. rewrite app_nil_r. split; [reflexivity | constructor].
Qed.

Lemma deliversOnly_trans a b c :
  Invariants.deliversOnly a b -> Invariants.deliversOnly b c -> Invariants.deliversOnly a c.
Proof.
  intros [[P1 [H1 [Q1 [E1 N1]]]] [m1 [C1 F1]]] [[P2 [H2 [Q2 [E2 N2]]]] [m2 [C2 F2]]].
  split; [repeat split; congruence|].
  exists (m1 ++ m2). split; [rewrite C2, C1, app_assoc; reflexivity|].
  apply Forall_app. split; assumption.
Qed.

Lemma deliversOnly_quiet w w' :
  Invariants.sameStores w w' -> w_calls w' = w_calls w -> Invariants.deliversOnly w w'.
Proof.
  intros Hs Hc. split; [exact Hs|]. exists []. rewrite app_nil_r.
  split; [exact Hc | constructor].
Qed.

(** X16. The sender only reads and sends: whatever the request, the
    preferences and the outcome, it leaves the products, the history, the
    preferences, the events and the notifications queue exactly as they
    were (so it neither re-queues the request nor counts the attempt), and
    every request it issues is the read of the preferences or a send through
    ACS. *)
Theorem sender_writes_nothing :
  forall env message w,
    let w' := snd (Sender.notificationSender env message w) in
    w_products w' = w_products w
    /\ w_history w' = w_history w
    /\ w_preferences w' = w_preferences w
    /\ w_events w' = w_events w
    /\ w_notifications w' = w_notifications w
    /\ exists more,
         w_calls w' = w_calls w ++ more
         /\ Forall (fun c => c = CosmosReadPreferences \/ isAcsSend c = true) more.
Proof.
  intros env message w.
  assert (H : Invariants.deliversOnly w (snd (Sender.notificationSender env message w))).
  { apply preserves_notificationSender.
    - apply deliversOnly_refl.
    - apply deliversOnly_trans.
    - intros l w0. apply deliversOnly_quiet; [repeat split | reflexivity].
    - intros env' w0. apply deliversOnly_quiet; [repeat split | reflexivity].
    - intros from to text w0. split; [repeat split|].
      eexists [_]. split; [reflexivity|]. constructor; [right; reflexivity | constructor].
    - intro w0. split; [repeat split|].
      eexists [_]. split; [reflexivity|]. constructor; [left; reflexivity | constructor]. }
  destruct H as [[H1 [H2 [H3 [H4 H5]]]] Hcalls]. cbv zeta. auto 10.
Qed.

(** X17. Push delivery is a placeholder: for every subscription it
    reports a successful push result for the request, and it issues no
    request at all and changes nothing but the log and the clock. *)
Theorem push_is_a_placeholder :
  forall env message subscriptions w,
    exists results w',
      Sender.sendPushNotifications env message subscriptions w = (Fulfilled results, w')
      /\ List.length results = List.length subscriptions
      /\ Forall (fun r => res_channel r = push /\ success r = true /\ error r = None
                          /\ res_requestId r = requestId message) results
      /\ w_calls w' = w_calls w
      /\ Invariants.sameStores w w'.
Proof.
  intros env message subscriptions w.
  assert (Hquiet : Invariants.sameStores w
                     (snd (Sender.sendPushNotifications env message subscriptions w))
                   /\ w_calls (snd (Sender.sendPushNotifications env message subscriptions w))
                      = w_calls w).
  { apply (preserves_sendPushNotifications
             (fun a b => Invariants.sameStores a b /\ w_calls b = w_calls a)).
    - intro w0. split; [repeat split | reflexivity].
    - intros a b c [[P1 [H1 [Q1 [E1 N1]]]] C1] [[P2 [H2 [Q2 [E2 N2]]]] C2].
      split; [repeat split|]; congruence.
    - intros l w0. split; [repeat split | reflexivity].
    - intros env' w0. split; [repeat split | reflexivity]. }
  unfold Sender.sendPushNotifications in *. revert Hquiet. unfold_m.
  match goal with |- context [mapM ?f subscriptions ?w0] => generalize w0 end.
  intros w0 Hquiet.
  assert (Hmap : forall subs w1, exists results w',
            mapM (fun _ : PushSubscription =>
                    t <- newDate env ;;
                    ret (mkNotificationResult (requestId message) true push None t)) subs w1
            = (Fulfilled results, w')
            /\ List.length results = List.length subs
            /\ Forall (fun r => res_channel r = push /\ success r = true /\ error r = None
                                /\ res_requestId r = requestId message) results).
  { induction subs as [|s subs IH]; intro w1.
    - exists [], w1. repeat split; constructor.
    - simpl mapM. rewrite (bind_fulfilled _ _ w1 (snd (newDate env w1))
                             (mkNotificationResult (requestId message) true push None
                                (clock env (w_clock w1))) eq_refl).
      destruct (IH (snd (newDate env w1))) as [rs [w' [Hm [Hl Hf]]]].
      unfold bind at 1. rewrite Hm. eexists _, w'. split; [reflexivity|].
      split; [simpl; congruence|]. constructor; [repeat split | exact Hf]. }
  destruct (Hmap subscriptions w0) as [results [w' [Hm [Hl Hf]]]].
  unfold_m. 
  match goal with |- context [mapM ?f subscriptions w0] =>
    change (mapM f subscriptions w0) with
      (mapM (fun _ : PushSubscription =>
               t <- newDate env ;;
               ret (mkNotificationResult (requestId message) true push None t))
            subscriptions w0) end.
  exists results, w'. rewrite Hm.
  split; [reflexivity|]. split; [exact Hl|]. split; [exact Hf|].
  revert Hquiet. unfold_m.
  match goal with |- context [mapM ?f subscriptions w0] =>
    change (mapM f subscriptions w0) with
      (mapM (fun _ : PushSubscription =>
               t <- newDate env ;;
               ret (mkNotificationResult (requestId message) true push None t))
            subscriptions w0) end.
  rewrite Hm. cbn [snd]. intros [Hs Hc]. split; [exact Hc | exact Hs].
Qed.

(** *** SMS delivery *)

(** A run of sendSmsNotification once the service is built. *)
Lemma sendSmsNotification_run env message phoneNumber w :
  truthyOpt (getenv env "ACS_ENDPOINT") = true ->
  let from := orElse (getenv env "ACS_SMS_FROM_NUMBER") [] in
  let event := triggerEvent message in
  let text := Sms.formatAlertMessage (ep_name (ev_product event))
                (Sender.retailerToString (ep_retailer (ev_product event)))
                (ep_addToCartUrl (ev_product event))
                (option_map es_storeName (find es_available (ev_stores event))) in
  exists r w',
    Sender.sendSmsNotification env message phoneNumber w = (Fulfilled r, w')
    /\ w_calls w' = w_calls w ++ [Invariants.smsCall env message phoneNumber]
    /\ res_channel r = sms
    /\ res_requestId r = requestId message
    /\ match acsSend env from phoneNumber text with
       | Fulfilled (first :: _) =>
           success r = successful first
           /\ error r = if successful first then None
                        else Some (js "SMS delivery failed: "
                                     ++ orElse (errorMessage first) (js "undefined"))
       | Fulfilled [] =>
           success r = false /\ error r = Some (errorToString Sender.undefinedResult)
       | Rejected e =>
           success r = false /\ error r = Some (errorToString e)
       end.
Proof.
  intros He from event text.
  unfold Sender.sendSmsNotification, Sms.getSmsService, Sms.newSmsNotificationService,
    Sms.sendSms, Invariants.smsCall.
  rewrite He. cbn [negb]. unfold_m. cbn [Sms.fromNumber]. fold from event text.
  destruct (acsSend env from phoneNumber text) as [[|first rest]|e]; cbn [hd_error]; unfold_m.
  - eexists _, _. split; [reflexivity|]. repeat split.
  - destruct (successful first); unfold_m; eexists _, _; (split; [reflexivity|]);
      repeat split.
  - eexists _, _. split; [reflexivity|]. repeat split.
Qed.

(** X18. Once the SMS service can be built, sendSmsNotification never
    rejects: it hands exactly one message to ACS and turns whatever comes
    back into a result on the sms channel.  The result is a success exactly
    when the first entry of the answer says so; a failed entry, an empty
    answer and an exception of the ACS client each give a failed result that
    carries the reason. *)
Theorem sendSmsNotification_outcome :
  forall env message phoneNumber w,
    truthyOpt (getenv env "ACS_ENDPOINT") = true ->
    let from := orElse (getenv env "ACS_SMS_FROM_NUMBER") [] in
    let event := triggerEvent message in
    let text := Sms.formatAlertMessage (ep_name (ev_product event))
                  (Sender.retailerToString (ep_retailer (ev_product event)))
                  (ep_addToCartUrl (ev_product event))
                  (option_map es_storeName (find es_available (ev_stores event))) in
    exists r,
      fst (Sender.sendSmsNotification env message phoneNumber w) = Fulfilled r
      /\ since (w_calls w)
               (w_calls (snd (Sender.sendSmsNotification env message phoneNumber w)))
         = [AcsSend from phoneNumber text]
      /\ res_channel r = sms
      /\ res_requestId r = requestId message
      /\ match acsSend env from phoneNumber text with
         | Fulfilled (first :: _) =>
             success r = successful first
             /\ error r = if successful first then None
                          else Some (js "SMS delivery failed: "
                                       ++ orElse (errorMessage first) (js "undefined"))
         | Fulfilled [] =>
             success r = false /\ error r = Some (errorToString Sender.undefinedResult)
         | Rejected e =>
             success r = false /\ error r = Some (errorToString e)
         end.
Proof.
  intros env message phoneNumber w He from event text.
  destruct (sendSmsNotification_run env message phoneNumber w He)
    as [r [w' [Hrun [Hcalls [Hc [Hid Hout]]]]]].
  exists r. rewrite Hrun. cbn [fst snd]. rewrite Hcalls, since_app.
  split; [reflexivity|]. split; [reflexivity|]. split; [exact Hc|]. split; [exact Hid|].
  exact Hout.
Qed.

(** ACS refuses the message: the attempt fulfils with a failed result. *)
Lemma sendSmsNotification_outcome_witness :
  exists r,
    fst (Sender.sendSmsNotification Sample.envUndeliverable Sample.request
           (js "+14255550123") Sample.world) = Fulfilled r
    /\ res_channel r = sms.
Proof.
  destruct (sendSmsNotification_outcome Sample.envUndeliverable Sample.request
              (js "+14255550123") Sample.world eq_refl) as [r [Hr [_ [Hc _]]]].
  exists r. split; [exact Hr | exact Hc].
Defined.

Lemma quiet_refl w : w_calls w = w_calls w.
Proof. reflexivity. Qed.

(** The requests of one turn of the loop over the channels. *)
Lemma processChannel_calls env message prefs channel w :
  w_calls (snd (Sender.processChannel env message prefs channel w))
  = w_calls w
    ++ (if Invariants.isSms channel && Sender.attempted prefs sms
           && truthyOpt (getenv env "ACS_ENDPOINT")
        then [Invariants.smsCall env message (orElse (sms_phoneNumber prefs) [])]
        else []).
Proof.
  unfold Sender.processChannel. destruct channel as [| |other]; cbn [Invariants.isSms andb].
  - unfold Sender.attempted.
    destruct (sms_enabled prefs && truthyOpt (sms_phoneNumber prefs)); cbn [andb].
    + destruct (truthyOpt (getenv env "ACS_ENDPOINT")) eqn:He.
      * destruct (sendSmsNotification_run env message (orElse (sms_phoneNumber prefs) []) w He)
          as [r [w' [Hrun [Hcalls _]]]].
        unfold catch, bind. rewrite Hrun. exact Hcalls.
      * unfold catch, bind.
        rewrite (sms_fails_fast_without_endpoint env message _ w He).
        unfold_m. rewrite app_nil_r. reflexivity.
    + unfold_m. rewrite app_nil_r. reflexivity.
  - rewrite app_nil_r.
    apply (preserves_catch (fun a b => w_calls b = w_calls a)).
    + intros a b c H1 H2. congruence.
    + destruct (push_enabled prefs && (0 <? Z.of_nat (List.length (push_subscriptions prefs)))).
      * apply (preserves_sendPushNotifications (fun a b => w_calls b = w_calls a)).
        -- reflexivity.
        -- intros a b c H1 H2. congruence.
        -- reflexivity.
        -- reflexivity.
      * intro w0. reflexivity.
    + intros e w0. reflexivity.
  - unfold_m. rewrite app_nil_r. reflexivity.
Qed.

(** The requests of the loop over the channels. *)
Lemma processChannels_calls env message prefs chans : forall w,
  w_calls (snd (Sender.processChannels env message prefs chans w))
  = w_calls w
    ++ repeat (Invariants.smsCall env message (orElse (sms_phoneNumber prefs) []))
              (if Sender.attempted prefs sms && truthyOpt (getenv env "ACS_ENDPOINT")
               then List.length (filter Invariants.isSms chans) else 0%nat).
Proof.
  set (sending := Sender.attempted prefs sms && truthyOpt (getenv env "ACS_ENDPOINT")).
  induction chans as [|c chans IH]; intro w.
  - simpl. destruct sending; simpl; rewrite app_nil_r; reflexivity.
  - simpl Sender.processChannels. unfold bind at 1.
    pose proof (processChannel_calls env message prefs c w) as Hc.
    destruct (processChannel_spec env message prefs c w) as [rs [w1 [Hrun _]]].
    rewrite Hrun in *. cbn [snd] in Hc. unfold bind at 1.
    specialize (IH w1).
    destruct (processChannels_spec env message prefs chans w1) as [more [w2 [Hrest _]]].
    rewrite Hrest in *. unfold ret. cbn [snd] in *. rewrite IH, Hc, <- app_assoc. f_equal.
    rewrite <- andb_assoc. fold sending.
    simpl filter. destruct (Invariants.isSms c); cbn [andb]; [|reflexivity].
    destruct sending; reflexivity.
Qed.

(** X19. The loop over the channels sends one SMS per occurrence of the
    sms channel in the request, each time the same message to the same
    number, provided SMS is enabled with a phone number and the service can
    be built; otherwise it sends none.  Push and unknown channels send
    nothing.  A request that names sms twice is therefore delivered twice. *)
Theorem sms_sent_per_occurrence :
  forall env message prefs chans w,
    let sending := Sender.attempted prefs sms && truthyOpt (getenv env "ACS_ENDPOINT") in
    since (w_calls w) (w_calls (snd (Sender.processChannels env message prefs chans w)))
    = repeat (Invariants.smsCall env message (orElse (sms_phoneNumber prefs) []))
             (if sending then List.length (filter Invariants.isSms chans) else 0%nat).
Proof.
  intros env message prefs chans w sending. subst sending.
  rewrite processChannels_calls. apply since_app.
Qed.

(** *** Push and the outcome of the sender *)

Lemma processChannels_push_success env message prefs chans :
  In push chans -> Sender.attempted prefs push = true ->
  forall w, exists results w',
    Sender.processChannels env message prefs chans w = (Fulfilled results, w')
    /\ existsb success results = true.
Proof.
  intros Hin Ha. induction chans as [|c chans IH]; [destruct Hin|]. intro w.
  destruct (processChannel_spec env message prefs c w) as [rs [w1 [Hc [Hf Hn]]]].
  destruct (processChannels_spec env message prefs chans w1) as [more [w2 [Hm _]]].
  exists (rs ++ more), w2. split.
  { simpl. unfold bind at 1. rewrite Hc. unfold bind at 1. rewrite Hm. reflexivity. }
  rewrite existsb_app. apply orb_true_iff.
  destruct Hin as [->|Hin].
  - left. unfold Sender.processChannel in Hc. unfold Sender.attempted in Ha. rewrite Ha in Hc.
    destruct (sendPushNotifications_spec env message (push_subscriptions prefs) w)
      as [ps [w' [Hp [Hl Hall]]]].
    unfold catch in Hc. rewrite Hp in Hc. inversion Hc; subst rs w1.
    apply andb_true_iff in Ha. destruct Ha as [_ Ha]. apply Z.ltb_lt in Ha.
    destruct ps as [|r ps]; [simpl in Hl; lia|].
    inversion Hall as [|? ? [_ Hs] _]; subst. simpl. rewrite Hs. reflexivity.
  - right. destruct (IH Hin w1) as [more' [w2' [Hm' Hs]]].
    rewrite Hm in Hm'. inversion Hm'; subst. exact Hs.
Qed.

(** X20. A request that names the push channel, for a user with push
    enabled and at least one subscription, is never handed back to the
    transport: the placeholder's successes count as deliveries, so the
    sender fulfils even when every SMS of the same request failed. *)
Theorem push_attempt_fulfils :
  forall env message w preferences wp,
    Sender.lookupPreferences env (snd (Sender.started env message w))
      = (Fulfilled (Some preferences), wp) ->
    In push (channels message) ->
    Sender.attempted (notifications preferences) push = true ->
    fst (Sender.notificationSender env message w) = Fulfilled tt.
Proof.
  intros env message w preferences wp Hlook Hin Ha.
  assert (Hs : exists t, Sender.started env message w
                         = (Fulfilled t, snd (Sender.started env message w))).
  { eexists. unfold Sender.started. unfold_m. reflexivity. }
  destruct Hs as [t Hs].
  unfold Sender.notificationSender. unfold bind at 1. rewrite Hs.
  rewrite deliver_outcome, Hlook.
  destruct (processChannels_push_success env message (notifications preferences)
              (channels message) Hin Ha wp) as [results [wr [Hrun Hsuccess]]].
  rewrite Hrun, conclude_spec.
  destruct results as [|r rs]; [reflexivity|].
  destruct (forallb Sender.failedResult (r :: rs)) eqn:Ef; [|reflexivity].
  apply existsb_exists in Hsuccess. destruct Hsuccess as [x [Hx Hsx]].
  rewrite forallb_forall in Ef. specialize (Ef x Hx).
  unfold Sender.failedResult in Ef. rewrite Hsx in Ef. discriminate.
Qed.

(** ACS refuses every message, yet a request for sms and push fulfils. *)
Lemma push_attempt_fulfils_witness :
  let preferences :=
    mkUserPreferences (js "default")
      (mkNotificationPreferences true (Some (js "+14255550123")) true
         [mkPushSubscription (js "https://push.example.net/s/1") (js "p256dh") (js "auth")])
      30 10 1699000000000 1699000000000 in
  let message :=
    mkNotificationRequest (requestId Sample.request) (nr_timestamp Sample.request)
      (triggerEvent Sample.request) [sms; push] 0 3 (nr_correlationId Sample.request) in
  fst (Sender.notificationSender Sample.envUndeliverable message
         (mkWorld [] [] (Some preferences) [] [] [] [] 0 0)) = Fulfilled tt.
Proof.
  intros preferences message.
  eapply (push_attempt_fulfils Sample.envUndeliverable message _ preferences).
  - reflexivity.
  - right. left. reflexivity.
  - reflexivity.
Defined.

(** *** No preferences *)

(** X21. When the store client can be built and there are no
    preferences (the read gives none, or is refused with code 404), the
    sender fulfils without attempting anything: its only request is the read
    and its last log line says that no preferences were found. *)
Theorem no_preferences_no_delivery :
  forall env message w,
    truthyOpt (getenv env "COSMOS_ENDPOINT") = true ->
    (fault env CosmosReadPreferences = None /\ w_preferences w = None)
    \/ (exists e, fault env CosmosReadPreferences = Some e /\ code e = Some 404) ->
    let w' := snd (Sender.notificationSender env message w) in
    fst (Sender.notificationSender env message w) = Fulfilled tt
    /\ since (w_calls w) (w_calls w') = [CosmosReadPreferences]
    /\ exists lines, w_log w' = lines ++ [LogNoPreferences].
Proof.
  intros env message w Hc Hnone w'. subst w'.
  unfold Sender.notificationSender, Sender.started, Sender.deliver, Sender.lookupPreferences,
    Cosmos.getCosmosClient, Cosmos.getUserPreferences.
  rewrite Hc. unfold_m.
  destruct Hnone as [[Hf Hp]|[e [Hf He]]]; rewrite Hf; unfold_m.
  - rewrite Hp. unfold_m. rewrite since_app.
    split; [reflexivity|]. split; [reflexivity|]. eexists. reflexivity.
  - rewrite He. cbn [Z.eqb Pos.eqb]. unfold_m. rewrite since_app.
    split; [reflexivity|]. split; [reflexivity|]. eexists. reflexivity.
Qed.

(** The sample deployment before any preferences were saved. *)
Lemma no_preferences_no_delivery_witness :
  fst (Sender.notificationSender Sample.env Sample.request Sample.emptyWorld) = Fulfilled tt.
Proof.
  apply (no_preferences_no_delivery Sample.env Sample.request Sample.emptyWorld eq_refl).
  left. split; reflexivity.
Defined.

(** ** The length of the alert, in every case *)

(** [substring(0, n)] for [n <= 0] is the empty string. *)
Lemma substring_nonpositive (s : jstring) (n : Z) : n <= 0 -> substring s 0 n = [].
Proof.
  intro Hn. unfold substring, clampIndex.
  pose proof (len_nonneg s) as Hs.
  replace (Z.min (Z.max 0 0) (len s)) with 0 by lia.
  replace (Z.min (Z.max n 0) (len s)) with 0 by lia.
  reflexivity.
Qed.

(** X22. The alert keeps within 160 code units exactly when the name
    fits its budget (145 less the location text and the link), or that
    budget is at least two code units.  A name that does not fit a budget of
    three or more is cut so that the alert is 159 code units long; with a
    smaller budget nothing of the name is shown but the ellipsis, the link
    is still given whole, and the alert is 162 less the budget long. *)
Theorem alert_within_160_iff :
  forall productName retailer addToCartUrl location,
    let budget := 145 - len (Sms.locationText location) - len addToCartUrl in
    let alert := Sms.formatAlertMessage productName retailer addToCartUrl location in
    (len alert <= 160 <-> len productName <= budget \/ 2 <= budget)
    /\ (budget < len productName -> 3 <= budget -> len alert = 159)
    /\ (budget < len productName -> budget < 3 ->
        Sms.truncatedName productName addToCartUrl location = js "..."
        /\ len alert = 162 - budget).
Proof.
  intros productName retailer addToCartUrl location budget alert.
  assert (Hlen : len alert
                 = 14 + len (Sms.locationText location)
                   + len (Sms.truncatedName productName addToCartUrl location)
                   + len addToCartUrl) by apply formatAlertMessage_length.
  assert (Hshown : (len productName <= budget ->
                    Sms.truncatedName productName addToCartUrl location = productName)
                   /\ (budget < len productName -> 3 <= budget ->
                       len (Sms.truncatedName productName addToCartUrl location) = budget)
                   /\ (budget < len productName -> budget < 3 ->
                       Sms.truncatedName productName addToCartUrl location = js "...")).
  { unfold Sms.truncatedName. rewrite maxProductLength_eq. fold budget.
    destruct (len productName >? budget) eqn:E.
    - apply Z.gtb_lt in E. split; [lia|]. split.
      + intros _ H3. destruct (substring_prefix productName (budget - 3)) as [_ Hl]; try lia.
        rewrite len_app, Hl. change (len (js "...")) with 3. lia.
      + intros _ H3. rewrite substring_nonpositive by lia. reflexivity.
    - rewrite Z.gtb_ltb in E. apply Z.ltb_ge in E. split; [reflexivity|]. split; lia. }
  destruct Hshown as [Hfit [Hcut Hdots]].
  split; [|split].
  - destruct (Z_le_gt_dec (len productName) budget) as [Hle|Hgt].
    + rewrite Hlen, (Hfit Hle). unfold budget in *. split; [auto | lia].
    + destruct (Z_lt_le_dec budget 3) as [H3|H3].
      * rewrite Hlen, (Hdots ltac:(lia) H3). change (len (js "...")) with 3.
        unfold budget in *. lia.
      * rewrite Hlen, (Hcut ltac:(lia) H3). unfold budget in *. lia.
  - intros Hgt H3. rewrite Hlen, (Hcut Hgt H3). unfold budget. lia.
  - intros Hgt H3. split; [exact (Hdots Hgt H3)|].
    rewrite Hlen, (Hdots Hgt H3). change (len (js "...")) with 3. unfold budget. lia.
Qed.

(** ** The HTTP API *)

(** *** Authentication *)

Lemma isPrefix_app (p s : jstring) : Api.isPrefix p (p ++ s) = true.
Proof.
  induction p as [|x p IH]; simpl; [reflexivity|].
  rewrite N.eqb_refl. exact IH.
Qed.

Lemma removeFirst_prefix (p s : jstring) : Api.removeFirst p (p ++ s) = s.
Proof.
  destruct p as [|x p].
  - destruct s; reflexivity.
  - change (Api.removeFirst (x :: p) ((x :: p) ++ s))
      with (if Api.isPrefix (x :: p) ((x :: p) ++ s)
            then skipn (List.length (x :: p)) ((x :: p) ++ s)
            else x :: Api.removeFirst (x :: p) (p ++ s)).
    rewrite isPrefix_app. clear.
    generalize (x :: p). intro l. induction l; simpl; auto.
Qed.

Lemma eqb_truthy (a b : jstring) : truthy b = true -> JS.eqb a b = true -> truthy a = true.
Proof. intros Hb H. apply eqb_eq in H. subst. exact Hb. Qed.

(** X23. Without an API_KEY (missing or empty) validateApiKey lets every
    request through, with a warning.  With a key, the request's key is the
    x-api-key header when that header is present, even empty, and otherwise
    the Authorization header with its first "Bearer " removed; the request
    passes exactly when that key is the configured one.  So a Bearer token
    equal to the key passes, a request without either header fails, and an
    empty x-api-key fails whatever Authorization says.  withAuth runs the
    handler for the requests that pass and answers 401 to the others without
    touching anything. *)
Theorem validateApiKey_decision :
  forall env headers,
    (truthyOpt (getenv env "API_KEY") = false ->
     Api.validateApiKey env headers = (true, [Api.WarnAuthDisabled]))
    /\ (forall key,
          getenv env "API_KEY" = Some key -> truthy key = true ->
          Api.validateApiKey env headers
          = (match Api.x_api_key headers with
             | Some k => JS.eqb k key
             | None =>
                 match Api.authorization headers with
                 | Some a => JS.eqb (Api.removeFirst (js "Bearer ") a) key
                 | None => false
                 end
             end, [])
          /\ (Api.x_api_key headers = None ->
              Api.authorization headers = Some (js "Bearer " ++ key) ->
              fst (Api.validateApiKey env headers) = true)
          /\ (Api.x_api_key headers = Some [] ->
              fst (Api.validateApiKey env headers) = false))
    /\ (forall handler w,
          Api.withAuth env headers handler w
          = if fst (Api.validateApiKey env headers)
            then (r <- handler ;;
                  ret (fst r, snd (Api.validateApiKey env headers) ++ snd r)) w
            else (Fulfilled (Api.unauthorizedResponse,
                             snd (Api.validateApiKey env headers)), w)).
Proof.
  intros env headers. split; [|split].
  - intro H. unfold Api.validateApiKey. rewrite H. reflexivity.
  - intros key Hkey Htruthy.
    assert (Hrun : Api.validateApiKey env headers
                   = (match Api.x_api_key headers with
                      | Some k => JS.eqb k key
                      | None =>
                          match Api.authorization headers with
                          | Some a => JS.eqb (Api.removeFirst (js "Bearer ") a) key
                          | None => false
                          end
                      end, [])).
    { unfold Api.validateApiKey. rewrite Hkey. cbn [truthyOpt orElse]. rewrite Htruthy.
      cbn [negb].
      destruct (Api.x_api_key headers) as [k|]; cbn [truthyOpt orElse option_map].
      - destruct (truthy k) eqn:Ek; cbn [negb]; [reflexivity|].
        destruct (JS.eqb k key) eqn:E; [|reflexivity].
        rewrite (eqb_truthy k key Htruthy E) in Ek. discriminate.
      - destruct (Api.authorization headers) as [a|]; cbn [truthyOpt orElse option_map];
          [|reflexivity].
        destruct (truthy (Api.removeFirst (js "Bearer ") a)) eqn:Ek; cbn [negb]; [reflexivity|].
        destruct (JS.eqb (Api.removeFirst (js "Bearer ") a) key) eqn:E; [|reflexivity].
        rewrite (eqb_truthy _ key Htruthy E) in Ek. discriminate. }
    split; [exact Hrun|]. rewrite Hrun. cbn [fst]. split.
    + intros Hx Ha. rewrite Hx, Ha, removeFirst_prefix. apply eqb_refl.
    + intros Hx. rewrite Hx. destruct key; [discriminate | reflexivity].
  - intros handler w. unfold Api.withAuth.
    destruct (Api.validateApiKey env headers) as [[|] lines]; reflexivity.
Qed.

(** *** Phone numbers *)




Lemma isValidE164_shape (phone : jstring) :
  Api.isValidE164 phone = true ->
  exists first rest,
    phone = 43%N :: first :: rest
    /\ (49 <= first <= 57)%N
    /\ (1 <= List.length rest <= 14)%nat
    /\ Forall (fun c => (48 <= c <= 57)%N) rest.
Proof.
  unfold Api.isValidE164. destruct phone as [|plus [|first rest]]; try discriminate.
  intro H.
  repeat match goal with
         | H : (_ && _)%bool = true |- _ => apply andb_true_iff in H; destruct H
         end.
  repeat match goal with
         | H : (_ =? _)%N = true |- _ => apply N.eqb_eq in H
         | H : (_ <=? _)%N = true |- _ => apply N.leb_le in H
         | H : (_ <=? _)%nat = true |- _ => apply Nat.leb_le in H
         end.
  subst plus. exists first, rest. split; [reflexivity|].
  split; [split; assumption|]. split; [split; assumption|].
  apply Forall_forall. intros c Hc.
  match goal with H : forallb _ _ = true |- _ =>
    rewrite forallb_forall in H; specialize (H c Hc); unfold Api.isDigit in H;
    apply andb_true_iff in H; destruct H as [Hlo Hhi]
  end.
  apply N.leb_le in Hlo. apply N.leb_le in Hhi. split; assumption.
Qed.

(** X24. maskPhoneNumber shows at most the first four code units: the
    masked text is as long as the number (four stars for a number of up to
    four code units), and two numbers of the same length that agree on their
    first four code units have the same mask.  A number that isValidE164
    accepts has 3 to 16 code units (a plus and 2 to 15 digits, the first not
    0), and its mask always differs from it: the API never shows a valid
    number whole. *)
Theorem maskPhoneNumber_hides :
  forall phone,
    len (Api.maskPhoneNumber phone) = Z.max 4 (len phone)
    /\ (forall other, len other = len phone -> firstn 4 other = firstn 4 phone ->
          Api.maskPhoneNumber other = Api.maskPhoneNumber phone)
    /\ (Api.isValidE164 phone = true ->
        3 <= len phone <= 16 /\ truthy phone = true
        /\ Api.maskPhoneNumber phone <> phone).
Proof.
  intro phone. split; [|split].
  - unfold Api.maskPhoneNumber. destruct (len phone <=? 4) eqn:E.
    + apply Z.leb_le in E. change (len (js "****")) with 4. lia.
    + apply Z.leb_gt in E.
      destruct (substring_prefix phone 4) as [_ Hl]; try lia.
      rewrite len_app, Hl. unfold len at 1. rewrite repeat_length. lia.
  - intros other Hlen Hfirst. unfold Api.maskPhoneNumber. rewrite Hlen.
    destruct (len phone <=? 4) eqn:E; [reflexivity|]. apply Z.leb_gt in E.
    destruct (substring_prefix phone 4) as [Hs _]; try lia.
    destruct (substring_prefix other 4) as [Ho _]; try lia.
    rewrite Hs, Ho. change (Z.to_nat 4) with 4%nat. rewrite Hfirst. reflexivity.
  - intro Hvalid. destruct (isValidE164_shape phone Hvalid) as [first [rest [Hp [Hf [Hl Hd]]]]].
    subst phone. split; [|split; [reflexivity|]].
    + unfold len, jstring, CodeUnit in *. simpl List.length. lia.
    + unfold Api.maskPhoneNumber.
      destruct (len (43%N :: first :: rest) <=? 4) eqn:E.
      * intro H. inversion H.
      * apply Z.leb_gt in E.
        destruct (substring_prefix (43%N :: first :: rest) 4) as [Hs _]; try lia.
        rewrite Hs. change (Z.to_nat 4) with 4%nat.
        destruct rest as [|c [|d [|e rest]]];
          try (unfold len, jstring, CodeUnit in *; simpl in E; simpl in Hl; lia).
        replace (Z.to_nat (len (43%N :: first :: c :: d :: e :: rest) - 4))
          with (S (List.length rest))
          by (unfold len, jstring, CodeUnit; simpl List.length; lia).
        simpl. intro H. injection H as He Hrest. subst e.
        inversion Hd as [|? ? _ Hd1]; subst. inversion Hd1 as [|? ? _ Hd2]; subst.
        inversion Hd2 as [|? ? Hbad _]; subst. lia.
Qed.

(** *** Preferences *)

Ltac unfold_api :=
  unfold Api.handled, Api.awaitJson, Api.getCosmosClient, Api.getUserPreferences,
    Api.updateUserPreferences, Api.createUserPreferences, Api.createProductItem,
    Api.withPreferences;
  unfold_m.

(** X25. updateSmsPreferences never rejects and touches nothing but the
    preferences.  It answers 200 only after storing exactly the request's
    enabled flag and phone number (push settings kept), and it stores a
    non-empty phone number only if isValidE164 accepts it; any other answer
    leaves the preferences as they were.  Nothing ties the flag to the
    number: enabled without a number is stored as such, and then the sender
    does not attempt SMS, which it attempts exactly when the stored flag is
    set and the stored number is not empty. *)
Theorem sms_preferences_saved :
  forall aenv json w,
    let run := Api.updateSmsPreferences aenv json w in
    exists response lines,
      fst run = Fulfilled (response, lines)
      /\ w_products (snd run) = w_products w
      /\ w_history (snd run) = w_history w
      /\ w_events (snd run) = w_events w
      /\ w_notifications (snd run) = w_notifications w
      /\ (Api.rs_status response <> None -> w_preferences (snd run) = w_preferences w)
      /\ (Api.rs_status response = None ->
          exists body previous stored,
            json = Fulfilled body
            /\ w_preferences w = Some previous
            /\ w_preferences (snd run) = Some stored
            /\ notifications stored
               = mkNotificationPreferences (Api.us_enabled body) (Api.us_phoneNumber body)
                   (push_enabled (notifications previous))
                   (push_subscriptions (notifications previous))
            /\ (truthyOpt (Api.us_phoneNumber body) = true ->
                Api.isValidE164 (orElse (Api.us_phoneNumber body) []) = true)
            /\ Sender.attempted (notifications stored) sms
               = Api.us_enabled body && truthyOpt (Api.us_phoneNumber body)
            /\ Api.rs_jsonBody response
               = Api.PreferencesBody (Api.toPreferencesResponse stored)).
Proof.
  intros aenv json w run. subst run. unfold Api.updateSmsPreferences.
  destruct json as [body|e0]; unfold_api.
  2:{ eexists _, _. split; [reflexivity|]. repeat split; try reflexivity.
      intro H. discriminate. }
  destruct (truthyOpt (getenv (Api.processOf aenv) "COSMOS_ENDPOINT")); unfold_api.
  2:{ eexists _, _. split; [reflexivity|]. repeat split; try reflexivity.
      intro H. discriminate. }
  destruct (fault (Api.processOf aenv) CosmosReadPreferences) as [e|]; unfold_api.
  { destruct (code e) as [c|]; [destruct (c =? 404)|]; unfold_api.
    all: eexists _, _; (split; [reflexivity|]); repeat split; try reflexivity.
    all: intro H; discriminate. }
  destruct (w_preferences w) as [previous|] eqn:Hp; unfold_api.
  2:{ eexists _, _. split; [reflexivity|]. repeat split; try reflexivity.
      intro H. discriminate. }
  destruct (truthyOpt (Api.us_phoneNumber body)
            && negb (Api.isValidE164 (orElse (Api.us_phoneNumber body) []))) eqn:Hv;
    unfold_api.
  { eexists _, _. split; [reflexivity|]. repeat split; try reflexivity.
    intro H. discriminate. }
  match goal with |- context [Api.refused aenv ?x] => destruct (Api.refused aenv x) end;
    unfold_api.
  { eexists _, _. split; [reflexivity|]. repeat split; try reflexivity.
    intro H. discriminate. }
  unfold_api.
  eexists _, _. split; [reflexivity|]. repeat split; try reflexivity.
  - intro H. contradiction H. reflexivity.
  - intros _. eexists body, previous, _. repeat split; try reflexivity.
    intro Ht. rewrite Ht in Hv. cbn [andb] in Hv.
    destruct (Api.isValidE164 (orElse (Api.us_phoneNumber body) [])); [reflexivity|discriminate].
Qed.

(** SMS switched on without a number: the API stores it, and the sender
    will not attempt SMS. *)
Example sms_enabled_without_number :
  let run := Api.updateSmsPreferences (Api.mkApiEnv Sample.env (fun _ => None))
               (Fulfilled (Api.mkUpdateSmsPreferencesRequest true None)) Sample.world in
  (exists response lines, fst run = Fulfilled (response, lines)
                          /\ Api.rs_status response = None)
  /\ option_map (fun stored => (sms_enabled (notifications stored),
                                Sender.attempted (notifications stored) sms))
                (w_preferences (snd run)) = Some (true, false).
Proof. vm_compute. split; [eexists _, _; split; reflexivity | reflexivity]. Qed.

(** *** Products *)

Lemma apiFactory_lookup env r :
  getProvider (Api.apiFactory env) r
  = match r with
    | bestbuy =>
        if truthy (orElse (getenv env "BESTBUY_API_KEY") [])
        then Some (asProvider
                     (mkBestBuyInventoryProvider (orElse (getenv env "BESTBUY_API_KEY") [])
                        (mkRateLimit 5 None)))
        else None
    | _ => None
    end.
Proof.
  unfold Api.apiFactory, create. cbn [apiKey].
  destruct (truthy (orElse (getenv env "BESTBUY_API_KEY") [])); destruct r; reflexivity.
Qed.

(** X26. createProduct never rejects, never contacts the retailer (the
    sku is not validated) and touches nothing but the products container.
    It answers 201 only for a Best Buy product with a sku and a name, when
    BESTBUY_API_KEY is set; it then has appended exactly one product: active,
    with a fresh id, never checked (unavailable online and in no store),
    with the adapter's links for the sku and the request time as creation
    and last-check time.  Any other answer leaves the container as it was. *)
Theorem createProduct_outcome :
  forall aenv json w,
    let env := Api.processOf aenv in
    let run := Api.createProduct aenv json w in
    exists response lines,
      fst run = Fulfilled (response, lines)
      /\ w_calls (snd run) = w_calls w
      /\ w_history (snd run) = w_history w
      /\ w_preferences (snd run) = w_preferences w
      /\ w_events (snd run) = w_events w
      /\ w_notifications (snd run) = w_notifications w
      /\ (Api.rs_status response <> Some 201 -> w_products (snd run) = w_products w)
      /\ (Api.rs_status response = Some 201 ->
          exists body product,
            json = Fulfilled body
            /\ Api.cp_retailer body = Some bestbuy
            /\ truthyOpt (Api.cp_sku body) = true
            /\ truthyOpt (Api.cp_name body) = true
            /\ truthyOpt (getenv env "BESTBUY_API_KEY") = true
            /\ w_products (snd run) = w_products w ++ [product]
            /\ id product = uuid env (w_uuids w)
            /\ retailer product = bestbuy
            /\ Api.cp_sku body = Some (sku product)
            /\ Api.cp_name body = Some (name product)
            /\ isActive product = true
            /\ Monitor.isAvailable (currentStatus product) = false
            /\ productUrl product = bestBuyProductUrl (sku product)
            /\ addToCartUrl product = bestBuyAddToCartUrl (sku product)
            /\ createdAt product = clock env (w_clock w)
            /\ lastCheckedAt product = clock env (w_clock w)
            /\ Api.rs_jsonBody response = Api.ProductBody (Api.toProductResponse product)).
Proof.
  intros aenv json w env run. subst run env. unfold Api.createProduct.
  destruct json as [body|e0]; unfold_api.
  2:{ eexists _, _. split; [reflexivity|]. repeat split; try reflexivity.
      intro H. discriminate. }
  destruct (Api.cp_retailer body) as [r|] eqn:Er; unfold_api.
  2:{ eexists _, _. split; [reflexivity|]. repeat split; try reflexivity.
      intro H. discriminate. }
  destruct (Api.cp_sku body) as [s|] eqn:Es; cbn [truthyOpt negb orb]; unfold_api.
  2:{ eexists _, _. split; [reflexivity|]. repeat split; try reflexivity.
      intro H. discriminate. }
  destruct (truthy s) eqn:Ets; cbn [negb orb]; unfold_api.
  2:{ eexists _, _. split; [reflexivity|]. repeat split; try reflexivity.
      intro H. discriminate. }
  destruct (Api.cp_name body) as [n|] eqn:En; cbn [truthyOpt negb orb]; unfold_api.
  2:{ eexists _, _. split; [reflexivity|]. repeat split; try reflexivity.
      intro H. discriminate. }
  destruct (truthy n) eqn:Etn; cbn [negb]; unfold_api.
  2:{ eexists _, _. split; [reflexivity|]. repeat split; try reflexivity.
      intro H. discriminate. }
  rewrite apiFactory_lookup.
  assert (Hkey : truthyOpt (getenv (Api.processOf aenv) "BESTBUY_API_KEY")
                 = truthy (orElse (getenv (Api.processOf aenv) "BESTBUY_API_KEY") [])).
  { destruct (getenv (Api.processOf aenv) "BESTBUY_API_KEY"); reflexivity. }
  destruct r; try (unfold_api; eexists _, _; (split; [reflexivity|]);
                   repeat split; try reflexivity; intro H; discriminate).
  destruct (truthy (orElse (getenv (Api.processOf aenv) "BESTBUY_API_KEY") [])) eqn:Ek; unfold_api.
  2:{ eexists _, _. split; [reflexivity|]. repeat split; try reflexivity.
      intro H. discriminate. }
  destruct (truthyOpt (getenv (Api.processOf aenv) "COSMOS_ENDPOINT")); unfold_api.
  2:{ eexists _, _. split; [reflexivity|]. repeat split; try reflexivity.
      intro H. discriminate. }
  match goal with |- context [Api.refused aenv ?x] => destruct (Api.refused aenv x) end;
    unfold_api.
  { eexists _, _. split; [reflexivity|]. repeat split; try reflexivity.
    intro H. discriminate. }
  match goal with |- context [existsb ?f ?l] => destruct (existsb f l) end; unfold_api.
  { eexists _, _. split; [reflexivity|]. repeat split; try reflexivity.
    intro H. discriminate. }
  eexists _, _. split; [reflexivity|]. repeat split; try reflexivity.
  - intro H. contradiction H. reflexivity.
  - intros _. eexists body, _. rewrite Er, Es, En. cbn [truthyOpt].
    repeat split; try reflexivity; try assumption.
    all: unfold Api.newProduct; cbn [sku name]; rewrite ?Es, ?En; reflexivity.
Qed.

(** Preferences under which no channel is attempted give no result and
    no request. *)
Lemma nothing_attempted env message prefs chans w :
  (forall channel, Sender.attempted prefs channel = false) ->
  fst (Sender.processChannels env message prefs chans w) = Fulfilled []
  /\ w_calls (snd (Sender.processChannels env message prefs chans w)) = w_calls w.
Proof.
  intro Hnone.
  assert (Hex : existsb (Sender.attempted prefs) chans = false).
  { induction chans as [|c chans IH]; [reflexivity|]. simpl. rewrite Hnone. exact IH. }
  split.
  - destruct (processChannels_spec env message prefs chans w) as [results [w' [Hrun [_ Hiff]]]].
    rewrite Hrun. cbn [fst]. f_equal. apply Hiff. exact Hex.
  - rewrite processChannels_calls, (Hnone sms). cbn [andb repeat]. apply app_nil_r.
Qed.

Ltac api_done :=
  eexists _, _; (split; [reflexivity|]); repeat split; try reflexivity; auto;
  try (intros; discriminate).

(** X27. getPreferences never rejects, touches nothing but the
    preferences and never replaces preferences that exist.  When there are
    none and it answers 200, it has stored the defaults, with SMS and push
    both disabled: under them the sender attempts no channel, whatever the
    request, so it collects no result and sends nothing. *)
Theorem default_preferences_send_nothing :
  forall aenv w,
    let run := Api.getPreferences aenv w in
    exists response lines,
      fst run = Fulfilled (response, lines)
      /\ w_products (snd run) = w_products w
      /\ w_history (snd run) = w_history w
      /\ w_events (snd run) = w_events w
      /\ w_notifications (snd run) = w_notifications w
      /\ (forall previous, w_preferences w = Some previous ->
            w_preferences (snd run) = Some previous)
      /\ (w_preferences w = None -> Api.rs_status response = None ->
          exists now,
            w_preferences (snd run) = Some (Api.defaultPreferences now)
            /\ Api.rs_jsonBody response
               = Api.PreferencesBody
                   (Api.mkUserPreferencesResponse false None false 0 30 10)
            /\ (forall channel,
                  Sender.attempted (notifications (Api.defaultPreferences now)) channel = false)
            /\ forall env message chans w0,
                 fst (Sender.processChannels env message
                        (notifications (Api.defaultPreferences now)) chans w0) = Fulfilled []
                 /\ w_calls (snd (Sender.processChannels env message
                                    (notifications (Api.defaultPreferences now)) chans w0))
                    = w_calls w0).
Proof.
  intros aenv w run. subst run. unfold Api.getPreferences. unfold_api.
  assert (Hquiet : forall now channel,
            Sender.attempted (notifications (Api.defaultPreferences now)) channel = false).
  { intros now [| |other]; reflexivity. }
  destruct (truthyOpt (getenv (Api.processOf aenv) "COSMOS_ENDPOINT")); unfold_api;
    [|api_done].
  destruct (fault (Api.processOf aenv) CosmosReadPreferences) as [e|]; unfold_api.
  - destruct (code e) as [c|]; [destruct (c =? 404)|]; unfold_api; [|api_done|api_done].
    match goal with |- context [Api.refused aenv ?x] => destruct (Api.refused aenv x) end;
      unfold_api; [api_done|].
    destruct (w_preferences w) as [previous|] eqn:Hp; unfold_api; [api_done|].
    eexists _, _. split; [reflexivity|]. repeat split; try reflexivity.
    + intros previous H. discriminate.
    + intros _ _. eexists. split; [reflexivity|]. split; [reflexivity|].
      split; [apply Hquiet|]. intros env message chans w0.
      apply nothing_attempted. apply Hquiet.
  - destruct (w_preferences w) as [previous|] eqn:Hp; unfold_api; [api_done|].
    match goal with |- context [Api.refused aenv ?x] => destruct (Api.refused aenv x) end;
      unfold_api; [api_done|].
    eexists _, _. split; [reflexivity|]. repeat split; try reflexivity.
    + intros previous H. discriminate.
    + intros _ _. eexists. split; [reflexivity|]. split; [reflexivity|].
      split; [apply Hquiet|]. intros env message chans w0.
      apply nothing_attempted. apply Hquiet.
Qed.

(** X28. addPushSubscription never rejects and changes nothing but the
    list of push subscriptions: a subscription whose endpoint is already
    listed is not added again, a new one goes to the end, so endpoints that
    were distinct stay distinct.  After a 201 the endpoint of the request is
    listed.  Push is not switched on by it: the enabled flag and the SMS
    settings are as they were. *)
Theorem push_subscriptions_stay_distinct :
  forall aenv json w,
    let run := Api.addPushSubscription aenv json w in
    exists response lines,
      fst run = Fulfilled (response, lines)
      /\ w_products (snd run) = w_products w
      /\ w_history (snd run) = w_history w
      /\ w_events (snd run) = w_events w
      /\ w_notifications (snd run) = w_notifications w
      /\ (w_preferences w = None -> w_preferences (snd run) = None)
      /\ forall previous,
           w_preferences w = Some previous ->
           exists stored,
             w_preferences (snd run) = Some stored
             /\ sms_enabled (notifications stored) = sms_enabled (notifications previous)
             /\ sms_phoneNumber (notifications stored)
                = sms_phoneNumber (notifications previous)
             /\ push_enabled (notifications stored) = push_enabled (notifications previous)
             /\ (push_subscriptions (notifications stored)
                 = push_subscriptions (notifications previous)
                 \/ exists subscription,
                      push_subscriptions (notifications stored)
                      = push_subscriptions (notifications previous) ++ [subscription]
                      /\ ~ In (ps_endpoint subscription)
                              (map ps_endpoint (push_subscriptions (notifications previous))))
             /\ (NoDup (map ps_endpoint (push_subscriptions (notifications previous))) ->
                 NoDup (map ps_endpoint (push_subscriptions (notifications stored))))
             /\ (Api.rs_status response = Some 201 ->
                 exists body endpoint,
                   json = Fulfilled body
                   /\ Api.pq_endpoint body = Some endpoint
                   /\ In endpoint
                         (map ps_endpoint (push_subscriptions (notifications stored)))).
Proof.
  intros aenv json w run. subst run. unfold Api.addPushSubscription.
  assert (Hkeep : forall previous : UserPreferences,
            sms_enabled (notifications previous) = sms_enabled (notifications previous)
            /\ sms_phoneNumber (notifications previous)
               = sms_phoneNumber (notifications previous)
            /\ push_enabled (notifications previous) = push_enabled (notifications previous)
            /\ (push_subscriptions (notifications previous)
                = push_subscriptions (notifications previous)
                \/ exists subscription,
                     push_subscriptions (notifications previous)
                     = push_subscriptions (notifications previous) ++ [subscription]
                     /\ ~ In (ps_endpoint subscription)
                             (map ps_endpoint (push_subscriptions (notifications previous))))
            /\ (NoDup (map ps_endpoint (push_subscriptions (notifications previous))) ->
                NoDup (map ps_endpoint (push_subscriptions (notifications previous))))).
  { intro previous. repeat split; auto. }
  assert (Hsame : forall (response : Api.HttpResponseInit) (wend : World),
            Api.rs_status response <> Some 201 ->
            w_preferences wend = w_preferences w ->
            forall previous,
              w_preferences w = Some previous ->
              exists stored,
                w_preferences wend = Some stored
                /\ sms_enabled (notifications stored) = sms_enabled (notifications previous)
                /\ sms_phoneNumber (notifications stored)
                   = sms_phoneNumber (notifications previous)
                /\ push_enabled (notifications stored) = push_enabled (notifications previous)
                /\ (push_subscriptions (notifications stored)
                    = push_subscriptions (notifications previous)
                    \/ exists subscription,
                         push_subscriptions (notifications stored)
                         = push_subscriptions (notifications previous) ++ [subscription]
                         /\ ~ In (ps_endpoint subscription)
                                 (map ps_endpoint
                                    (push_subscriptions (notifications previous))))
                /\ (NoDup (map ps_endpoint (push_subscriptions (notifications previous))) ->
                    NoDup (map ps_endpoint (push_subscriptions (notifications stored))))
                /\ (Api.rs_status response = Some 201 ->
                    exists body endpoint,
                      json = Fulfilled body
                      /\ Api.pq_endpoint body = Some endpoint
                      /\ In endpoint
                            (map ps_endpoint (push_subscriptions (notifications stored))))).
  { intros response wend Hst Hw previous Hp. exists previous. rewrite Hw.
    split; [exact Hp|]. destruct (Hkeep previous) as [H1 [H2 [H3 [H4 H5]]]].
    repeat split; auto. intro H. contradiction. }
  destruct json as [body|e0]; unfold_api.
  2:{ eexists _, _. split; [reflexivity|]. repeat split; try reflexivity; auto.
      apply Hsame; [discriminate | reflexivity]. }
  destruct (Api.pq_endpoint body) as [endpoint|] eqn:Ee; cbn [truthyOpt negb orb orElse];
    unfold_api.
  2:{ eexists _, _. split; [reflexivity|]. repeat split; try reflexivity; auto.
      apply Hsame; [discriminate | reflexivity]. }
  destruct (negb (truthy endpoint) || negb (truthyOpt (Api.pq_p256dh body))
            || negb (truthyOpt (Api.pq_auth body))); unfold_api.
  { eexists _, _. split; [reflexivity|]. repeat split; try reflexivity; auto.
    apply Hsame; [discriminate | reflexivity]. }
  destruct (truthyOpt (getenv (Api.processOf aenv) "COSMOS_ENDPOINT")); unfold_api.
  2:{ eexists _, _. split; [reflexivity|]. repeat split; try reflexivity; auto.
      apply Hsame; [discriminate | reflexivity]. }
  destruct (fault (Api.processOf aenv) CosmosReadPreferences) as [e|]; unfold_api.
  { destruct (code e) as [c|]; [destruct (c =? 404)|]; unfold_api.
    all: eexists _, _; (split; [reflexivity|]); repeat split; try reflexivity; auto.
    all: apply Hsame; [discriminate | reflexivity]. }
  destruct (w_preferences w) as [previous|] eqn:Hp; unfold_api.
  2:{ eexists _, _. split; [reflexivity|]. repeat split; try reflexivity; auto.
      intros previous H. discriminate. }
  destruct (existsb (fun s => JS.eqb (ps_endpoint s) endpoint)
                    (push_subscriptions (notifications previous))) eqn:Ex;
    cbn [negb]; unfold_api.
  { eexists _, _. split; [reflexivity|]. repeat split; try reflexivity; try discriminate.
    intros p Hq. inversion Hq; subst p. exists previous.
    split; [reflexivity|]. destruct (Hkeep previous) as [H1 [H2 [H3 [H4 H5]]]].
    repeat split; auto. intros _. exists body, endpoint. repeat split; auto.
    apply existsb_exists in Ex. destruct Ex as [s [Hin Hs]]. apply eqb_eq in Hs.
    apply in_map_iff. exists s. split; assumption. }
  match goal with |- context [Api.refused aenv ?x] => destruct (Api.refused aenv x) end;
    unfold_api.
  { eexists _, _. split; [reflexivity|]. repeat split; try reflexivity; try discriminate.
    intros p Hq. inversion Hq; subst p. exists previous.
    split; [reflexivity|]. destruct (Hkeep previous) as [H1 [H2 [H3 [H4 H5]]]].
    repeat split; auto. intro H. discriminate. }
  eexists _, _. split; [reflexivity|]. repeat split; try reflexivity; try discriminate.
  intros p Hq. inversion Hq; subst p. eexists. split; [reflexivity|].
  cbn [notifications Api.setPreferencesUpdatedAt Api.pushSubscription sms_enabled
       sms_phoneNumber push_enabled push_subscriptions].
  assert (Hnew : ~ In endpoint (map ps_endpoint (push_subscriptions (notifications previous)))).
  { intro Hin. apply in_map_iff in Hin. destruct Hin as [s [Hs Hin]].
    assert (Ht : existsb (fun s => JS.eqb (ps_endpoint s) endpoint)
                         (push_subscriptions (notifications previous)) = true).
    { apply existsb_exists. exists s. split; [exact Hin | apply eqb_eq; exact Hs]. }
    congruence. }
  repeat split; try reflexivity.
  - right. eexists. split; [reflexivity | exact Hnew].
  - intro Hnd. rewrite map_app. simpl map.
    apply NoDup_app; [exact Hnd | constructor; [intros [] | constructor] |].
    intros a Ha [<-|[]]. contradiction.
  - intros _. exists body, endpoint. repeat split; auto.
    rewrite map_app. apply in_or_app. right. left. reflexivity.
Qed.
